(** * search_species: occurrence scoring, paginated retrieval and trait cache

    A shallow embedding of the analysis core of the repository:
    - [utils/helpers.py]: [search_gbif_with_retries], [buscar_com_paginacao],
      [get_categoria_flora_brasil], [get_plant_traits];
    - [app.py] and [pages/1_Analisar_Minhas_Especies.py]: the two versions of
      [analisar_ocorrencia_especies].

    Conventions of the embedding.
    - A Python float is an IEEE 754 binary64 number ([F64]): a finite one is
      the rational it denotes, and every operation rounds its exact result
      to the nearest binary64 number.  Coordinates, distances and the
      threshold enter the code as finite floats and are given by their
      rational values; [round] is Python's round-half-to-even.
    - The GBIF client [occ.search], the HTTP client [requests.get] and the
      geometry library (shapely / geopandas) are outside the repository: they
      are interfaces ([Class]es) whose operations the code calls.
    - Effects (network calls, [time.sleep], Streamlit messages) are recorded
      in a chronological trace threaded through a state monad.
    - Streamlit widgets (progress bars, placeholders) are total: they only
      leave trace events. *)

From Stdlib Require Import ZArith QArith Qround Qpower Qabs Lia Lqa String Ascii
  List Bool.
From stdpp Require Import gmap strings list fin_maps.

Local Open Scope Z_scope.
Local Set Warnings "-register-all".

(* ===================================================================== *)
(** * Python primitives                                                   *)
(* ===================================================================== *)

Module Py.

(** [needle in hay] on strings. *)
Fixpoint contains (needle hay : string) : bool :=
  String.prefix needle hay
  || match hay with
     | EmptyString => false
     | String _ rest => contains needle rest
     end.

(** [s.startswith(p)]. *)
Definition startswith (s p : string) : bool := String.prefix p s.

(** [s.split(' ')]: split at every single space; never returns the empty list. *)
Fixpoint split_space_aux (cur : string) (s : string) : list string :=
  match s with
  | EmptyString => [cur]
  | String c rest =>
      if Ascii.eqb c " "%char
      then cur :: split_space_aux EmptyString rest
      else split_space_aux (cur ++ String c EmptyString)%string rest
  end.

Definition split_space (s : string) : list string := split_space_aux EmptyString s.

(** [sep.join(parts)]. *)
Fixpoint join (sep : string) (parts : list string) : string :=
  match parts with
  | [] => EmptyString
  | [p] => p
  | p :: rest => (p ++ sep ++ join sep rest)%string
  end.

(** [s.lower()] on ASCII letters. *)
Definition lower_char (c : ascii) : ascii :=
  let n := nat_of_ascii c in
  if ((65 <=? n) && (n <=? 90))%nat then ascii_of_nat (n + 32) else c.

Fixpoint lower (s : string) : string :=
  match s with
  | EmptyString => EmptyString
  | String c rest => String (lower_char c) (lower rest)
  end.

(** Truthiness of a string: non-empty. *)
Definition str_truthy (s : string) : bool :=
  match s with EmptyString => false | _ => true end.

(** [a < b] and [a >= b] on numbers. *)
Definition ltb (a b : Q) : bool := negb (Qle_bool b a).
Definition geb (a b : Q) : bool := Qle_bool b a.

(** [round(x)] with one argument: nearest integer, ties to the even one. *)
Definition round (x : Q) : Z :=
  let f := Qfloor x in
  match Qcompare (x - inject_Z f) (1 # 2) with
  | Lt => f
  | Gt => f + 1
  | Eq => if Z.even f then f else f + 1
  end.

(** [l[:n]] for an integer [n] (negative [n] counts from the end). *)
Definition slice_to {A} (l : list A) (n : Z) : list A :=
  if n <? 0 then firstn (Z.to_nat (Z.of_nat (length l) + n)) l
  else firstn (Z.to_nat n) l.

End Py.

(* ===================================================================== *)
(** * Python floats                                                       *)
(* ===================================================================== *)

(** A Python (or numpy) float is an IEEE 754 binary64 number: 53 bits of
    significand, exponents of the last place from -1074 to 971.  A finite
    float is kept as the rational it denotes.  An operation on finite
    floats computes the exact rational result and rounds it to the nearest
    binary64 number, ties going to the even significand; a rounded result
    of magnitude 2^1024 or more is an infinity.  Zero carries no sign. *)
Module F64.

Inductive t :=
| Fin (q : Q)
| Inf (negativo : bool)
| NaN.

Definition prec : Z := 53.
Definition emin : Z := -1074.
Definition emax : Z := 1024.

(** 2^k for any integer k. *)
Definition pow2 (k : Z) : Q :=
  match k with
  | Z0 => 1
  | Zpos p => inject_Z (2 ^ Zpos p)
  | Zneg p => 1 # (2 ^ p)
  end.

(** floor(log2 q) for q > 0. *)
Definition ilog2 (q : Q) : Z :=
  let e0 := Z.log2 (Qnum q) - Z.log2 (Zpos (Qden q)) in
  if Qle_bool (pow2 e0) q then e0 else e0 - 1.

(** The exponent of the last place of the floats around q > 0: 52 below
    that of q, and -1074 in the subnormal range. *)
Definition ulp_exp (q : Q) : Z := Z.max (ilog2 q - (prec - 1)) emin.

(** q > 0 rounded to the nearest multiple of its last place, ties to the
    even multiple. *)
Definition arredonda_pos (q : Q) : Q :=
  let c := ulp_exp q in
  (inject_Z (Py.round (q / pow2 c)) * pow2 c)%Q.

(** The value of the float nearest to q, were the exponent unbounded
    above. *)
Definition rndQ (q : Q) : Q :=
  match Qcompare q 0 with
  | Eq => 0%Q
  | Gt => arredonda_pos q
  | Lt => (- arredonda_pos (- q))%Q
  end.

(** The float an exact result q is rounded to. *)
Definition rnd (q : Q) : t :=
  let r := rndQ q in
  if Qle_bool (pow2 emax) (Qabs r) then Inf (negb (Qle_bool 0 r))
  else Fin (Qred r).

(** A decimal literal of the source: the float nearest to it. *)
Definition lit (q : Q) : t := rnd q.

(** [x * y]. *)
Definition mul (x y : t) : t :=
  match x, y with
  | NaN, _ | _, NaN => NaN
  | Inf s, Inf s' => Inf (xorb s s')
  | Inf s, Fin q | Fin q, Inf s =>
      match Qcompare q 0 with
      | Eq => NaN
      | Gt => Inf s
      | Lt => Inf (negb s)
      end
  | Fin a, Fin b => rnd (a * b)
  end.

(** [x / y] on numpy floats: a division by zero gives an infinity or
    NaN. *)
Definition div (x y : t) : t :=
  match x, y with
  | NaN, _ | _, NaN => NaN
  | Inf _, Inf _ => NaN
  | Inf s, Fin q =>
      match Qcompare q 0 with
      | Lt => Inf (negb s)
      | _ => Inf s
      end
  | Fin _, Inf _ => Fin 0
  | Fin a, Fin b =>
      match Qcompare b 0 with
      | Eq =>
          match Qcompare a 0 with
          | Eq => NaN
          | Gt => Inf false
          | Lt => Inf true
          end
      | _ => rnd (a / b)
      end
  end.

(** [x - y]. *)
Definition sub (x y : t) : t :=
  match x, y with
  | NaN, _ | _, NaN => NaN
  | Inf s, Inf s' => if Bool.eqb s s' then NaN else Inf s
  | Inf s, Fin _ => Inf s
  | Fin _, Inf s => Inf (negb s)
  | Fin a, Fin b => rnd (a - b)
  end.

(** [x <= y], [x < y], [x >= y]: false whenever an operand is NaN. *)
Definition leb (x y : t) : bool :=
  match x, y with
  | NaN, _ | _, NaN => false
  | Inf true, _ => true
  | _, Inf false => true
  | Inf false, _ => false
  | _, Inf true => false
  | Fin a, Fin b => Qle_bool a b
  end.

Definition ltb (x y : t) : bool := leb x y && negb (leb y x).
Definition geb (x y : t) : bool := leb y x.

(** [round(x)].  On an infinity or NaN Python raises; the analysis
    reaches [round] with a finite score whenever the distances are not
    negative (lemma [escore_finito]). *)
Definition round (x : t) : Z :=
  match x with
  | Fin q => Py.round q
  | _ => 0
  end.

End F64.

(* ===================================================================== *)
(** * The occurrence API and the effect trace                             *)
(* ===================================================================== *)

(** One occurrence record of a result page; only the keys the analysis
    reads.  A key absent from the record is [None]. *)
Record Registro := {
  decimalLongitude : option Q;
  decimalLatitude : option Q;
  reg_scientificName : option string
}.

(** The dictionary returned by [occ.search]. *)
Record Resposta := {
  count : option Z;
  results : list Registro
}.

(** Keyword arguments of [occ.search] as built by the callers. *)
Record Params := {
  scientificName : option string;
  classe : option string;
  geometry : option string;
  kingdomKey : option Z;
  hasCoordinate : bool;
  limit : Z;
  offset : option Z
}.

(** What one call of [occ.search] does: return a dictionary or raise an
    exception, kept as its [str(e)]. *)
Inductive Desfecho :=
| Retorna (r : Resposta)
| Levanta (mensagem : string).

(** The remote service: the outcome of the [n]-th call (counting from 0
    over the whole run) with the given arguments. *)
Class GBIF := { occ_search : nat -> Params -> Desfecho }.

Inductive Erro :=
| Erro_inesperado (mensagem : string)
| Erro_sem_conexao (max_retries : nat)
| Erro_busca_falhou
| Erro_geometria
| Erro_sem_coluna.

Inductive Evento :=
| Ev_search (p : Params)
| Ev_sleep (segundos : Q)
| Ev_warning (attempt max_retries : nat) (wait_time : Z)
| Ev_warning_busca (especie mensagem : string)
| Ev_error (e : Erro)
| Ev_info (obtidos : nat)
| Ev_success_sem_mais
| Ev_success_final (total : nat)
| Ev_status (especie : string) (indice total : nat)
| Ev_progress (feitos total : nat)
| Ev_concluida.

Definition Mundo := list Evento.

Definition is_search (e : Evento) : bool :=
  match e with Ev_search _ => true | _ => false end.

Definition is_error (e : Evento) : bool :=
  match e with Ev_error _ => true | _ => false end.

Definition is_info (e : Evento) : bool :=
  match e with Ev_info _ => true | _ => false end.

Definition sonos (w : Mundo) : list Q :=
  flat_map (fun e => match e with Ev_sleep s => [s] | _ => [] end) w.

Definition n_chamadas (w : Mundo) : nat := length (List.filter is_search w).
Definition n_erros (w : Mundo) : nat := length (List.filter is_error w).
Definition n_paginas (w : Mundo) : nat := length (List.filter is_info w).

(** State monad over the trace. *)
Definition M (A : Type) : Type := Mundo -> A * Mundo.

Definition ret {A} (a : A) : M A := fun w => (a, w).
Definition bind {A B} (m : M A) (k : A -> M B) : M B :=
  fun w => let (a, w') := m w in k a w'.
Definition emit (e : Evento) : M unit := fun w => (tt, w ++ [e]).

Declare Scope m_scope.
Delimit Scope m_scope with m.
Notation "x <- m ;; k" := (bind m (fun x => k))
  (at level 100, m at next level, right associativity) : m_scope.
Notation "m ;;; k" := (bind m (fun _ => k))
  (at level 100, right associativity) : m_scope.

(** [occ.search] applied to the keyword arguments: the call is logged, its outcome is the
    service's answer to the call of that index. *)
Definition do_search `{GBIF} (p : Params) : M Desfecho :=
  fun w => (occ_search (n_chamadas w) p, w ++ [Ev_search p]).

(* ===================================================================== *)
(** * The geometry library                                                *)
(* ===================================================================== *)

(** [shapely.geometry.Point(x, y)]. *)
Record Ponto := { ponto_x : Q; ponto_y : Q }.

(** The operations of shapely / geopandas / pygbif the code calls on
    geometries.  [wkt_rewind g] is
    [utils.wkt_rewind(g.wkt, digits=6)], [None] when it raises. *)
Class Geo := {
  Geometria : Type;
  within : Ponto -> Geometria -> bool;
  unary_union : list Geometria -> Geometria;
  distance : Geometria -> Ponto -> Q;
  wkt_rewind : Geometria -> option string
}.

(** The geometry column of the area's [GeoDataFrame], one entry per row. *)
Definition GeoDataFrame `{Geo} : Type := list Geometria.

(* ===================================================================== *)
(** * utils/helpers.py                                                    *)
(* ===================================================================== *)

Module Helpers.

Local Open Scope m_scope.

Definition is_connection_error (mensagem : string) : bool :=
  Py.contains "Connection" mensagem || Py.contains "RemoteDisconnected" mensagem.

(** Body of [for attempt in range(max_retries)], then the code after the
    loop. *)
Fixpoint for_attempt `{GBIF} (params : Params) (max_retries : nat)
    (attempts : list nat) : M (option Resposta) :=
  match attempts with
  | [] =>
      emit (Ev_error (Erro_sem_conexao max_retries)) ;;;
      ret None
  | attempt :: rest =>
      d <- do_search params ;;
      match d with
      | Retorna r => ret (Some r)
      | Levanta e =>
          if is_connection_error e then
            let wait_time := 2 ^ (Z.of_nat attempt + 1) in
            emit (Ev_warning (attempt + 1) max_retries wait_time) ;;;
            emit (Ev_sleep (inject_Z wait_time)) ;;;
            for_attempt params max_retries rest
          else
            emit (Ev_error (Erro_inesperado e)) ;;;
            ret None
      end
  end.

Definition search_gbif_with_retries `{GBIF} (params : Params)
    (max_retries : nat) : M (option Resposta) :=
  for_attempt params max_retries (seq 0 max_retries).

(** The default [max_retries=4]. *)
Definition max_retries_default : nat := 4.

Definition passo : Z := 300.

Definition params_pagina (geometria_wkt : string) (reino_key : Z) (offset : Z)
    : Params :=
  {| scientificName := None; classe := None;
     geometry := Some geometria_wkt; kingdomKey := Some reino_key;
     hasCoordinate := true; limit := passo; offset := Some offset |}.

(** The [while offset < limite_registros] loop.  [fuel] bounds the number
    of iterations; [None] means the bound was hit before the loop ended. *)
Fixpoint while_offset `{GBIF} (fuel : nat) (geometria_wkt : string)
    (reino_key limite_registros : Z) (offset : Z)
    (todos_os_resultados : list Registro) : M (option (list Registro)) :=
  match fuel with
  | O => ret None
  | S fuel' =>
      if offset <? limite_registros then
        emit (Ev_info (length todos_os_resultados)) ;;;
        registros_pagina <-
          search_gbif_with_retries
            (params_pagina geometria_wkt reino_key offset)
            max_retries_default ;;
        match registros_pagina with
        | None =>
            emit (Ev_error Erro_busca_falhou) ;;;
            ret (Some todos_os_resultados)
        | Some pagina =>
            match results pagina with
            | [] =>
                emit Ev_success_sem_mais ;;;
                ret (Some todos_os_resultados)
            | resultados_da_pagina =>
                emit (Ev_sleep (1 # 5)) ;;;
                while_offset fuel' geometria_wkt reino_key limite_registros
                  (offset + passo)
                  (todos_os_resultados ++ resultados_da_pagina)
            end
        end
      else ret (Some todos_os_resultados)
  end.

(** Iterations granted to the loop: the offset grows by [passo] each time,
    so [limite_registros] of them are never all used. *)
Definition fuel_of (limite_registros : Z) : nat := S (Z.to_nat limite_registros).

(** [buscar_com_paginacao]; the result is [None] only if the loop did not
    finish within [fuel_of limite_registros] iterations. *)
Definition buscar_com_paginacao `{GBIF} `{Geo} (gdf_area : option GeoDataFrame)
    (reino_key limite_registros : Z) : M (option (list Registro)) :=
  match gdf_area with
  | None => ret (Some [])
  | Some area =>
      match wkt_rewind (unary_union area) with
      | None =>
          emit (Ev_error Erro_geometria) ;;;
          ret (Some [])
      | Some geometria_wkt =>
          r <- while_offset (fuel_of limite_registros) geometria_wkt reino_key
                 limite_registros 0 [] ;;
          match r with
          | None => ret None
          | Some todos_os_resultados =>
              emit (Ev_success_final (length todos_os_resultados)) ;;;
              ret (Some (Py.slice_to todos_os_resultados limite_registros))
          end
      end
  end.

(** ** The trait lookup *)

(** A decoded JSON document. *)
Inductive Json :=
| JNull
| JBool (b : bool)
| JNum (q : Q)
| JStr (s : string)
| JArr (itens : list Json)
| JObj (campos : list (string * Json)).

(** Python truthiness of a decoded JSON value. *)
Definition truthy (j : Json) : bool :=
  match j with
  | JNull => false
  | JBool b => b
  | JNum q => negb (Qeq_bool q 0)
  | JStr s => Py.str_truthy s
  | JArr itens => match itens with [] => false | _ => true end
  | JObj campos => match campos with [] => false | _ => true end
  end.

(** A computation that returns or raises an exception that is not a
    [requests.exceptions.RequestException]. *)
Inductive Exc (A : Type) :=
| Ok (a : A)
| Raise.
Arguments Ok {A} a.
Arguments Raise {A}.

(** [d.get(key)] on a dictionary (missing key: [JNull], Python's [None]);
    on any other value the attribute does not exist. *)
Definition dict_get (j : Json) (key : string) : Exc Json :=
  match j with
  | JObj campos =>
      Ok (match List.find (fun kv => String.eqb (fst kv) key) campos with
          | Some kv => snd kv
          | None => JNull
          end)
  | _ => Raise
  end.

Definition as_str (j : Json) : Exc string :=
  match j with JStr s => Ok s | _ => Raise end.

Fixpoint all_str (itens : list Json) : Exc (list string) :=
  match itens with
  | [] => Ok []
  | JStr s :: rest =>
      match all_str rest with Ok l => Ok (s :: l) | Raise => Raise end
  | _ :: _ => Raise
  end.

Fixpoint chars (s : string) : list string :=
  match s with
  | EmptyString => []
  | String c rest => String c EmptyString :: chars rest
  end.

(** [", ".join(v)]: a list must hold strings only; a string is joined
    character by character, a dictionary by its keys; other values are
    not iterable. *)
Definition join_life_form (v : Json) : Exc string :=
  match v with
  | JArr itens =>
      match all_str itens with
      | Ok l => Ok (Py.join ", " l)
      | Raise => Raise
      end
  | JStr s => Ok (Py.join ", " (chars s))
  | JObj campos => Ok (Py.join ", " (map fst campos))
  | _ => Raise
  end.

(** The body of [for item in data], for one item: [None] to go on with the
    next item, [Some r] for [return r]. *)
Definition item_step (nome_para_comparar : string) (item : Json)
    : Exc (option (option string)) :=
  match dict_get item "taxon" with
  | Raise => Raise
  | Ok taxon_info =>
      match (if truthy taxon_info then dict_get taxon_info "scientificname"
             else Ok JNull) with
      | Raise => Raise
      | Ok api_full_name =>
          if truthy api_full_name then
            match as_str api_full_name with
            | Raise => Raise
            | Ok nome =>
                if Py.startswith nome nome_para_comparar then
                  match dict_get item "specie_profile" with
                  | Raise => Raise
                  | Ok profile =>
                      if truthy profile then
                        match dict_get profile "lifeForm" with
                        | Raise => Raise
                        | Ok life_form =>
                            if truthy life_form then
                              match join_life_form life_form with
                              | Raise => Raise
                              | Ok s => Ok (Some (Some s))
                              end
                            else Ok (Some None)
                        end
                      else Ok (Some None)
                  end
                else Ok None
            end
          else Ok None
      end
  end.

Fixpoint for_item (nome_para_comparar : string) (data : list Json)
    : Exc (option string) :=
  match data with
  | [] => Ok None
  | item :: rest =>
      match item_step nome_para_comparar item with
      | Raise => Raise
      | Ok (Some r) => Ok r
      | Ok None => for_item nome_para_comparar rest
      end
  end.

(** What [requests.get(url, timeout=60)] does: raise a
    [RequestException] (connection error, timeout), or answer with a
    status code and a decoded body. *)
Inductive HttpDesfecho :=
| Http_excecao
| Http_resposta (status_code : Z) (corpo : Json).

(** The Flora e Funga do Brasil service: the outcome of the [n]-th request
    of the session to the given URL. *)
Class FloraAPI := { requests_get : nat -> string -> HttpDesfecho }.

(** [st.session_state] as far as the trait lookup goes, with two logs:
    the URLs requested and the names [get_categoria_flora_brasil] was
    called with. *)
Record Sessao := {
  lifeform_cache : option (gmap string string);
  requisicoes : list string;
  consultas : list string
}.

Definition sessao_nova : Sessao :=
  {| lifeform_cache := None; requisicoes := []; consultas := [] |}.

Definition raise_for_status_fails (status_code : Z) : bool :=
  (400 <=? status_code) && (status_code <? 600).

Definition url_flora (genus : string) : string :=
  ("https://servicos.jbrj.gov.br/v2/flora/taxon/" ++ genus)%string.

Definition get_categoria_flora_brasil `{FloraAPI} (nome_cientifico : string)
    (s : Sessao) : Exc (option string) * Sessao :=
  let s := {| lifeform_cache := lifeform_cache s;
              requisicoes := requisicoes s;
              consultas := consultas s ++ [nome_cientifico] |} in
  match Py.split_space nome_cientifico with
  | genus :: especie :: _ =>
      let nome_para_comparar := (genus ++ " " ++ especie)%string in
      let url := url_flora genus in
      let s' := {| lifeform_cache := lifeform_cache s;
                   requisicoes := requisicoes s ++ [url];
                   consultas := consultas s |} in
      match requests_get (length (requisicoes s)) url with
      | Http_excecao => (Ok None, s')
      | Http_resposta status_code data =>
          if status_code =? 404 then (Ok None, s')
          else if raise_for_status_fails status_code then (Ok None, s')
          else
            match data with
            | JArr (item :: rest) =>
                (for_item nome_para_comparar (item :: rest), s')
            | _ => (Ok None, s')
            end
      end
  | _ => (Ok None, s)
  end.

Definition nao_categorizado : string := "Não categorizado".
Definition erro_ao_buscar_dados : string := "Erro ao buscar dados".

Definition cache_of (s : Sessao) : gmap string string :=
  default ∅ (lifeform_cache s).

Definition set_cache (name valor : string) (s : Sessao) : Sessao :=
  {| lifeform_cache := Some (<[name := valor]> (cache_of s));
     requisicoes := requisicoes s;
     consultas := consultas s |}.

(** One iteration of [for i, name in enumerate(names_to_fetch)]. *)
Definition fetch_one `{FloraAPI} (s : Sessao) (name : string) : Sessao :=
  let (r, s') := get_categoria_flora_brasil name s in
  match r with
  | Ok (Some life_form) =>
      set_cache name
        (if Py.str_truthy life_form then life_form else nao_categorizado) s'
  | Ok None => set_cache name nao_categorizado s'
  | Raise => set_cache name erro_ao_buscar_dados s'
  end.

Definition names_to_fetch (scientific_names : list string) (s : Sessao)
    : list string :=
  List.filter
    (fun name => Py.str_truthy name
                 && negb (bool_decide (is_Some (cache_of s !! name))))
    (elements (list_to_set scientific_names : gset string)).

Definition get_plant_traits `{FloraAPI} (scientific_names : list string)
    (s : Sessao) : gmap string string * Sessao :=
  let s0 := {| lifeform_cache := Some (cache_of s);
               requisicoes := requisicoes s;
               consultas := consultas s |} in
  let s1 := fold_left fetch_one (names_to_fetch scientific_names s0) s0 in
  let traits :=
    fold_left
      (fun (traits : gmap string string) name =>
         if Py.str_truthy name
         then <[name := default nao_categorizado (cache_of s1 !! name)]> traits
         else traits)
      scientific_names ∅ in
  (traits, s1).

End Helpers.

(* ===================================================================== *)
(** * The species analysis: shared pieces                                 *)
(* ===================================================================== *)

(** The text of the column [ocorrencia_na_regiao]; the number formatted
    into the text is kept exact. *)
Inductive Rotulo :=
| Dentro_da_area (registros : nat)
| Muito_Proxima (metros : F64.t)
| Proxima (km : F64.t)
| Moderadamente_Proxima (km : F64.t)
| Distante (km : Q)
| Longe (km : Q)
| Dados_insuficientes
| Nao_encontrado_no_GBIF
| Erro_na_busca
| Falha_na_busca.

(** One row of the result table. *)
Record Resultado := {
  especie : string;
  ocorrencia_na_regiao : Rotulo;
  escore_proximidade : Z;
  gbif_total_records : Z;
  longitude_ocorrencia : option Q;
  latitude_ocorrencia : option Q;
  pontos : list Ponto
}.

Module Analise.

(** [{'scientificName': especie, 'hasCoordinate': True, 'limit': 300}],
    with ['class'] added unless the group is empty or "qualquer". *)
Definition search_params (especie : string) (grupo_taxon : option string)
    : Params :=
  {| scientificName := Some especie;
     classe :=
       match grupo_taxon with
       | Some g =>
           if Py.str_truthy g
              && negb (String.eqb (Py.lower g) "qualquer")
           then Some g else None
       | None => None
       end;
     geometry := None; kingdomKey := None;
     hasCoordinate := true; limit := 300; offset := None |}.

(** [[Point(rec['decimalLongitude'], rec['decimalLatitude']) for rec in
    results if both keys are in rec]]. *)
Fixpoint pontos_de (resultados : list Registro) : list Ponto :=
  match resultados with
  | [] => []
  | rec :: rest =>
      match decimalLongitude rec, decimalLatitude rec with
      | Some lon, Some lat =>
          {| ponto_x := lon; ponto_y := lat |} :: pontos_de rest
      | _, _ => pontos_de rest
      end
  end.

(** [gpd.sjoin(gdf_ocorrencias, gdf_area, how="inner", predicate='within')]:
    one row per pair of a point and a row of the area the point is within,
    in the order of the points; the point of each row is kept. *)
Definition sjoin_within `{Geo} (pontos : list Ponto) (gdf_area : GeoDataFrame)
    : list Ponto :=
  flat_map (fun p => map (fun _ => p) (List.filter (within p) gdf_area)) pontos.

(** [Series.min()] of a non-empty series. *)
Definition serie_min (d0 : Q) (resto : list Q) : Q :=
  fold_left (fun m d => if Qle_bool m d then m else d) resto d0.

(** [Series.idxmin()]: position of the first occurrence of the minimum. *)
Fixpoint idxmin_from (i melhor_i : nat) (melhor : Q) (resto : list Q) : nat :=
  match resto with
  | [] => melhor_i
  | d :: resto' =>
      if Qle_bool melhor d
      then idxmin_from (S i) melhor_i melhor resto'
      else idxmin_from (S i) i d resto'
  end.

Definition idxmin (d0 : Q) (resto : list Q) : nat := idxmin_from 1 0 d0 resto.

(** The literal [111.32]. *)
Definition km_por_grau : F64.t := F64.lit (11132 # 100).

End Analise.

(* ===================================================================== *)
(** * app.py                                                              *)
(* ===================================================================== *)

Module App.

Import Analise.
Local Open Scope m_scope.

Definition linha_sem_escore (especie : string) (rotulo : Rotulo)
    (gbif_total_records : Z) : Resultado :=
  {| especie := especie; ocorrencia_na_regiao := rotulo;
     escore_proximidade := -1; gbif_total_records := gbif_total_records;
     longitude_ocorrencia := None; latitude_ocorrencia := None;
     pontos := [] |}.

(** The [else] branch of [if not ocorrencias_dentro.empty]: score and text
    from the minimum distance in km.  The threshold is a finite float,
    given by its value. *)
Definition escore_por_distancia (distancia_minima_km : F64.t)
    (distancia_maxima_relevancia_km : Q) : F64.t * Rotulo :=
  let dmax := F64.Fin distancia_maxima_relevancia_km in
  if F64.geb distancia_minima_km dmax then
    (F64.Fin 0, Distante distancia_maxima_relevancia_km)
  else
    let escore :=
      F64.mul (F64.Fin 9)
        (F64.sub (F64.Fin 1) (F64.div distancia_minima_km dmax)) in
    if F64.ltb distancia_minima_km (F64.Fin 1) then
      (escore, Muito_Proxima (F64.mul distancia_minima_km (F64.Fin 1000)))
    else if F64.ltb distancia_minima_km (F64.Fin 50) then
      (escore, Proxima distancia_minima_km)
    else (escore, Moderadamente_Proxima distancia_minima_km).

(** The row for a species whose search returned [dados_gbif]
    (the branch [if dados_gbif['results']] and what follows).  The area
    reaches this function in EPSG:4326, the reference of the points, so
    the reprojection guarded by the CRS comparison does nothing. *)
Definition linha_da_resposta `{Geo} (gdf_area : GeoDataFrame)
    (distancia_maxima_relevancia_km : Q) (especie : string)
    (dados_gbif : Resposta) : Resultado :=
  let poligono := unary_union gdf_area in
  let gbif_total_records := default 0 (count dados_gbif) in
  match results dados_gbif with
  | [] => linha_sem_escore especie Nao_encontrado_no_GBIF gbif_total_records
  | _ :: _ =>
      let pontos_ocorrencia := pontos_de (results dados_gbif) in
      match pontos_ocorrencia with
      | [] => linha_sem_escore especie Dados_insuficientes gbif_total_records
      | p0 :: resto =>
          let ocorrencias_dentro := sjoin_within pontos_ocorrencia gdf_area in
          let '(escore, ocorrencia_regiao, ponto) :=
            match ocorrencias_dentro with
            | ponto_dentro :: _ =>
                (F64.Fin 10, Dentro_da_area (length ocorrencias_dentro),
                 ponto_dentro)
            | [] =>
                let d0 := distance poligono p0 in
                let ds := map (distance poligono) resto in
                let distancia_minima := serie_min d0 ds in
                let ponto_mais_proximo :=
                  nth (idxmin d0 ds) pontos_ocorrencia p0 in
                let distancia_minima_km :=
                  F64.mul (F64.Fin distancia_minima) km_por_grau in
                let (escore, ocorrencia_regiao) :=
                  escore_por_distancia distancia_minima_km
                    distancia_maxima_relevancia_km in
                (escore, ocorrencia_regiao, ponto_mais_proximo)
            end in
          {| especie := especie; ocorrencia_na_regiao := ocorrencia_regiao;
             escore_proximidade := F64.round escore;
             gbif_total_records := gbif_total_records;
             longitude_ocorrencia := Some (ponto_x ponto);
             latitude_ocorrencia := Some (ponto_y ponto);
             pontos := pontos_ocorrencia |}
      end
  end.

(** The body of [for i, especie in enumerate(...)]. *)
Definition analisar_especie `{GBIF} `{Geo} (gdf_area : GeoDataFrame)
    (distancia_maxima_relevancia_km : Q) (grupo_taxon : option string)
    (total_especies i : nat) (especie : string) : M Resultado :=
  emit (Ev_status especie (i + 1) total_especies) ;;;
  d <- do_search (search_params especie grupo_taxon) ;;
  match d with
  | Levanta e =>
      emit (Ev_warning_busca especie e) ;;;
      ret (linha_sem_escore especie Erro_na_busca 0)
  | Retorna dados_gbif =>
      emit (Ev_progress (i + 1) total_especies) ;;;
      ret (linha_da_resposta gdf_area distancia_maxima_relevancia_km especie
             dados_gbif)
  end.

Fixpoint for_especie `{GBIF} `{Geo} (gdf_area : GeoDataFrame)
    (distancia_maxima_relevancia_km : Q) (grupo_taxon : option string)
    (total_especies i : nat) (especies : list string)
    (resultados : list Resultado) : M (list Resultado) :=
  match especies with
  | [] => ret resultados
  | especie :: resto =>
      r <- analisar_especie gdf_area distancia_maxima_relevancia_km
             grupo_taxon total_especies i especie ;;
      for_especie gdf_area distancia_maxima_relevancia_km grupo_taxon
        total_especies (S i) resto (resultados ++ [r])
  end.

(** [df_especies] is given by its column ['scientificName'], [None] when
    the column is missing.  The result is [None] when [st.stop()] ends the
    script. *)
Definition analisar_ocorrencia_especies `{GBIF} `{Geo}
    (df_especies : option (list string)) (gdf_area : GeoDataFrame)
    (distancia_maxima_relevancia_km : Q) (grupo_taxon : option string)
    : M (option (list Resultado)) :=
  match df_especies with
  | None =>
      emit (Ev_error Erro_sem_coluna) ;;;
      ret None
  | Some especies =>
      resultados <- for_especie gdf_area distancia_maxima_relevancia_km
                      grupo_taxon (length especies) 0 especies [] ;;
      emit Ev_concluida ;;;
      ret (Some resultados)
  end.

End App.

(* ===================================================================== *)
(** * pages/1_Analisar_Minhas_Especies.py                                 *)
(* ===================================================================== *)

Module Pagina.

Import Analise.
Local Open Scope m_scope.

Definition linha_sem_escore := App.linha_sem_escore.

Definition escore_por_distancia (distancia_minima_km : F64.t)
    (distancia_maxima_relevancia_km : Q) : F64.t * Rotulo :=
  let dmax := F64.Fin distancia_maxima_relevancia_km in
  if F64.geb distancia_minima_km dmax then
    (F64.Fin 0, Longe distancia_maxima_relevancia_km)
  else
    (F64.mul (F64.Fin 9)
       (F64.sub (F64.Fin 1) (F64.div distancia_minima_km dmax)),
     Proxima distancia_minima_km).

Definition linha_da_resposta `{Geo} (gdf_area : GeoDataFrame)
    (distancia_maxima_relevancia_km : Q) (especie : string)
    (dados_gbif : Resposta) : Resultado :=
  let poligono := unary_union gdf_area in
  let gbif_total_records := default 0 (count dados_gbif) in
  match results dados_gbif with
  | [] => linha_sem_escore especie Nao_encontrado_no_GBIF gbif_total_records
  | _ :: _ =>
      let pontos := pontos_de (results dados_gbif) in
      match pontos with
      | [] => linha_sem_escore especie Dados_insuficientes gbif_total_records
      | p0 :: resto =>
          let ocorrencias_dentro := sjoin_within pontos gdf_area in
          let '(escore, ocorrencia_regiao, ponto) :=
            match ocorrencias_dentro with
            | ponto_dentro :: _ =>
                (F64.Fin 10, Dentro_da_area (length ocorrencias_dentro),
                 ponto_dentro)
            | [] =>
                let d0 := distance poligono p0 in
                let ds := map (distance poligono) resto in
                let distancia_minima_deg := serie_min d0 ds in
                let ponto_mais_proximo := nth (idxmin d0 ds) pontos p0 in
                let distancia_minima_km :=
                  F64.mul (F64.Fin distancia_minima_deg) km_por_grau in
                let (escore, ocorrencia_regiao) :=
                  escore_por_distancia distancia_minima_km
                    distancia_maxima_relevancia_km in
                (escore, ocorrencia_regiao, ponto_mais_proximo)
            end in
          {| especie := especie; ocorrencia_na_regiao := ocorrencia_regiao;
             escore_proximidade := F64.round escore;
             gbif_total_records := gbif_total_records;
             longitude_ocorrencia := Some (ponto_x ponto);
             latitude_ocorrencia := Some (ponto_y ponto);
             pontos := pontos |}
      end
  end.

Definition analisar_especie `{GBIF} `{Geo} (gdf_area : GeoDataFrame)
    (distancia_maxima_relevancia_km : Q) (grupo_taxon : option string)
    (total_especies i : nat) (especie : string) : M Resultado :=
  emit (Ev_status especie (i + 1) total_especies) ;;;
  dados_gbif <- Helpers.search_gbif_with_retries
                  (search_params especie grupo_taxon)
                  Helpers.max_retries_default ;;
  match dados_gbif with
  | None => ret (linha_sem_escore especie Falha_na_busca 0)
  | Some dados_gbif =>
      emit (Ev_progress (i + 1) total_especies) ;;;
      ret (linha_da_resposta gdf_area distancia_maxima_relevancia_km especie
             dados_gbif)
  end.

Fixpoint for_especie `{GBIF} `{Geo} (gdf_area : GeoDataFrame)
    (distancia_maxima_relevancia_km : Q) (grupo_taxon : option string)
    (total_especies i : nat) (especies : list string)
    (resultados : list Resultado) : M (list Resultado) :=
  match especies with
  | [] => ret resultados
  | especie :: resto =>
      r <- analisar_especie gdf_area distancia_maxima_relevancia_km
             grupo_taxon total_especies i especie ;;
      for_especie gdf_area distancia_maxima_relevancia_km grupo_taxon
        total_especies (S i) resto (resultados ++ [r])
  end.

(** A missing column gives the empty table. *)
Definition analisar_ocorrencia_especies `{GBIF} `{Geo}
    (df_especies : option (list string)) (gdf_area : GeoDataFrame)
    (distancia_maxima_relevancia_km : Q) (grupo_taxon : option string)
    : M (list Resultado) :=
  match df_especies with
  | None =>
      emit (Ev_error Erro_sem_coluna) ;;;
      ret []
  | Some especies =>
      resultados <- for_especie gdf_area distancia_maxima_relevancia_km
                      grupo_taxon (length especies) 0 especies [] ;;
      emit Ev_concluida ;;;
      ret resultados
  end.

End Pagina.

(* ===================================================================== *)
(** * A geometry library over rectangles                                  *)
(* ===================================================================== *)

(** An instance of the geometry interface on which the analysis can be
    run: a geometry is a (multi)polygon made of axis-parallel rectangles
    with rational corners.  [within] follows the DE-9IM definition the
    library uses for points: the point lies in the interior of the
    geometry, here of the union of its rectangles.
    [distance] is the planar distance to the nearest member, exact
    whenever the nearest boundary point is on an edge, and rounded down to
    nine decimals at a corner. *)
Module Retangulos.

Record Retangulo := { xmin : Q; ymin : Q; xmax : Q; ymax : Q }.

Definition interior (p : Ponto) (r : Retangulo) : bool :=
  Py.ltb (xmin r) (ponto_x p) && Py.ltb (ponto_x p) (xmax r)
  && Py.ltb (ymin r) (ponto_y p) && Py.ltb (ponto_y p) (ymax r).

(** The point is in the closed rectangle but not in its interior. *)
Definition na_fronteira (p : Ponto) (r : Retangulo) : bool :=
  Qle_bool (xmin r) (ponto_x p) && Qle_bool (ponto_x p) (xmax r)
  && Qle_bool (ymin r) (ponto_y p) && Qle_bool (ponto_y p) (ymax r)
  && negb (interior p r).

(** The rectangle holds the point and, near the point, the quadrant to
    its right or left ([direita]) and above or below it ([acima]). *)
Definition cobre_quadrante (p : Ponto) (direita acima : bool) (r : Retangulo)
    : bool :=
  (if direita
   then Qle_bool (xmin r) (ponto_x p) && Py.ltb (ponto_x p) (xmax r)
   else Py.ltb (xmin r) (ponto_x p) && Qle_bool (ponto_x p) (xmax r))
  && (if acima
      then Qle_bool (ymin r) (ponto_y p) && Py.ltb (ponto_y p) (ymax r)
      else Py.ltb (ymin r) (ponto_y p) && Qle_bool (ponto_y p) (ymax r)).

(** The point is in the interior of the union of the rectangles: near the
    point, each of the four quadrants around it is inside one of them. *)
Definition interior_uniao (p : Ponto) (g : list Retangulo) : bool :=
  forallb (fun q => existsb (cobre_quadrante p (fst q) (snd q)) g)
    [(true, true); (true, false); (false, true); (false, false)].

(** How far [v] is outside the interval from [lo] to [hi]. *)
Definition fora (lo hi v : Q) : Q :=
  if Py.ltb v lo then (lo - v)%Q
  else if Py.ltb hi v then (v - hi)%Q
  else 0%Q.

Definition raiz (q : Q) : Q :=
  Z.sqrt (Qnum q * Zpos (Qden q) * 10 ^ 18) # (Qden q * 10 ^ 9).

Definition distancia_ret (p : Ponto) (r : Retangulo) : Q :=
  let dx := fora (xmin r) (xmax r) (ponto_x p) in
  let dy := fora (ymin r) (ymax r) (ponto_y p) in
  if Qeq_bool dx 0 then dy
  else if Qeq_bool dy 0 then dx
  else raiz (dx * dx + dy * dy)%Q.

#[export] Instance geo : Geo := {|
  Geometria := list Retangulo;
  within p g := interior_uniao p g;
  unary_union rows := List.concat rows;
  distance g p :=
    match map (distancia_ret p) g with
    | [] => 0%Q
    | d :: ds => Analise.serie_min d ds
    end;
  wkt_rewind g := match g with [] => None | _ => Some "MULTIPOLYGON"%string end
|}.

(** The square with corners (0,0) and (1,1), as a one-row area. *)
Definition quadrado : Retangulo :=
  {| xmin := 0; ymin := 0; xmax := 1; ymax := 1 |}.

Definition area_quadrado : @GeoDataFrame geo := [[quadrado]].

End Retangulos.

#[global] Existing Instance Retangulos.geo.

(** ** Scripted services, to run the code on *)

(** A service that answers the calls of the run from a list of outcomes,
    in order, and raises a connection error once the list is used up. *)
Definition gbif_roteiro (roteiro : list Desfecho) : GBIF :=
  {| occ_search n _ := nth n roteiro (Levanta "ConnectionError") |}.

(** A service holding [dados] for every query: a call returns the records
    from [offset] on, at most [limit] of them. *)
Definition gbif_paginado (dados : list Registro) : GBIF :=
  {| occ_search _ p :=
       Retorna {| count := Some (Z.of_nat (length dados));
                  results :=
                    firstn (Z.to_nat (limit p))
                      (skipn (Z.to_nat (default 0 (offset p))) dados) |} |}.

(** A trait service that gives the same outcome to every request. *)
Definition flora_constante (d : Helpers.HttpDesfecho) : Helpers.FloraAPI :=
  {| Helpers.requests_get _ _ := d |}.

(** A trait service that answers the requests of the session from a list. *)
Definition flora_roteiro (roteiro : list Helpers.HttpDesfecho)
    : Helpers.FloraAPI :=
  {| Helpers.requests_get n _ := nth n roteiro Helpers.Http_excecao |}.

(* ===================================================================== *)
(** * Further Python primitives                                           *)
(* ===================================================================== *)

Module PyMais.

(** [s.endswith(suf)]: some tail of [s] is [suf]. *)
Fixpoint endswith (s suf : string) : bool :=
  String.eqb s suf
  || match s with
     | EmptyString => false
     | String _ resto => endswith resto suf
     end.

(** [Series.unique()]: the values in the order of their first appearance. *)
Fixpoint unique_desde {A} `{EqDecision A} (vistos l : list A) : list A :=
  match l with
  | [] => []
  | x :: resto =>
      if decide (x ∈ vistos) then unique_desde vistos resto
      else x :: unique_desde (x :: vistos) resto
  end.

Definition unique {A} `{EqDecision A} (l : list A) : list A :=
  unique_desde [] l.

(** [os.path.join(d, f)] for a directory without trailing separator and a
    relative file name, as [os.listdir] gives them. *)
Definition path_join (d f : string) : string := (d ++ "/" ++ f)%string.

End PyMais.

(* ===================================================================== *)
(** * Choice of the .shp file in the two [processar_shapefile_zip]        *)
(* ===================================================================== *)

Module Shapefile.

(** app.py: the loop over [os.listdir(tempdir)] with its [break];
    [arquivos] is the listing. *)
Fixpoint shp_path_app (tempdir : string) (arquivos : list string)
    : option string :=
  match arquivos with
  | [] => None
  | filename :: resto =>
      if PyMais.endswith filename ".shp"
         && negb (PyMais.endswith filename ".xml")
      then Some (PyMais.path_join tempdir filename)
      else shp_path_app tempdir resto
  end.

(** utils/helpers.py: [next((os.path.join(tempdir, f) for f in
    os.listdir(tempdir) if f.endswith('.shp')), None)]. *)
Definition shp_path_helpers (tempdir : string) (arquivos : list string)
    : option string :=
  hd_error
    (map (PyMais.path_join tempdir)
       (List.filter (fun f => PyMais.endswith f ".shp") arquivos)).

End Shapefile.

(* ===================================================================== *)
(** * pages/2_Buscar_Novas_Especies.py                                    *)
(* ===================================================================== *)

Module Busca.

(** An occurrence record as a dictionary with the keys the page reads;
    a missing key is [None]. *)
Record Ocorrencia := {
  oc_gbifID : option string;
  oc_scientificName : option string;
  oc_kingdom : option string;
  oc_family : option string;
  oc_eventDate : option string;
  oc_countryCode : option string;
  oc_decimalLatitude : option Q;
  oc_decimalLongitude : option Q;
  oc_recordedBy : option string;
  oc_basisOfRecord : option string;
  oc_speciesKey : option Z
}.

(** One row of the detailed table. *)
Record LinhaGbif := {
  ID_GBIF : option string;
  Nome_Cientifico : option string;
  Reino : option string;
  Familia : option string;
  Data_Coleta : option string;
  Pais : option string;
  Latitude : option Q;
  Longitude : option Q;
  Coletor : option string;
  Tipo_Registro : option string;
  Link_GBIF : string;
  Chave_Especie : option Z
}.

Definition info (rec : Ocorrencia) : LinhaGbif :=
  {| ID_GBIF := oc_gbifID rec;
     Nome_Cientifico := oc_scientificName rec;
     Reino := oc_kingdom rec;
     Familia := oc_family rec;
     Data_Coleta := oc_eventDate rec;
     Pais := oc_countryCode rec;
     Latitude := oc_decimalLatitude rec;
     Longitude := oc_decimalLongitude rec;
     Coletor := oc_recordedBy rec;
     Tipo_Registro := oc_basisOfRecord rec;
     Link_GBIF :=
       ("https://www.gbif.org/occurrence/" ++ default "" (oc_gbifID rec))%string;
     Chave_Especie := oc_speciesKey rec |}.

Fixpoint processar_resultados_gbif (resultados : list Ocorrencia)
    : list LinhaGbif :=
  match resultados with
  | [] => []
  | rec :: resto => info rec :: processar_resultados_gbif resto
  end.

(** The names handed to [get_plant_traits]: a missing name ([None]) is
    falsy there, skipped by both of its loops, and is left out here. *)
Fixpoint nomes_presentes (names : list (option string)) : list string :=
  match names with
  | [] => []
  | Some n :: resto => n :: nomes_presentes resto
  | None :: resto => nomes_presentes resto
  end.

(** The column [Forma_de_Vida]:
    [species_names = df['Nome_Cientifico'].unique().tolist()],
    [plant_traits = get_plant_traits(species_names)],
    [df['Nome_Cientifico'].map(plant_traits).fillna('Não categorizado')]. *)
Definition forma_de_vida `{Helpers.FloraAPI} (df : list LinhaGbif)
    (s : Helpers.Sessao) : list string * Helpers.Sessao :=
  let species_names := PyMais.unique (map Nome_Cientifico df) in
  let (plant_traits, s') :=
    Helpers.get_plant_traits (nomes_presentes species_names) s in
  (map (fun row =>
          match Nome_Cientifico row with
          | Some n => default Helpers.nao_categorizado (plant_traits !! n)
          | None => Helpers.nao_categorizado
          end) df,
   s').

End Busca.

(* ===================================================================== *)
(** * The final table and the map of the analysis pages                   *)
(* ===================================================================== *)

Module Tabela.

(** A row of [df_resultados.drop(columns=['pontos'])]. *)
Record LinhaResultado := {
  lr_especie : string;
  lr_ocorrencia_na_regiao : Rotulo;
  lr_escore_proximidade : Z;
  lr_gbif_total_records : Z;
  lr_longitude_ocorrencia : option Q;
  lr_latitude_ocorrencia : option Q
}.

Definition drop_pontos (r : Resultado) : LinhaResultado :=
  {| lr_especie := especie r;
     lr_ocorrencia_na_regiao := ocorrencia_na_regiao r;
     lr_escore_proximidade := escore_proximidade r;
     lr_gbif_total_records := gbif_total_records r;
     lr_longitude_ocorrencia := longitude_ocorrencia r;
     lr_latitude_ocorrencia := latitude_ocorrencia r |}.

(** A row of [df_final]: the key of the row of [df_especies] (its other
    columns ride along) and the columns of the matching result, all
    missing when nothing matches. *)
Record LinhaFinal := {
  lf_scientificName : string;
  lf_resultado : option LinhaResultado
}.

(** [pd.merge(df_especies, df_resultados.drop(columns=['pontos']),
    left_on='scientificName', right_on='especie', how='left')]: the rows
    of the left table in order, each paired with every row of the right
    table that has its key, in the order of the right table. *)
Definition merge_left (especies : list string) (df_resultados : list Resultado)
    : list LinhaFinal :=
  flat_map
    (fun nome =>
       match List.filter (fun r => String.eqb (especie r) nome) df_resultados with
       | [] => [{| lf_scientificName := nome; lf_resultado := None |}]
       | iguais =>
           map (fun r => {| lf_scientificName := nome;
                            lf_resultado := Some (drop_pontos r) |}) iguais
       end)
    especies.

(** [df_final.dropna(subset=['longitude_ocorrencia',
    'latitude_ocorrencia'])]. *)
Definition dropna_coordenadas (df_final : list LinhaFinal) : list LinhaFinal :=
  List.filter
    (fun l =>
       match lf_resultado l with
       | Some r =>
           match lr_longitude_ocorrencia r, lr_latitude_ocorrencia r with
           | Some _, Some _ => true
           | _, _ => false
           end
       | None => false
       end)
    df_final.

End Tabela.

Module Mapa.

(** The arguments of a [folium.CircleMarker]: [location] is
    [[ponto.y, ponto.x]]; [fill_color] is [None] when the call does not
    pass it. *)
Record Marcador := {
  location : Q * Q;
  radius : Z;
  popup : string;
  color : string;
  fill : bool;
  fill_color : option string;
  fill_opacity : F64.t
}.

(** A [folium.FeatureGroup] named after the species and its text. *)
Record Grupo := {
  grupo_especie : string;
  grupo_rotulo : Rotulo;
  marcadores : list Marcador
}.

Definition cores : list string :=
  ["#FF5733"; "#33FF57"; "#3357FF"; "#FF33A1"; "#A133FF"; "#33FFA1"].

(** app.py, [criar_mapa_interativo]: the loop over
    [df_resultados.iterrows()], from the value of [cor_idx]. *)
Fixpoint grupos_app (df_resultados : list Resultado) (cor_idx : nat)
    : list Grupo :=
  match df_resultados with
  | [] => []
  | linha :: resto =>
      match pontos linha with
      | [] => grupos_app resto cor_idx
      | _ :: _ =>
          let cor := nth (cor_idx mod length cores) cores ""%string in
          {| grupo_especie := especie linha;
             grupo_rotulo := ocorrencia_na_regiao linha;
             marcadores :=
               map (fun ponto =>
                      {| location := (ponto_y ponto, ponto_x ponto);
                         radius := 5;
                         popup := ("<i>" ++ especie linha ++ "</i>")%string;
                         color := cor;
                         fill := true;
                         fill_color := Some cor;
                         fill_opacity := F64.lit (7 # 10) |})
                 (pontos linha) |}
          :: grupos_app resto (S cor_idx)
      end
  end.

(** pages/1: the same loop with one colour, radius 4, no [fill_color] and
    another opacity. *)
Fixpoint grupos_pagina (df_resultados : list Resultado) : list Grupo :=
  match df_resultados with
  | [] => []
  | linha :: resto =>
      match pontos linha with
      | [] => grupos_pagina resto
      | _ :: _ =>
          {| grupo_especie := especie linha;
             grupo_rotulo := ocorrencia_na_regiao linha;
             marcadores :=
               map (fun ponto =>
                      {| location := (ponto_y ponto, ponto_x ponto);
                         radius := 4;
                         popup := ("<i>" ++ especie linha ++ "</i>")%string;
                         color := "#FF5733";
                         fill := true;
                         fill_color := None;
                         fill_opacity := F64.lit (6 # 10) |})
                 (pontos linha) |}
          :: grupos_pagina resto
      end
  end.

End Mapa.

(* ===================================================================== *)
(** * Vocabulary of the statements                                        *)
(* ===================================================================== *)

(** The waits of [j] consecutive failed attempts, the first being attempt
    number [a] (counting from 0): 2^(a+1), 2^(a+2), ... seconds. *)
Definition backoff (a j : nat) : list Q :=
  map (fun attempt => inject_Z (2 ^ (Z.of_nat attempt + 1))) (seq a j).

(** The calls number [n], [n+1], ..., [n+j-1] with arguments [p] all raise
    a connection error. *)
Definition transientes `{GBIF} (p : Params) (n j : nat) : Prop :=
  forall i, (i < j)%nat ->
    exists m, occ_search (n + i) p = Levanta m
              /\ Helpers.is_connection_error m = true.

(** The minimum distance from the points [p0 :: resto] to the union of
    the area, in degrees as the library gives it and in km as the code
    computes it. *)
Definition distancia_minima `{Geo} (gdf_area : GeoDataFrame) (p0 : Ponto)
    (resto : list Ponto) : Q :=
  Analise.serie_min (distance (unary_union gdf_area) p0)
    (map (distance (unary_union gdf_area)) resto).

Definition distancia_minima_km `{Geo} (gdf_area : GeoDataFrame) (p0 : Ponto)
    (resto : list Ponto) : F64.t :=
  F64.mul (F64.Fin (distancia_minima gdf_area p0 resto)) Analise.km_por_grau.

(** The score the code computes in floats for a distance [d] in km below
    the threshold: [9 * (1 - d / dmax)]. *)
Definition escore_float (d : F64.t) (dmax : Q) : F64.t :=
  F64.mul (F64.Fin 9) (F64.sub (F64.Fin 1) (F64.div d (F64.Fin dmax))).

(** The point is within some row of the area: it contributes a row to the
    spatial join. *)
Definition contido `{Geo} (p : Ponto) (gdf_area : GeoDataFrame) : bool :=
  existsb (within p) gdf_area.

(** A record carrying both coordinates, and a response made of records. *)
Definition registro_em (x y : Q) : Registro :=
  {| decimalLongitude := Some x; decimalLatitude := Some y;
     reg_scientificName := None |}.

Definition resposta_com (registros : list Registro) : Resposta :=
  {| count := Some (Z.of_nat (length registros)); results := registros |}.

(** The shape of both [for i, especie in enumerate(...)] loops: run
    [passo] on each species in turn and append its row. *)
Fixpoint laco (passo : nat -> string -> M Resultado) (i : nat)
    (especies : list string) (resultados : list Resultado)
    : M (list Resultado) :=
  match especies with
  | [] => ret resultados
  | e :: resto =>
      bind (passo i e)
        (fun r => laco passo (S i) resto (resultados ++ [r]))
  end.

(** ceil(n / 300), and 0 for n <= 0: the pages needed for [n] records. *)
Definition paginas_para (n : Z) : Z := Z.max 0 ((n + 299) / 300).

(** The arguments of the calls logged in a trace, in order. *)
Definition buscas (w : Mundo) : list Params :=
  flat_map (fun e => match e with Ev_search p => [p] | _ => [] end) w.

(** Page requests made from offset [o] on, for a cap [n] against a source
    holding [d] records: the loop goes on while the offset is below the
    cap, and stops after the first empty page. *)
Definition pedidos (n d o : Z) : Z :=
  if o <? n then Z.min (paginas_para (n - o)) (paginas_para (d - o) + 1)
  else 0.

(** The request fails: four connection errors in a row, or an error of
    another class at the first attempt. *)
Definition pedido_falha `{GBIF} (p : Params) (n : nat) : Prop :=
  transientes p n Helpers.max_retries_default
  \/ exists m, occ_search n p = Levanta m
               /\ Helpers.is_connection_error m = false.

(** The value the cache receives for the outcome of a lookup. *)
Definition valor_em_cache (r : Helpers.Exc (option string)) : string :=
  match r with
  | Helpers.Ok (Some life_form) =>
      if Py.str_truthy life_form then life_form else Helpers.nao_categorizado
  | Helpers.Ok None => Helpers.nao_categorizado
  | Helpers.Raise => Helpers.erro_ao_buscar_dados
  end.

(** The session after a sequence of calls of [get_plant_traits], starting
    from a new session. *)
Definition sessao_apos `{Helpers.FloraAPI} (chamadas : list (list string))
    : Helpers.Sessao :=
  fold_left (fun s names => snd (Helpers.get_plant_traits names s)) chamadas
    Helpers.sessao_nova.

(** Every name was looked up at most once, and the names looked up are
    the names in the cache. *)
Definition sessao_coerente (s : Helpers.Sessao) : Prop :=
  List.NoDup (Helpers.consultas s)
  /\ forall n, In n (Helpers.consultas s)
               <-> is_Some (Helpers.cache_of s !! n).

(** Seconds slept in total. *)
Definition tempo_total (esperas : list Q) : Q := fold_right Qplus 0%Q esperas.

(** A well-formed taxon of the trait service: its full scientific name
    and, when it has a profile, the life forms of the profile. *)
Definition item_flora (it : string * option (list string)) : Helpers.Json :=
  Helpers.JObj
    [("taxon"%string,
      Helpers.JObj [("scientificname"%string, Helpers.JStr (fst it))]);
     ("specie_profile"%string,
      match snd it with
      | Some formas =>
          Helpers.JObj
            [("lifeForm"%string, Helpers.JArr (map Helpers.JStr formas))]
      | None => Helpers.JNull
      end)].

(** The taxon's name starts with the two tokens compared. *)
Definition casa (alvo : string) (it : string * option (list string)) : bool :=
  Py.str_truthy (fst it) && Py.startswith (fst it) alvo.

(** Keys and values of the cache are never empty strings. *)
Definition cache_sem_vazios (s : Helpers.Sessao) : Prop :=
  forall n v, Helpers.cache_of s !! n = Some v
              -> n <> ""%string /\ v <> ""%string.

(** The text [b] of the page stands for the text [a] of [app.py]: the
    three "near" texts of [app.py] are the single "Próxima" of the page
    with the same distance, "Distante" is "Longe", the others are the
    same. *)
Definition mesmo_texto (a b : Rotulo) : Prop :=
  match a, b with
  | Muito_Proxima m, Proxima km => m = F64.mul km (F64.Fin 1000)
  | Proxima k, Proxima km | Moderadamente_Proxima k, Proxima km => k = km
  | Distante k, Longe km => k = km
  | Muito_Proxima _, _ | Proxima _, _ | Moderadamente_Proxima _, _
  | Distante _, _ => False
  | ra, rb => ra = rb
  end.

(** The row has no score: its search failed, found nothing or found no
    coordinates. *)
Definition sem_escore (r : Resultado) : Prop :=
  escore_proximidade r = -1
  /\ longitude_ocorrencia r = None
  /\ latitude_ocorrencia r = None
  /\ pontos r = [].

(** The row has a score from 0 to 10, a representative coordinate and
    the points it was computed from. *)
Definition com_escore (r : Resultado) : Prop :=
  0 <= escore_proximidade r <= 10
  /\ (exists q, In q (pontos r)
                /\ longitude_ocorrencia r = Some (ponto_x q)
                /\ latitude_ocorrencia r = Some (ponto_y q)).

(** The row of the final table made of a row of results and its own key. *)
Definition linha_final (r : Resultado) : Tabela.LinhaFinal :=
  {| Tabela.lf_scientificName := especie r;
     Tabela.lf_resultado := Some (Tabela.drop_pontos r) |}.

(** The row of the final table carries a score other than -1. *)
Definition tem_escore (l : Tabela.LinhaFinal) : bool :=
  match Tabela.lf_resultado l with
  | Some r => negb (Tabela.lr_escore_proximidade r =? -1)
  | None => false
  end.

(** The row has at least one point. *)
Definition com_pontos (r : Resultado) : bool :=
  match pontos r with [] => false | _ :: _ => true end.

(** What the retry loop gives when its first call is call number [n]
    and [restantes] attempts are left: the answer, if any, and the number
    of calls it makes.  A connection error passes to the next attempt,
    any other error ends the loop. *)
Fixpoint tentativas `{GBIF} (p : Params) (n restantes : nat)
    : option Resposta * nat :=
  match restantes with
  | O => (None, 0%nat)
  | S r =>
      match occ_search n p with
      | Retorna dados => (Some dados, 1%nat)
      | Levanta m =>
          if Helpers.is_connection_error m then
            let (res, k) := tentativas p (S n) r in (res, S k)
          else (None, 1%nat)
      end
  end.

(** One query after the other: the rows of [app.py] for the species when
    the first call of the run is call number [n].  Each species takes one
    call; its row is computed from the answer, or is the failure row. *)
Fixpoint linhas_app `{GBIF} `{Geo} (gdf_area : GeoDataFrame) (dmax : Q)
    (grupo : option string) (n : nat) (especies : list string)
    : list Resultado :=
  match especies with
  | [] => []
  | e :: resto =>
      match occ_search n (Analise.search_params e grupo) with
      | Retorna dados => App.linha_da_resposta gdf_area dmax e dados
      | Levanta _ => App.linha_sem_escore e Erro_na_busca 0
      end
      :: linhas_app gdf_area dmax grupo (S n) resto
  end.

(** The same for the page, where a species takes the calls of its retry
    loop. *)
Fixpoint linhas_pagina `{GBIF} `{Geo} (gdf_area : GeoDataFrame) (dmax : Q)
    (grupo : option string) (n : nat) (especies : list string)
    : list Resultado :=
  match especies with
  | [] => []
  | e :: resto =>
      let (res, k) :=
        tentativas (Analise.search_params e grupo) n
          Helpers.max_retries_default in
      match res with
      | Some dados => Pagina.linha_da_resposta gdf_area dmax e dados
      | None => Pagina.linha_sem_escore e Falha_na_busca 0
      end
      :: linhas_pagina gdf_area dmax grupo (n + k) resto
  end.

(** The calls made for a list of species by the page, from call [n]. *)
Fixpoint chamadas_pagina `{GBIF} (grupo : option string) (n : nat)
    (especies : list string) : nat :=
  match especies with
  | [] => 0%nat
  | e :: resto =>
      let k := snd (tentativas (Analise.search_params e grupo) n
                      Helpers.max_retries_default) in
      (k + chamadas_pagina grupo (n + k) resto)%nat
  end.

(** The number of rows of the spatial join: the pairs of a point and a
    row of the area the point is within. *)
Definition pares_dentro `{Geo} (pts : list Ponto) (gdf_area : GeoDataFrame)
    : nat :=
  list_sum (map (fun p => length (List.filter (within p) gdf_area)) pts).

(* ===================================================================== *)
(** * Properties                                                          *)
(* ===================================================================== *)

(** ** The trace *)

Lemma n_chamadas_snoc w e :
  n_chamadas (w ++ [e]) = (n_chamadas w + (if is_search e then 1 else 0))%nat.
Proof.
  unfold n_chamadas. rewrite List.filter_app, length_app. simpl.
  destruct (is_search e); reflexivity.
Qed.

Lemma n_erros_snoc w e :
  n_erros (w ++ [e]) = (n_erros w + (if is_error e then 1 else 0))%nat.
Proof.
  unfold n_erros. rewrite List.filter_app, length_app. simpl.
  destruct (is_error e); reflexivity.
Qed.

Lemma n_paginas_snoc w e :
  n_paginas (w ++ [e]) = (n_paginas w + (if is_info e then 1 else 0))%nat.
Proof.
  unfold n_paginas. rewrite List.filter_app, length_app. simpl.
  destruct (is_info e); reflexivity.
Qed.

Lemma sonos_snoc w e :
  sonos (w ++ [e]) = sonos w ++ match e with Ev_sleep s => [s] | _ => [] end.
Proof.
  unfold sonos. rewrite flat_map_app. simpl. rewrite app_nil_r. reflexivity.
Qed.

Ltac trace_simpl :=
  repeat (rewrite ?n_chamadas_snoc, ?n_erros_snoc, ?n_paginas_snoc,
            ?sonos_snoc; simpl);
  rewrite ?Nat.add_0_r, ?app_nil_r.

(** ** search_gbif_with_retries *)

Section Retries.
Context `{G : GBIF}.

Lemma for_attempt_sucesso p mr attempt rest w r :
  occ_search (n_chamadas w) p = Retorna r ->
  Helpers.for_attempt p mr (attempt :: rest) w = (Some r, w ++ [Ev_search p]).
Proof.
  intros Hr. simpl. unfold bind, do_search. rewrite Hr. reflexivity.
Qed.

Lemma for_attempt_outro_erro p mr attempt rest w m :
  occ_search (n_chamadas w) p = Levanta m ->
  Helpers.is_connection_error m = false ->
  Helpers.for_attempt p mr (attempt :: rest) w
  = (None, w ++ [Ev_search p] ++ [Ev_error (Erro_inesperado m)]).
Proof.
  intros Hr Hm. simpl. unfold bind, do_search, emit, ret.
  rewrite Hr, Hm. rewrite <- app_assoc. reflexivity.
Qed.

Lemma for_attempt_transiente p mr attempt rest w m :
  occ_search (n_chamadas w) p = Levanta m ->
  Helpers.is_connection_error m = true ->
  Helpers.for_attempt p mr (attempt :: rest) w
  = Helpers.for_attempt p mr rest
      (((w ++ [Ev_search p])
          ++ [Ev_warning (attempt + 1) mr (2 ^ (Z.of_nat attempt + 1))])
         ++ [Ev_sleep (inject_Z (2 ^ (Z.of_nat attempt + 1)))]).
Proof.
  intros Hr Hm. simpl. unfold bind at 1. unfold do_search. rewrite Hr, Hm.
  reflexivity.
Qed.

(** [j] transient failures in a row consume [j] attempts, sleep the
    backoff sequence and record no error. *)
Lemma for_attempt_transientes p mr j : forall a rest w,
  transientes p (n_chamadas w) j ->
  exists w',
    Helpers.for_attempt p mr (seq a j ++ rest) w
    = Helpers.for_attempt p mr rest w'
    /\ n_chamadas w' = (n_chamadas w + j)%nat
    /\ n_erros w' = n_erros w
    /\ sonos w' = sonos w ++ backoff a j.
Proof.
  induction j as [|j IH]; intros a rest w Ht.
  - exists w. simpl. unfold backoff. simpl. rewrite app_nil_r.
    repeat split; lia.
  - destruct (Ht 0%nat ltac:(lia)) as (m & Hm & Hc).
    rewrite Nat.add_0_r in Hm.
    simpl seq. rewrite <- app_comm_cons.
    rewrite (for_attempt_transiente _ _ _ _ _ _ Hm Hc).
    match goal with |- context [Helpers.for_attempt _ _ _ ?w1] =>
      destruct (IH (S a) rest w1) as (w' & E & Hn & He & Hs) end.
    { intros i Hi. destruct (Ht (S i) ltac:(lia)) as (m' & Hm' & Hc').
      exists m'. split; [|exact Hc'].
      trace_simpl. rewrite <- Hm'. f_equal. lia. }
    exists w'. split; [exact E|].
    revert Hn He Hs. trace_simpl. intros Hn He Hs.
    repeat split; try lia.
    rewrite Hs. unfold backoff. simpl. rewrite <- app_assoc. reflexivity.
Qed.

End Retries.

(** C5.  Retry policy of [search_gbif_with_retries] with its 4 attempts.
    (1) Connection failures on attempts 1..k-1 followed by a success on
    attempt k <= 4 give the successful result, with no error recorded and
    the waits 2, 4, ... doubling from one attempt to the next.
    (2) A failure of any other class is not retried, at whichever
    attempt it comes: after connection failures on attempts 1..k-1, a
    failure of another class on attempt k <= 4 ends the loop with [None],
    one error message and no further call; at the first attempt that is
    one call, an error message, and [None] at once.
    (3) Connection failures on all 4 attempts give [None] with exactly one
    error recorded, after the waits 2, 4, 8, 16; nothing is raised. *)
Theorem C5_retry_policy `{G : GBIF} (p : Params) (w : Mundo) :
  (forall (k : nat) (r : Resposta),
      (1 <= k <= Helpers.max_retries_default)%nat ->
      transientes p (n_chamadas w) (k - 1) ->
      occ_search (n_chamadas w + (k - 1)) p = Retorna r ->
      exists w',
        Helpers.search_gbif_with_retries p Helpers.max_retries_default w
        = (Some r, w')
        /\ n_chamadas w' = (n_chamadas w + k)%nat
        /\ n_erros w' = n_erros w
        /\ sonos w' = sonos w ++ backoff 0 (k - 1))
  /\ (forall m,
        occ_search (n_chamadas w) p = Levanta m ->
        Helpers.is_connection_error m = false ->
        Helpers.search_gbif_with_retries p Helpers.max_retries_default w
        = (None, w ++ [Ev_search p] ++ [Ev_error (Erro_inesperado m)]))
  /\ (forall (k : nat) (m : string),
        (1 <= k <= Helpers.max_retries_default)%nat ->
        transientes p (n_chamadas w) (k - 1) ->
        occ_search (n_chamadas w + (k - 1)) p = Levanta m ->
        Helpers.is_connection_error m = false ->
        exists w1,
          Helpers.search_gbif_with_retries p Helpers.max_retries_default w
          = (None, w1 ++ [Ev_search p; Ev_error (Erro_inesperado m)])
          /\ n_chamadas w1 = (n_chamadas w + (k - 1))%nat
          /\ n_erros w1 = n_erros w
          /\ sonos w1 = sonos w ++ backoff 0 (k - 1))
  /\ (transientes p (n_chamadas w) Helpers.max_retries_default ->
      exists w',
        Helpers.search_gbif_with_retries p Helpers.max_retries_default w
        = (None, w')
        /\ n_chamadas w' = (n_chamadas w + 4)%nat
        /\ n_erros w' = (n_erros w + 1)%nat
        /\ sonos w' = sonos w ++ backoff 0 4)
  /\ backoff 0 4 = [2; 4; 8; 16]%Q.
Proof.
  unfold Helpers.search_gbif_with_retries, Helpers.max_retries_default.
  assert (Hseq : forall k, (1 <= k <= 4)%nat ->
            seq 0 4 = seq 0 (k - 1) ++ (k - 1)%nat :: seq k (4 - k)).
  { intros k Hk.
    change ((k - 1)%nat :: seq k (4 - k))
      with ([(k - 1)%nat] ++ seq k (4 - k)).
    replace k with (0 + (k - 1) + 1)%nat at 3 by lia.
    change [(k - 1)%nat] with (seq (0 + (k - 1)) 1).
    rewrite <- !seq_app. f_equal. lia. }
  split; [|split; [|split; [|split]]].
  - intros k r Hk Ht Hr. rewrite (Hseq k Hk).
    destruct (for_attempt_transientes p 4 (k - 1) 0 ((k - 1)%nat :: seq k (4 - k)) w Ht)
      as (w1 & E & Hn & He & Hs).
    rewrite E. rewrite <- Hn in Hr.
    rewrite (for_attempt_sucesso _ _ _ _ _ _ Hr).
    eexists. split; [reflexivity|]. trace_simpl.
    repeat split; [lia | exact He | exact Hs].
  - intros m Hm Hc. simpl seq.
    apply for_attempt_outro_erro; assumption.
  - intros k m Hk Ht Hr Hc. rewrite (Hseq k Hk).
    destruct (for_attempt_transientes p 4 (k - 1) 0 ((k - 1)%nat :: seq k (4 - k)) w Ht)
      as (w1 & E & Hn & He & Hs).
    rewrite E. rewrite <- Hn in Hr.
    rewrite (for_attempt_outro_erro _ _ _ _ _ _ Hr Hc).
    exists w1. split; [reflexivity|]. auto.
  - intros Ht.
    destruct (for_attempt_transientes p 4 4 0 [] w Ht) as (w1 & E & Hn & He & Hs).
    rewrite app_nil_r in E. rewrite E. simpl.
    unfold bind, emit, ret. eexists. split; [reflexivity|].
    trace_simpl. repeat split; [lia | lia | exact Hs].
  - reflexivity.
Qed.

Lemma C5_retry_policy_witness :
  let p := Analise.search_params "Panthera onca" None in
  let r := {| count := Some 0; results := [] |} in
  (exists w',
      @Helpers.search_gbif_with_retries
        (gbif_roteiro [Levanta "Connection aborted"; Levanta "RemoteDisconnected";
                       Retorna r]) p 4 []
      = (Some r, w')
      /\ n_chamadas w' = 3%nat /\ n_erros w' = 0%nat
      /\ sonos w' = [2; 4]%Q)
  /\ @Helpers.search_gbif_with_retries
       (gbif_roteiro [Levanta "400 Bad Request"]) p 4 []
     = (None, [Ev_search p; Ev_error (Erro_inesperado "400 Bad Request")])
  /\ (exists w',
        @Helpers.search_gbif_with_retries (gbif_roteiro []) p 4 [] = (None, w')
        /\ n_chamadas w' = 4%nat /\ n_erros w' = 1%nat
        /\ sonos w' = [2; 4; 8; 16]%Q)
  /\ (exists w1,
        @Helpers.search_gbif_with_retries
          (gbif_roteiro [Levanta "Connection aborted";
                         Levanta "400 Bad Request"; Retorna r]) p 4 []
        = (None, w1 ++ [Ev_search p;
                        Ev_error (Erro_inesperado "400 Bad Request")])
        /\ n_chamadas w1 = 1%nat /\ n_erros w1 = 0%nat
        /\ sonos w1 = [2]%Q).
Proof.
  intros p r. split; [|split; [|split]].
  - apply (proj1 (@C5_retry_policy
                    (gbif_roteiro [Levanta "Connection aborted";
                                   Levanta "RemoteDisconnected"; Retorna r])
                    p []) 3%nat r).
    + unfold Helpers.max_retries_default. lia.
    + intros i Hi. destruct i as [|[|i]].
      * eexists. split; reflexivity.
      * eexists. split; reflexivity.
      * simpl in Hi. lia.
    + reflexivity.
  - apply (proj1 (proj2 (@C5_retry_policy
                           (gbif_roteiro [Levanta "400 Bad Request"]) p []))).
    + reflexivity.
    + reflexivity.
  - apply (proj1 (proj2 (proj2 (proj2 (@C5_retry_policy (gbif_roteiro []) p []))))).
    intros i Hi. eexists. split.
    + simpl. destruct i; reflexivity.
    + reflexivity.
  - apply (proj1 (proj2 (proj2 (@C5_retry_policy
                    (gbif_roteiro [Levanta "Connection aborted";
                                   Levanta "400 Bad Request"; Retorna r])
                    p []))) 2%nat "400 Bad Request"%string).
    + unfold Helpers.max_retries_default. lia.
    + intros i Hi. destruct i as [|i]; [|simpl in Hi; lia].
      eexists. split; reflexivity.
    + reflexivity.
    + reflexivity.
Defined.

(** ** Rounding *)

Lemma round_compat (x y : Q) : (x == y)%Q -> Py.round x = Py.round y.
Proof.
  intros E. unfold Py.round.
  rewrite (Qfloor_comp _ _ E).
  assert (E' : (x - inject_Z (Qfloor y) == y - inject_Z (Qfloor y))%Q)
    by (rewrite E; reflexivity).
  rewrite (Qcompare_comp _ _ E' (1 # 2) (1 # 2) (Qeq_refl _)).
  reflexivity.
Qed.

Lemma round_inject_Z (z : Z) : Py.round (inject_Z z) = z.
Proof.
  unfold Py.round. rewrite Qfloor_Z.
  assert (E : (inject_Z z - inject_Z z == 0)%Q) by ring.
  rewrite (Qcompare_comp _ _ E (1 # 2) (1 # 2) (Qeq_refl _)).
  reflexivity.
Qed.

Lemma round_bounds (x : Q) :
  Qfloor x <= Py.round x <= Qfloor x + 1.
Proof.
  unfold Py.round.
  destruct (Qcompare _ _); [destruct (Z.even _)| |]; lia.
Qed.

Lemma round_mono (x y : Q) : (x <= y)%Q -> Py.round x <= Py.round y.
Proof.
  intros Hxy.
  pose proof (Qfloor_resp_le _ _ Hxy) as Hf.
  destruct (Z.eq_dec (Qfloor x) (Qfloor y)) as [E|NE].
  - unfold Py.round. rewrite <- E.
    destruct (Qcompare_spec (x - inject_Z (Qfloor x))%Q (1 # 2)) as [Hx|Hx|Hx];
      destruct (Qcompare_spec (y - inject_Z (Qfloor x))%Q (1 # 2)) as [Hy|Hy|Hy];
      try lia; try (exfalso; lra);
      destruct (Z.even (Qfloor x)); lia.
  - pose proof (round_bounds x). pose proof (round_bounds y). lia.
Qed.

Lemma round_nonneg (x : Q) : (0 <= x)%Q -> 0 <= Py.round x.
Proof.
  intros H. change 0 with (Py.round 0). apply round_mono. exact H.
Qed.

(** ** Floats *)

Section Floats.
Import F64.

Lemma pow2_Qpower (k : Z) : (pow2 k == 2 ^ k)%Q.
Proof.
  destruct k as [|p|p]; unfold pow2.
  - reflexivity.
  - rewrite Zpower_Qpower by lia. reflexivity.
  - change (Z.neg p) with (- Z.pos p). rewrite Qpower_opp.
    rewrite <- (Zpower_Qpower 2 (Z.pos p)) by lia.
    rewrite <- Pos2Z.inj_pow. reflexivity.
Qed.

Lemma pow2_pos (k : Z) : (0 < pow2 k)%Q.
Proof. rewrite pow2_Qpower. apply Qpower_0_lt. reflexivity. Qed.

Lemma pow2_add (a b : Z) : (pow2 (a + b) == pow2 a * pow2 b)%Q.
Proof. rewrite !pow2_Qpower. apply Qpower_plus. discriminate. Qed.

Lemma pow2_le (a b : Z) : a <= b -> (pow2 a <= pow2 b)%Q.
Proof.
  intros H. rewrite !pow2_Qpower. apply Qpower_le_compat_l; [exact H|].
  discriminate.
Qed.

Lemma pow2_lt_inv (a b : Z) : (pow2 a < pow2 b)%Q -> a < b.
Proof.
  rewrite !pow2_Qpower. intros H.
  apply (Qpower_lt_compat_l_inv 2); [exact H|reflexivity].
Qed.

Lemma pow2_inject (k : Z) : 0 <= k -> (pow2 k == inject_Z (2 ^ k))%Q.
Proof. intros H. rewrite pow2_Qpower, Zpower_Qpower by exact H. reflexivity. Qed.

Lemma ilog2_spec (q : Q) :
  (0 < q)%Q -> (pow2 (ilog2 q) <= q)%Q /\ (q < pow2 (ilog2 q + 1))%Q.
Proof.
  intros Hq. destruct q as [n d].
  assert (Hn : 0 < n) by (unfold Qlt in Hq; simpl in Hq; lia).
  pose proof (Z.log2_spec n Hn) as [Hn1 Hn2].
  pose proof (Z.log2_spec (Z.pos d) (Pos2Z.is_pos d)) as [Hd1 Hd2].
  pose proof (Z.log2_nonneg n) as Hln.
  pose proof (Z.log2_nonneg (Z.pos d)) as Hld.
  set (ln := Z.log2 n) in *. set (ld := Z.log2 (Z.pos d)) in *.
  assert (Eq : (n # d == inject_Z n / inject_Z (Z.pos d))%Q)
    by apply Qmake_Qdiv.
  assert (Hdpos : (0 < inject_Z (Z.pos d))%Q) by reflexivity.
  assert (Hlow : (pow2 (ln - ld - 1) < n # d)%Q).
  { rewrite Eq. apply Qlt_shift_div_l; [exact Hdpos|].
    apply Qlt_le_trans with (pow2 (ln - ld - 1) * pow2 (ld + 1))%Q.
    - apply Qmult_lt_l; [apply pow2_pos|].
      rewrite pow2_inject by lia. rewrite <- Zlt_Qlt.
      replace (ld + 1) with (Z.succ ld) by lia. exact Hd2.
    - rewrite <- pow2_add. replace (ln - ld - 1 + (ld + 1)) with ln by lia.
      rewrite pow2_inject by lia. rewrite <- Zle_Qle. exact Hn1. }
  assert (Hhigh : (n # d < pow2 (ln - ld + 1))%Q).
  { rewrite Eq. apply Qlt_shift_div_r; [exact Hdpos|].
    apply Qlt_le_trans with (pow2 (ln + 1)).
    - rewrite pow2_inject by lia. rewrite <- Zlt_Qlt.
      replace (ln + 1) with (Z.succ ln) by lia. exact Hn2.
    - replace (ln + 1) with (ln - ld + 1 + ld) by lia. rewrite pow2_add.
      apply Qmult_le_l; [apply pow2_pos|].
      rewrite pow2_inject by lia. rewrite <- Zle_Qle. exact Hd1. }
  unfold ilog2. cbn [Qnum Qden]. fold ln ld.
  destruct (Qle_bool (pow2 (ln - ld)) (n # d)) eqn:E.
  - apply Qle_bool_iff in E. split; [exact E|exact Hhigh].
  - split.
    + apply Qlt_le_weak. exact Hlow.
    + replace (ln - ld - 1 + 1) with (ln - ld) by lia.
      apply Qnot_le_lt. intros H. apply Qle_bool_iff in H. congruence.
Qed.

Lemma ilog2_mono (x y : Q) : (0 < x)%Q -> (x <= y)%Q -> ilog2 x <= ilog2 y.
Proof.
  intros Hx Hxy.
  destruct (ilog2_spec x Hx) as [H1 _].
  destruct (ilog2_spec y (Qlt_le_trans _ _ _ Hx Hxy)) as [_ H2].
  assert (H : (pow2 (ilog2 x) < pow2 (ilog2 y + 1))%Q).
  { eapply Qle_lt_trans; [exact H1|]. eapply Qle_lt_trans; eassumption. }
  apply pow2_lt_inv in H. lia.
Qed.

Lemma ulp_exp_mono (x y : Q) : (0 < x)%Q -> (x <= y)%Q -> ulp_exp x <= ulp_exp y.
Proof.
  intros Hx Hxy. pose proof (ilog2_mono x y Hx Hxy). unfold ulp_exp. lia.
Qed.

Lemma arredonda_pos_nonneg (x : Q) : (0 <= x)%Q -> (0 <= arredonda_pos x)%Q.
Proof.
  intros Hx. unfold arredonda_pos.
  apply Qmult_le_0_compat; [|apply Qlt_le_weak, pow2_pos].
  change 0%Q with (inject_Z 0). rewrite <- Zle_Qle. apply round_nonneg.
  apply Qle_shift_div_l; [apply pow2_pos|]. lra.
Qed.

Lemma arredonda_pos_mono (x y : Q) :
  (0 < x)%Q -> (x <= y)%Q -> (arredonda_pos x <= arredonda_pos y)%Q.
Proof.
  intros Hx Hxy.
  assert (Hy : (0 < y)%Q) by (eapply Qlt_le_trans; eassumption).
  pose proof (ulp_exp_mono x y Hx Hxy) as Hc.
  unfold arredonda_pos.
  destruct (Z.eq_dec (ulp_exp x) (ulp_exp y)) as [E|NE].
  - rewrite E. apply Qmult_le_compat_r; [|apply Qlt_le_weak, pow2_pos].
    rewrite <- Zle_Qle. apply round_mono.
    apply Qmult_le_compat_r; [exact Hxy|].
    apply Qlt_le_weak, Qinv_lt_0_compat, pow2_pos.
  - set (cx := ulp_exp x) in *. set (cy := ulp_exp y) in *.
    destruct (ilog2_spec x Hx) as [_ Hx2].
    destruct (ilog2_spec y Hy) as [Hy1 _].
    assert (Hcy : cy = ilog2 y - 52) by (unfold cy, ulp_exp, prec, emin in *; lia).
    assert (Hcx : ilog2 x - 52 <= cx) by (unfold cx, ulp_exp, prec; lia).
    set (K := Z.max (ilog2 x + 1 - cx) 0).
    apply Qle_trans with (pow2 (K + cx)).
    + rewrite pow2_add. apply Qmult_le_compat_r; [|apply Qlt_le_weak, pow2_pos].
      rewrite (pow2_inject K) by (unfold K; lia).
      rewrite <- Zle_Qle.
      rewrite <- (round_inject_Z (2 ^ K)). apply round_mono.
      rewrite <- (pow2_inject K) by (unfold K; lia).
      apply Qle_shift_div_r; [apply pow2_pos|].
      rewrite <- pow2_add. apply Qlt_le_weak.
      eapply Qlt_le_trans; [exact Hx2|]. apply pow2_le. unfold K. lia.
    + apply Qle_trans with (pow2 (ilog2 y)).
      * apply pow2_le. unfold K. lia.
      * replace (ilog2 y) with (52 + cy) at 1 by lia. rewrite pow2_add.
        apply Qmult_le_compat_r; [|apply Qlt_le_weak, pow2_pos].
        rewrite (pow2_inject 52) by lia. rewrite <- Zle_Qle.
        rewrite <- (round_inject_Z (2 ^ 52)). apply round_mono.
        rewrite <- (pow2_inject 52) by lia.
        apply Qle_shift_div_l; [apply pow2_pos|].
        rewrite <- pow2_add. replace (52 + cy) with (ilog2 y) by lia.
        exact Hy1.
Qed.

Lemma rndQ_mono (x y : Q) : (x <= y)%Q -> (rndQ x <= rndQ y)%Q.
Proof.
  intros Hxy. unfold rndQ.
  destruct (Qcompare_spec x 0) as [Hx|Hx|Hx];
    destruct (Qcompare_spec y 0) as [Hy|Hy|Hy]; try lra.
  - apply arredonda_pos_nonneg. lra.
  - pose proof (arredonda_pos_nonneg (- x)). lra.
  - pose proof (arredonda_pos_mono (- y) (- x)). lra.
  - pose proof (arredonda_pos_nonneg (- x)).
    pose proof (arredonda_pos_nonneg y). lra.
  - apply arredonda_pos_mono; assumption.
Qed.

Lemma rndQ_comp (x y : Q) : (x == y)%Q -> (rndQ x == rndQ y)%Q.
Proof.
  intros E. apply Qle_antisym; apply rndQ_mono; rewrite E; apply Qle_refl.
Qed.

Lemma rnd_comp (x y : Q) : (x == y)%Q -> rnd x = rnd y.
Proof.
  intros E. pose proof (rndQ_comp x y E) as Er. unfold rnd.
  assert (E1 : Qle_bool (pow2 emax) (Qabs (rndQ x))
               = Qle_bool (pow2 emax) (Qabs (rndQ y))).
  { apply eq_true_iff_eq. rewrite !Qle_bool_iff, Er. reflexivity. }
  assert (E2 : Qle_bool 0 (rndQ x) = Qle_bool 0 (rndQ y)).
  { apply eq_true_iff_eq. rewrite !Qle_bool_iff, Er. reflexivity. }
  rewrite E1, E2, (Qred_complete _ _ Er). reflexivity.
Qed.

Lemma rndQ_0 : rndQ 0 = 0%Q.
Proof. reflexivity. Qed.

Lemma rndQ_1 : (rndQ 1 == 1)%Q.
Proof. apply Qeq_bool_iff. vm_compute. reflexivity. Qed.

Lemma rndQ_9 : (rndQ 9 == 9)%Q.
Proof. apply Qeq_bool_iff. vm_compute. reflexivity. Qed.

Lemma pow2_emax_grande : (9 < pow2 emax)%Q.
Proof. vm_compute. reflexivity. Qed.

(** An exact result between two floats is rounded to a float between
    them. *)
Lemma rnd_entre (a b q : Q) :
  (a <= q)%Q -> (q <= b)%Q ->
  (rndQ a == a)%Q -> (rndQ b == b)%Q ->
  (- pow2 emax < a)%Q -> (b < pow2 emax)%Q ->
  exists r, rnd q = Fin r /\ (r == rndQ q)%Q /\ (a <= r)%Q /\ (r <= b)%Q.
Proof.
  intros Ha Hb Ea Eb Hla Hlb.
  pose proof (rndQ_mono a q Ha) as H1. pose proof (rndQ_mono q b Hb) as H2.
  rewrite Ea in H1. rewrite Eb in H2.
  exists (Qred (rndQ q)). unfold rnd.
  destruct (Qle_bool (pow2 emax) (Qabs (rndQ q))) eqn:E.
  - apply Qle_bool_iff in E. exfalso.
    pose proof (Qabs_Qle_condition (rndQ q) (pow2 emax)) as Hc.
    destruct (Qlt_le_dec (rndQ q) 0) as [Hn|Hp].
    + rewrite Qabs_neg in E by lra. lra.
    + rewrite Qabs_pos in E by exact Hp. lra.
  - split; [reflexivity|]. rewrite !Qred_correct.
    split; [reflexivity|]. split; assumption.
Qed.

Lemma leb_Fin (a b : Q) : leb (Fin a) (Fin b) = true <-> (a <= b)%Q.
Proof. apply Qle_bool_iff. Qed.

Lemma leb_Fin_false (a b : Q) : leb (Fin a) (Fin b) = false <-> (b < a)%Q.
Proof.
  cbn [leb]. split; intros H.
  - apply Qnot_le_lt. intros Hle. apply Qle_bool_iff in Hle. congruence.
  - destruct (Qle_bool a b) eqn:E; [|reflexivity].
    apply Qle_bool_iff in E. exfalso. apply (Qlt_not_le _ _ H E).
Qed.

Lemma ltb_Fin (a b : Q) : ltb (Fin a) (Fin b) = true <-> (a < b)%Q.
Proof.
  unfold ltb. rewrite andb_true_iff, negb_true_iff, leb_Fin, leb_Fin_false.
  split; [tauto|]. intros H. split; [apply Qlt_le_weak|]; exact H.
Qed.

Lemma ltb_Fin_false (a b : Q) : ltb (Fin a) (Fin b) = false <-> (b <= a)%Q.
Proof.
  split; intros H.
  - apply Qnot_lt_le. intros Hlt. apply ltb_Fin in Hlt. congruence.
  - destruct (ltb (Fin a) (Fin b)) eqn:E; [|reflexivity].
    apply ltb_Fin in E. exfalso. apply (Qlt_not_le _ _ E H).
Qed.

(** A float that is at least 0 and below a finite float is finite. *)
Lemma abaixo_do_limite (d : t) (dmax : Q) :
  leb (Fin 0) d = true -> geb d (Fin dmax) = false ->
  exists a, d = Fin a /\ (0 <= a)%Q /\ (a < dmax)%Q.
Proof.
  unfold geb. intros H0 Hg. destruct d as [a|[|]|]; try discriminate.
  exists a. split; [reflexivity|]. split.
  - apply leb_Fin. exact H0.
  - apply leb_Fin_false. exact Hg.
Qed.

Lemma leb_trans_Fin (d1 d2 : t) (b : Q) :
  leb (Fin 0) d1 = true -> leb d1 d2 = true -> d2 = Fin b ->
  exists a, d1 = Fin a /\ (0 <= a)%Q /\ (a <= b)%Q.
Proof.
  intros H0 H12 ->. destruct d1 as [a|[|]|]; try discriminate.
  exists a. split; [reflexivity|]. split; apply leb_Fin; assumption.
Qed.

(** The product of a float by a positive float keeps the order and the
    sign. *)
Lemma mul_Fin_pos (a k : Q) :
  (0 <= a)%Q -> (0 < k)%Q -> leb (Fin 0) (mul (Fin a) (Fin k)) = true.
Proof.
  intros Ha Hk. cbn [mul]. unfold rnd.
  assert (H : (0 <= rndQ (a * k))%Q).
  { rewrite <- rndQ_0. apply rndQ_mono. apply Qmult_le_0_compat; lra. }
  destruct (Qle_bool (pow2 emax) (Qabs (rndQ (a * k)))).
  - apply Qle_bool_iff in H. rewrite H. reflexivity.
  - apply leb_Fin. rewrite Qred_correct. exact H.
Qed.

Lemma rnd_mono (x y : Q) : (x <= y)%Q -> leb (rnd x) (rnd y) = true.
Proof.
  intros Hxy. pose proof (rndQ_mono x y Hxy) as H. unfold rnd.
  pose proof (pow2_pos emax) as Hp.
  destruct (Qle_bool (pow2 emax) (Qabs (rndQ x))) eqn:Ex;
    destruct (Qle_bool (pow2 emax) (Qabs (rndQ y))) eqn:Ey.
  - apply Qle_bool_iff in Ex, Ey.
    destruct (Qle_bool 0 (rndQ x)) eqn:Sx; [|reflexivity].
    apply Qle_bool_iff in Sx.
    assert (Sy : Qle_bool 0 (rndQ y) = true) by (apply Qle_bool_iff; lra).
    rewrite Sy. reflexivity.
  - apply Qle_bool_iff in Ex.
    destruct (Qle_bool 0 (rndQ x)) eqn:Sx; [|reflexivity].
    apply Qle_bool_iff in Sx. rewrite Qabs_pos in Ex by exact Sx.
    assert (Hy : (pow2 emax <= Qabs (rndQ y))%Q)
      by (rewrite Qabs_pos by lra; lra).
    apply Qle_bool_iff in Hy. congruence.
  - apply Qle_bool_iff in Ey.
    destruct (Qle_bool 0 (rndQ y)) eqn:Sy; [reflexivity|].
    assert (Hy : (rndQ y < 0)%Q).
    { apply Qnot_le_lt. intros Hc. apply Qle_bool_iff in Hc. congruence. }
    rewrite Qabs_neg in Ey by lra.
    assert (Hx : (pow2 emax <= Qabs (rndQ x))%Q)
      by (rewrite Qabs_neg by lra; lra).
    apply Qle_bool_iff in Hx. congruence.
  - apply leb_Fin. rewrite !Qred_correct. exact H.
Qed.

End Floats.

(** ** Minimum of a series and its position *)

Lemma serie_min_le_init (ds : list Q) : forall d0,
  (Analise.serie_min d0 ds <= d0)%Q.
Proof.
  unfold Analise.serie_min.
  induction ds as [|d ds IH]; intros d0; simpl.
  - apply Qle_refl.
  - destruct (Qle_bool d0 d) eqn:E.
    + apply IH.
    + eapply Qle_trans; [apply IH|].
      destruct (Qlt_le_dec d d0) as [H|H]; [apply Qlt_le_weak, H|].
      apply Qle_bool_iff in H. congruence.
Qed.

Lemma serie_min_le (ds : list Q) : forall d0 d,
  In d (d0 :: ds) -> (Analise.serie_min d0 ds <= d)%Q.
Proof.
  induction ds as [|d1 ds IH]; intros d0 d Hin.
  - destruct Hin as [<-|[]]. apply Qle_refl.
  - change (Analise.serie_min d0 (d1 :: ds))
      with (Analise.serie_min (if Qle_bool d0 d1 then d0 else d1) ds).
    destruct Hin as [<-|[<-|Hin]].
    + destruct (Qle_bool d0 d1) eqn:E.
      * apply serie_min_le_init.
      * eapply Qle_trans; [apply serie_min_le_init|].
        destruct (Qlt_le_dec d1 d0) as [H|H]; [apply Qlt_le_weak, H|].
        apply Qle_bool_iff in H. congruence.
    + destruct (Qle_bool d0 d1) eqn:E.
      * eapply Qle_trans; [apply serie_min_le_init|].
        apply Qle_bool_iff, E.
      * apply serie_min_le_init.
    + apply IH. right. exact Hin.
Qed.

Lemma serie_min_In (ds : list Q) : forall d0,
  In (Analise.serie_min d0 ds) (d0 :: ds).
Proof.
  induction ds as [|d1 ds IH]; intros d0.
  - left. reflexivity.
  - change (Analise.serie_min d0 (d1 :: ds))
      with (Analise.serie_min (if Qle_bool d0 d1 then d0 else d1) ds).
    destruct (IH (if Qle_bool d0 d1 then d0 else d1)) as [E|Hin].
    + rewrite <- E. destruct (Qle_bool d0 d1); [left|right; left]; reflexivity.
    + right. right. exact Hin.
Qed.

(** [idxmin] points at the value [serie_min] returns. *)
Lemma idxmin_from_nth (todos : list Q) (x : Q) (resto : list Q) :
  forall i melhor_i melhor,
    (forall k, nth (i + k) todos x = nth k resto x) ->
    length todos = (i + length resto)%nat ->
    (melhor_i < i)%nat ->
    nth melhor_i todos x = melhor ->
    let j := Analise.idxmin_from i melhor_i melhor resto in
    (j < length todos)%nat /\ nth j todos x = Analise.serie_min melhor resto.
Proof.
  induction resto as [|d resto IH]; intros i bi best Hsuf Hlen Hbi Hbest.
  - simpl. split; [simpl in Hlen; lia | exact Hbest].
  - simpl in Hlen.
    change (Analise.serie_min best (d :: resto))
      with (Analise.serie_min (if Qle_bool best d then best else d) resto).
    simpl Analise.idxmin_from.
    assert (Hsuf' : forall k, nth (S i + k) todos x = nth k resto x).
    { intros k. replace (S i + k)%nat with (i + S k)%nat by lia.
      rewrite Hsuf. reflexivity. }
    destruct (Qle_bool best d).
    + apply IH; auto; lia.
    + apply IH; auto; try lia.
      specialize (Hsuf 0%nat). rewrite Nat.add_0_r in Hsuf. exact Hsuf.
Qed.

Lemma idxmin_nth (d0 : Q) (ds : list Q) :
  (Analise.idxmin d0 ds < length (d0 :: ds))%nat
  /\ nth (Analise.idxmin d0 ds) (d0 :: ds) d0 = Analise.serie_min d0 ds.
Proof.
  unfold Analise.idxmin.
  apply (idxmin_from_nth (d0 :: ds) d0 ds 1 0 d0); auto.
Qed.

(** The point at the position of the minimum is a point of the series and
    its distance is the minimum. *)
Lemma ponto_mais_proximo_spec {A} (f : A -> Q) (p0 : A) (resto : list A) :
  let q := nth (Analise.idxmin (f p0) (map f resto)) (p0 :: resto) p0 in
  In q (p0 :: resto)
  /\ f q = Analise.serie_min (f p0) (map f resto)
  /\ forall q', In q' (p0 :: resto) -> (f q <= f q')%Q.
Proof.
  intros q.
  destruct (idxmin_nth (f p0) (map f resto)) as [Hlt Hnth].
  assert (Hq : f q = Analise.serie_min (f p0) (map f resto)).
  { rewrite <- Hnth. unfold q.
    change (f p0 :: map f resto) with (map f (p0 :: resto)).
    rewrite map_nth. reflexivity. }
  split; [|split].
  - apply nth_In. simpl in Hlt |- *. rewrite length_map in Hlt. exact Hlt.
  - exact Hq.
  - intros q' Hin. rewrite Hq. apply serie_min_le.
    change (f p0 :: map f resto) with (map f (p0 :: resto)).
    apply in_map. exact Hin.
Qed.

(** ** The row of one species *)

Section Linha.
Context `{Gm : Geo}.
Import Analise.

Lemma filter_within_nil (p : Ponto) (gdf_area : GeoDataFrame) :
  List.filter (within p) gdf_area = [] <-> contido p gdf_area = false.
Proof.
  unfold contido. induction gdf_area as [|g gs IH]; simpl.
  - tauto.
  - destruct (within p g); simpl; [split; discriminate | exact IH].
Qed.

(** The join starts with the first point, in source order, that is within
    a row of the area. *)
Lemma sjoin_within_primeiro (gdf_area : GeoDataFrame) (pts : list Ponto) :
  (exists p, In p pts /\ contido p gdf_area = true) ->
  exists antes q depois cauda,
    pts = antes ++ q :: depois
    /\ (forall a, In a antes -> contido a gdf_area = false)
    /\ contido q gdf_area = true
    /\ sjoin_within pts gdf_area = q :: cauda.
Proof.
  induction pts as [|p pts IH]; intros (x & Hin & Hx).
  - destruct Hin.
  - destruct (contido p gdf_area) eqn:Hp.
    + exists [], p, pts.
      unfold sjoin_within. simpl.
      destruct (List.filter (within p) gdf_area) as [|g gs] eqn:Hf.
      * apply filter_within_nil in Hf. congruence.
      * simpl. eexists. repeat split; auto. intros a [].
    + destruct IH as (antes & q & depois & cauda & E & Ha & Hq & Hs).
      { destruct Hin as [->|Hin]; [congruence|]. exists x. auto. }
      exists (p :: antes), q, depois, cauda.
      repeat split; auto.
      * rewrite E. reflexivity.
      * intros a [<-|Hin']; auto.
      * unfold sjoin_within in *. simpl.
        apply filter_within_nil in Hp. rewrite Hp. simpl. exact Hs.
Qed.

Lemma sjoin_within_nil (gdf_area : GeoDataFrame) (pts : list Ponto) :
  (forall p, In p pts -> contido p gdf_area = false) ->
  sjoin_within pts gdf_area = [].
Proof.
  induction pts as [|p pts IH]; intros Hall; [reflexivity|].
  unfold sjoin_within in *. simpl.
  rewrite (proj2 (filter_within_nil p gdf_area)) by (apply Hall; left; reflexivity).
  simpl. apply IH. intros q Hq. apply Hall. right. exact Hq.
Qed.

(** With a one-row area the join has one row per contained point. *)
Lemma sjoin_within_uma_linha (g : Geometria) (pts : list Ponto) :
  length (sjoin_within pts [g])
  = length (List.filter (fun p => within p g) pts).
Proof.
  unfold sjoin_within. induction pts as [|p pts IH]; [reflexivity|].
  cbn [flat_map List.filter] in *. rewrite length_app, IH.
  destruct (within p g); reflexivity.
Qed.

Lemma pontos_de_nao_vazio (dados : Resposta) p0 resto :
  pontos_de (results dados) = p0 :: resto -> results dados <> [].
Proof. intros E Hn. rewrite Hn in E. discriminate. Qed.

(** The row when some point is contained, in both versions. *)
Lemma linha_dentro gdf_area dmax e dados p0 resto q cauda :
  pontos_de (results dados) = p0 :: resto ->
  sjoin_within (p0 :: resto) gdf_area = q :: cauda ->
  App.linha_da_resposta gdf_area dmax e dados
  = {| especie := e;
       ocorrencia_na_regiao := Dentro_da_area (length (q :: cauda));
       escore_proximidade := 10;
       gbif_total_records := default 0 (count dados);
       longitude_ocorrencia := Some (ponto_x q);
       latitude_ocorrencia := Some (ponto_y q);
       pontos := p0 :: resto |}
  /\ Pagina.linha_da_resposta gdf_area dmax e dados
     = App.linha_da_resposta gdf_area dmax e dados.
Proof.
  intros Hp Hs. pose proof (pontos_de_nao_vazio _ _ _ Hp) as Hne.
  unfold App.linha_da_resposta, Pagina.linha_da_resposta.
  destruct (results dados) as [|r rs]; [congruence|].
  rewrite Hp, Hs. split; reflexivity.
Qed.

(** The row when no point is contained. *)
Lemma linha_fora_app gdf_area dmax e dados p0 resto :
  pontos_de (results dados) = p0 :: resto ->
  sjoin_within (p0 :: resto) gdf_area = [] ->
  let d := distancia_minima_km gdf_area p0 resto in
  let q := nth (idxmin (distance (unary_union gdf_area) p0)
                  (map (distance (unary_union gdf_area)) resto))
             (p0 :: resto) p0 in
  App.linha_da_resposta gdf_area dmax e dados
  = {| especie := e;
       ocorrencia_na_regiao := snd (App.escore_por_distancia d dmax);
       escore_proximidade := F64.round (fst (App.escore_por_distancia d dmax));
       gbif_total_records := default 0 (count dados);
       longitude_ocorrencia := Some (ponto_x q);
       latitude_ocorrencia := Some (ponto_y q);
       pontos := p0 :: resto |}.
Proof.
  intros Hp Hs d q. pose proof (pontos_de_nao_vazio _ _ _ Hp) as Hne.
  unfold App.linha_da_resposta.
  destruct (results dados) as [|r rs]; [congruence|].
  rewrite Hp, Hs. subst d q. unfold distancia_minima_km, distancia_minima.
  destruct (App.escore_por_distancia _ _). reflexivity.
Qed.

Lemma linha_fora_pagina gdf_area dmax e dados p0 resto :
  pontos_de (results dados) = p0 :: resto ->
  sjoin_within (p0 :: resto) gdf_area = [] ->
  let d := distancia_minima_km gdf_area p0 resto in
  let q := nth (idxmin (distance (unary_union gdf_area) p0)
                  (map (distance (unary_union gdf_area)) resto))
             (p0 :: resto) p0 in
  Pagina.linha_da_resposta gdf_area dmax e dados
  = {| especie := e;
       ocorrencia_na_regiao := snd (Pagina.escore_por_distancia d dmax);
       escore_proximidade :=
         F64.round (fst (Pagina.escore_por_distancia d dmax));
       gbif_total_records := default 0 (count dados);
       longitude_ocorrencia := Some (ponto_x q);
       latitude_ocorrencia := Some (ponto_y q);
       pontos := p0 :: resto |}.
Proof.
  intros Hp Hs d q. pose proof (pontos_de_nao_vazio _ _ _ Hp) as Hne.
  unfold Pagina.linha_da_resposta.
  destruct (results dados) as [|r rs]; [congruence|].
  rewrite Hp, Hs. subst d q. unfold distancia_minima_km, distancia_minima.
  destruct (Pagina.escore_por_distancia _ _). reflexivity.
Qed.

(** The spatial join has one row per pair of a point and a row of the
    area the point is within. *)
Lemma sjoin_within_pares (gdf_area : GeoDataFrame) (pts : list Ponto) :
  length (sjoin_within pts gdf_area) = pares_dentro pts gdf_area.
Proof.
  unfold sjoin_within, pares_dentro.
  induction pts as [|p pts IH]; [reflexivity|].
  cbn [flat_map map]. rewrite length_app, length_map, IH. reflexivity.
Qed.

Lemma contido_filter (gdf_area : GeoDataFrame) (p : Ponto) :
  ((if contido p gdf_area then 1 else 0)
   <= length (List.filter (within p) gdf_area))%nat.
Proof.
  destruct (contido p gdf_area) eqn:E; [|lia].
  destruct (List.filter (within p) gdf_area) eqn:F; [|simpl; lia].
  apply filter_within_nil in F. congruence.
Qed.

Lemma pares_dentro_ge (gdf_area : GeoDataFrame) (pts : list Ponto) :
  (length (List.filter (fun p => contido p gdf_area) pts)
   <= pares_dentro pts gdf_area)%nat.
Proof.
  unfold pares_dentro. induction pts as [|p pts IH]; [reflexivity|].
  cbn [List.filter map]. change (list_sum (?a :: ?l)) with (a + list_sum l)%nat.
  pose proof (contido_filter gdf_area p) as H.
  destruct (contido p gdf_area); cbn [length] in *; lia.
Qed.

Lemma pares_dentro_sem_sobreposicao (gdf_area : GeoDataFrame)
    (pts : list Ponto) :
  (forall p, In p pts ->
     (length (List.filter (within p) gdf_area) <= 1)%nat) ->
  pares_dentro pts gdf_area
  = length (List.filter (fun p => contido p gdf_area) pts).
Proof.
  unfold pares_dentro. induction pts as [|p pts IH]; intros Hall;
    [reflexivity|].
  cbn [List.filter map]. change (list_sum (?a :: ?l)) with (a + list_sum l)%nat.
  rewrite IH by (intros q Hq; apply Hall; right; exact Hq).
  pose proof (contido_filter gdf_area p) as H.
  pose proof (Hall p (or_introl eq_refl)) as H1.
  destruct (contido p gdf_area) eqn:E; cbn [length] in *.
  - lia.
  - apply filter_within_nil in E. rewrite E. reflexivity.
Qed.

End Linha.

(** ** The score as a function of the distance *)

Lemma geb_true (a b : Q) : Py.geb a b = true <-> (b <= a)%Q.
Proof. unfold Py.geb. apply Qle_bool_iff. Qed.

Lemma geb_false (a b : Q) : Py.geb a b = false <-> (a < b)%Q.
Proof.
  unfold Py.geb. split; intros H.
  - apply Qnot_le_lt. intros Hle. apply Qle_bool_iff in Hle. congruence.
  - destruct (Qle_bool b a) eqn:E; [|reflexivity].
    apply Qle_bool_iff in E. exfalso. apply (Qlt_not_le _ _ H E).
Qed.

Lemma ltb_true (a b : Q) : Py.ltb a b = true <-> (a < b)%Q.
Proof.
  unfold Py.ltb. rewrite negb_true_iff. apply (geb_false a b).
Qed.

Lemma ltb_false (a b : Q) : Py.ltb a b = false <-> (b <= a)%Q.
Proof.
  unfold Py.ltb. rewrite negb_false_iff. apply (geb_true a b).
Qed.

(** The float of the literal 111.32. *)
Lemma km_por_grau_valor :
  Analise.km_por_grau = F64.Fin (1958362150464389 # 17592186044416).
Proof. vm_compute. reflexivity. Qed.

Lemma app_escore_fst (d : F64.t) (dmax : Q) :
  fst (App.escore_por_distancia d dmax)
  = if F64.geb d (F64.Fin dmax) then F64.Fin 0 else escore_float d dmax.
Proof.
  unfold App.escore_por_distancia, escore_float. cbv zeta.
  destruct (F64.geb d (F64.Fin dmax)); [reflexivity|].
  destruct (F64.ltb d (F64.Fin 1)); [reflexivity|].
  destruct (F64.ltb d (F64.Fin 50)); reflexivity.
Qed.

Lemma pagina_escore_fst (d : F64.t) (dmax : Q) :
  fst (Pagina.escore_por_distancia d dmax)
  = fst (App.escore_por_distancia d dmax).
Proof.
  rewrite app_escore_fst. unfold Pagina.escore_por_distancia. cbv zeta.
  destruct (F64.geb d (F64.Fin dmax)); reflexivity.
Qed.

(** Below the threshold the float score is a float from 0 to 9: the
    three results rounded on the way stay between floats. *)
Lemma escore_float_valor (a dmax : Q) :
  (0 <= a)%Q -> (a < dmax)%Q ->
  exists t,
    escore_float (F64.Fin a) dmax = F64.Fin t
    /\ (t == F64.rndQ (9 * F64.rndQ (1 - F64.rndQ (a / dmax))))%Q
    /\ (0 <= t)%Q /\ (t <= 9)%Q.
Proof.
  intros Ha Hlt. assert (Hm : (0 < dmax)%Q) by lra.
  pose proof (pow2_pos F64.emax) as Hp.
  pose proof pow2_emax_grande as Hg.
  unfold escore_float. cbn [F64.div].
  assert (Ed : F64.rnd (a / dmax)
               = match Qcompare dmax 0 with
                 | Eq => match Qcompare a 0 with
                         | Eq => F64.NaN
                         | Gt => F64.Inf false
                         | Lt => F64.Inf true
                         end
                 | _ => F64.rnd (a / dmax)
                 end).
  { destruct (Qcompare dmax 0) eqn:E; try reflexivity.
    apply Qeq_alt in E. lra. }
  rewrite <- Ed. clear Ed.
  destruct (rnd_entre 0 1 (a / dmax)) as (q & Eq & Hq & Hq0 & Hq1).
  { apply Qle_shift_div_l; [exact Hm|lra]. }
  { apply Qle_shift_div_r; [exact Hm|lra]. }
  { rewrite rndQ_0. reflexivity. }
  { exact rndQ_1. }
  { lra. }
  { lra. }
  rewrite Eq. cbn [F64.sub].
  destruct (rnd_entre 0 1 (1 - q)) as (s & Es & Hs & Hs0 & Hs1);
    [lra | lra | rewrite rndQ_0; reflexivity | exact rndQ_1 | lra | lra |].
  rewrite Es. cbn [F64.mul].
  destruct (rnd_entre 0 9 (9 * s)) as (t & Et & Ht & Ht0 & Ht1);
    [lra | lra | rewrite rndQ_0; reflexivity | exact rndQ_9 | lra | lra |].
  exists t. split; [exact Et|]. split; [|split; assumption].
  assert (E1 : (F64.rndQ (1 - q) == F64.rndQ (1 - F64.rndQ (a / dmax)))%Q)
    by (apply rndQ_comp; rewrite Hq; reflexivity).
  rewrite Ht. apply rndQ_comp. rewrite Hs, E1. reflexivity.
Qed.

Lemma escore_float_mono (a b dmax : Q) :
  (0 <= a)%Q -> (a <= b)%Q -> (b < dmax)%Q ->
  F64.round (escore_float (F64.Fin b) dmax)
  <= F64.round (escore_float (F64.Fin a) dmax).
Proof.
  intros Ha Hab Hb. assert (Hm : (0 < dmax)%Q) by lra.
  destruct (escore_float_valor a dmax Ha) as (ta & Ea & Hta & _); [lra|].
  destruct (escore_float_valor b dmax) as (tb & Eb & Htb & _); [lra|lra|].
  rewrite Ea, Eb. cbn [F64.round]. apply round_mono. rewrite Hta, Htb.
  apply rndQ_mono.
  assert (Hq : (F64.rndQ (a / dmax) <= F64.rndQ (b / dmax))%Q).
  { apply rndQ_mono. unfold Qdiv. apply Qmult_le_compat_r; [exact Hab|].
    apply Qinv_le_0_compat. lra. }
  assert (Hs : (F64.rndQ (1 - F64.rndQ (b / dmax))
                <= F64.rndQ (1 - F64.rndQ (a / dmax)))%Q)
    by (apply rndQ_mono; lra).
  lra.
Qed.

(** With a distance that is not negative, the score passed to [round]
    is a finite float from 0 to 9. *)
Lemma escore_finito (d : F64.t) (dmax : Q) :
  F64.leb (F64.Fin 0) d = true ->
  exists t, fst (App.escore_por_distancia d dmax) = F64.Fin t
            /\ (0 <= t)%Q /\ (t <= 9)%Q.
Proof.
  intros H0. rewrite app_escore_fst.
  destruct (F64.geb d (F64.Fin dmax)) eqn:E.
  - exists 0%Q. split; [reflexivity|]. split; lra.
  - destruct (abaixo_do_limite d dmax H0 E) as (a & -> & Ha & Hlt).
    destruct (escore_float_valor a dmax Ha Hlt) as (t & Et & _ & Ht).
    exists t. split; [exact Et|exact Ht].
Qed.

Lemma escore_intervalo (d : F64.t) (dmax : Q) :
  F64.leb (F64.Fin 0) d = true ->
  0 <= F64.round (fst (App.escore_por_distancia d dmax)) <= 9.
Proof.
  intros H0. destruct (escore_finito d dmax H0) as (t & -> & Ht0 & Ht9).
  cbn [F64.round]. split.
  - apply round_nonneg. exact Ht0.
  - rewrite <- (round_inject_Z 9). apply round_mono. exact Ht9.
Qed.

(** The rounded score does not increase when the distance grows. *)
Lemma escore_mono (d1 d2 : F64.t) (dmax : Q) :
  F64.leb (F64.Fin 0) d1 = true -> F64.leb d1 d2 = true ->
  F64.round (fst (App.escore_por_distancia d2 dmax))
  <= F64.round (fst (App.escore_por_distancia d1 dmax)).
Proof.
  intros H0 H12.
  destruct (F64.geb d2 (F64.Fin dmax)) eqn:E2.
  - rewrite (app_escore_fst d2), E2. cbn [F64.round].
    change (Py.round 0) with 0. apply (escore_intervalo d1 dmax H0).
  - assert (H02 : F64.leb (F64.Fin 0) d2 = true).
    { destruct d1 as [a|[|]|]; destruct d2 as [b|[|]|]; try discriminate;
        try reflexivity.
      apply leb_Fin in H0, H12. apply leb_Fin. lra. }
    destruct (abaixo_do_limite d2 dmax H02 E2) as (b & Eb & Hb0 & Hb).
    destruct (leb_trans_Fin d1 d2 b H0 H12 Eb) as (a & -> & Ha & Hab).
    subst d2.
    assert (E1 : F64.geb (F64.Fin a) (F64.Fin dmax) = false)
      by (apply leb_Fin_false; lra).
    rewrite !app_escore_fst, E1, E2.
    apply escore_float_mono; assumption.
Qed.

(** The minimum distance in km is not negative when no distance is. *)
Lemma distancia_km_nonneg `{Gm : Geo} (gdf_area : GeoDataFrame) p0 resto :
  (forall p, In p (p0 :: resto) ->
     (0 <= distance (unary_union gdf_area) p)%Q) ->
  (0 <= distancia_minima gdf_area p0 resto)%Q
  /\ F64.leb (F64.Fin 0) (distancia_minima_km gdf_area p0 resto) = true.
Proof.
  intros Hd.
  assert (H : (0 <= distancia_minima gdf_area p0 resto)%Q).
  { unfold distancia_minima.
    destruct (ponto_mais_proximo_spec (distance (unary_union gdf_area))
                p0 resto) as (Hin & Hq & _).
    rewrite <- Hq. apply Hd. exact Hin. }
  split; [exact H|].
  unfold distancia_minima_km. rewrite km_por_grau_valor.
  apply mul_Fin_pos; [exact H|reflexivity].
Qed.

(** ** Claims on the score *)

(** C2 (as the code has it).  When at least one occurrence point is
    within a row of the area, the row of the species has score exactly 10
    and the inside-area text, whatever the other points are.  The text
    carries the number of rows of the spatial join, that is the number of
    pairs of a point and a row of the area the point is within: at least
    the number of points within a row, and that number exactly when no
    point is within two rows, as with a one-row area.  The representative
    coordinate is the first point in source order that is within a row.
    Both versions of the analysis build the same row. *)
Theorem C2_inside_area `{Gm : Geo} (gdf_area : GeoDataFrame) (dmax : Q)
    (e : string) (dados : Resposta) :
  let pts := Analise.pontos_de (results dados) in
  (exists p, In p pts /\ contido p gdf_area = true) ->
  let linha := App.linha_da_resposta gdf_area dmax e dados in
  let dentro := List.filter (fun p => contido p gdf_area) pts in
  escore_proximidade linha = 10
  /\ ocorrencia_na_regiao linha = Dentro_da_area (pares_dentro pts gdf_area)
  /\ (1 <= length dentro <= pares_dentro pts gdf_area)%nat
  /\ ((forall p, In p pts ->
         (length (List.filter (within p) gdf_area) <= 1)%nat) ->
        pares_dentro pts gdf_area = length dentro)
  /\ (forall g, gdf_area = [g] ->
        pares_dentro pts gdf_area
        = length (List.filter (fun p => within p g) pts))
  /\ (exists antes q depois,
        pts = antes ++ q :: depois
        /\ (forall a, In a antes -> contido a gdf_area = false)
        /\ contido q gdf_area = true
        /\ longitude_ocorrencia linha = Some (ponto_x q)
        /\ latitude_ocorrencia linha = Some (ponto_y q))
  /\ Pagina.linha_da_resposta gdf_area dmax e dados = linha.
Proof.
  intros pts Hex linha dentro.
  destruct (sjoin_within_primeiro gdf_area pts Hex)
    as (antes & q & depois & cauda & E & Ha & Hq & Hs).
  assert (Hne : exists p0 resto, pts = p0 :: resto).
  { destruct pts as [|p0 resto]; [destruct antes; discriminate|]. eauto. }
  destruct Hne as (p0 & resto & Hp).
  assert (Hs' : Analise.sjoin_within (p0 :: resto) gdf_area = q :: cauda)
    by (rewrite <- Hp; exact Hs).
  destruct (linha_dentro gdf_area dmax e dados p0 resto q cauda Hp Hs')
    as [Hl Hpag].
  pose proof (sjoin_within_pares gdf_area pts) as Hn. rewrite Hs in Hn.
  subst linha. rewrite Hpag, Hl.
  cbn [escore_proximidade ocorrencia_na_regiao longitude_ocorrencia
       latitude_ocorrencia].
  split; [reflexivity|]. split; [rewrite Hn; reflexivity|].
  split.
  { split; [|apply pares_dentro_ge].
    destruct Hex as (x & Hin & Hx). subst dentro.
    assert (Hf : In x (List.filter (fun p => contido p gdf_area) pts))
      by (apply List.filter_In; auto).
    destruct (List.filter _ pts); [destruct Hf|simpl; lia]. }
  split; [apply pares_dentro_sem_sobreposicao|].
  split.
  { intros g ->. rewrite <- sjoin_within_pares.
    apply sjoin_within_uma_linha. }
  split; [|reflexivity].
  exists antes, q, depois. auto.
Qed.

Lemma C2_inside_area_witness :
  let dados := resposta_com [registro_em (3 # 2) (1 # 2);
                             registro_em (1 # 2) (1 # 2);
                             registro_em (1 # 4) (1 # 2)] in
  let linha := App.linha_da_resposta Retangulos.area_quadrado 100
                 "Panthera onca" dados in
  escore_proximidade linha = 10
  /\ ocorrencia_na_regiao linha = Dentro_da_area 2
  /\ longitude_ocorrencia linha = Some (1 # 2)%Q.
Proof.
  intros dados linha.
  destruct (C2_inside_area Retangulos.area_quadrado 100 "Panthera onca" dados)
    as (H1 & H2 & _).
  - exists {| ponto_x := 1 # 4; ponto_y := 1 # 2 |}. split.
    + simpl. auto.
    + reflexivity.
  - split; [exact H1|]. split; [exact H2|]. reflexivity.
Defined.

(** C2, the claim as stated, fails on an area of more than one row.
    With two rows that share the edge x = 1, the point (1, 1/2) of that
    edge is contained in the area polygon, the union of the rows, but is
    within neither row: the point set made of it does not get score 10.
    With two rows that overlap, two contained points give the inside-area
    text with the count 3. *)
Lemma C2_counterexample :
  let direita := {| Retangulos.xmin := 1; Retangulos.ymin := 0;
                    Retangulos.xmax := 2; Retangulos.ymax := 1 |} in
  let area : @GeoDataFrame Retangulos.geo :=
    [[Retangulos.quadrado]; [direita]] in
  let ponto := {| ponto_x := 1; ponto_y := 1 # 2 |} in
  let linha := App.linha_da_resposta area 100 "Panthera onca"
                 (resposta_com [registro_em 1 (1 # 2)]) in
  let larga := {| Retangulos.xmin := 1 # 2; Retangulos.ymin := 0;
                  Retangulos.xmax := 2; Retangulos.ymax := 1 |} in
  let sobrepostas : @GeoDataFrame Retangulos.geo :=
    [[Retangulos.quadrado]; [larga]] in
  let dados := resposta_com [registro_em (3 # 4) (1 # 2);
                             registro_em (1 # 4) (1 # 2)] in
  within ponto (unary_union area) = true
  /\ ~ (escore_proximidade linha = 10)
  /\ length (List.filter (fun p => contido p sobrepostas)
               (Analise.pontos_de (results dados))) = 2%nat
  /\ ocorrencia_na_regiao
       (App.linha_da_resposta sobrepostas 100 "Panthera onca" dados)
     = Dentro_da_area 3.
Proof.
  intros direita area ponto linha larga sobrepostas dados.
  split; [reflexivity|]. split; [vm_compute; discriminate|].
  split; reflexivity.
Qed.

(** C3.  For a non-empty point set with no point within the area, let d
    be the minimum distance to the area in degrees times 111.32, as the
    code computes it in floats.  If d >= the threshold the score is 0 with
    the far text; otherwise the score is round(9 * (1 - d / threshold)),
    that expression being evaluated in floats.  The representative
    coordinate is a point of the set at minimum distance.  The score does
    not increase when d grows (for non-negative distances).  Both versions
    of the analysis give these scores and coordinates. *)
Theorem C3_distance_score `{Gm : Geo} (gdf_area : GeoDataFrame) (dmax : Q)
    (e : string) (dados : Resposta) (p0 : Ponto) (resto : list Ponto) :
  Analise.pontos_de (results dados) = p0 :: resto ->
  Analise.sjoin_within (p0 :: resto) gdf_area = [] ->
  let d := distancia_minima_km gdf_area p0 resto in
  let linha := App.linha_da_resposta gdf_area dmax e dados in
  let linha' := Pagina.linha_da_resposta gdf_area dmax e dados in
  Analise.km_por_grau = F64.Fin (1958362150464389 # 17592186044416)
  /\ (forall a, d = F64.Fin a ->
        (F64.geb d (F64.Fin dmax) = true <-> (dmax <= a)%Q))
  /\ (F64.geb d (F64.Fin dmax) = true ->
        escore_proximidade linha = 0
        /\ ocorrencia_na_regiao linha = Distante dmax
        /\ escore_proximidade linha' = 0
        /\ ocorrencia_na_regiao linha' = Longe dmax)
  /\ (F64.geb d (F64.Fin dmax) = false ->
        escore_proximidade linha
        = F64.round
            (F64.mul (F64.Fin 9)
               (F64.sub (F64.Fin 1) (F64.div d (F64.Fin dmax))))
        /\ escore_proximidade linha' = escore_proximidade linha)
  /\ (exists q,
        In q (p0 :: resto)
        /\ d = F64.mul (F64.Fin (distance (unary_union gdf_area) q))
                 Analise.km_por_grau
        /\ (forall q', In q' (p0 :: resto) ->
              (distance (unary_union gdf_area) q
               <= distance (unary_union gdf_area) q')%Q)
        /\ longitude_ocorrencia linha = Some (ponto_x q)
        /\ latitude_ocorrencia linha = Some (ponto_y q)
        /\ longitude_ocorrencia linha' = Some (ponto_x q)
        /\ latitude_ocorrencia linha' = Some (ponto_y q))
  /\ (forall gdf_area2 e2 dados2 p2 resto2,
        Analise.pontos_de (results dados2) = p2 :: resto2 ->
        Analise.sjoin_within (p2 :: resto2) gdf_area2 = [] ->
        F64.leb (F64.Fin 0) d = true ->
        F64.leb d (distancia_minima_km gdf_area2 p2 resto2) = true ->
        escore_proximidade (App.linha_da_resposta gdf_area2 dmax e2 dados2)
        <= escore_proximidade linha
        /\ escore_proximidade (Pagina.linha_da_resposta gdf_area2 dmax e2 dados2)
           <= escore_proximidade linha').
Proof.
  intros Hp Hs d linha linha'.
  pose proof (linha_fora_app gdf_area dmax e dados p0 resto Hp Hs) as Ha.
  pose proof (linha_fora_pagina gdf_area dmax e dados p0 resto Hp Hs) as Hb.
  cbv zeta in Ha, Hb. fold d in Ha, Hb.
  subst linha linha'. rewrite Ha, Hb.
  cbn [escore_proximidade ocorrencia_na_regiao longitude_ocorrencia
       latitude_ocorrencia].
  rewrite pagina_escore_fst.
  split; [exact km_por_grau_valor|].
  split; [intros a ->; apply leb_Fin|]. split; [|split; [|split]].
  - intros Hfar. rewrite app_escore_fst.
    unfold App.escore_por_distancia, Pagina.escore_por_distancia. cbv zeta.
    rewrite Hfar. cbn [snd F64.round]. auto.
  - intros Hnear. rewrite app_escore_fst, Hnear. auto.
  - destruct (ponto_mais_proximo_spec (distance (unary_union gdf_area)) p0 resto)
      as (Hin & Hq & Hmin).
    eexists. split; [exact Hin|]. split; [|split; [exact Hmin|auto]].
    rewrite Hq. reflexivity.
  - intros gdf_area2 e2 dados2 p2 resto2 Hp2 Hs2 H0 Hle.
    rewrite (linha_fora_app gdf_area2 dmax e2 dados2 p2 resto2 Hp2 Hs2).
    rewrite (linha_fora_pagina gdf_area2 dmax e2 dados2 p2 resto2 Hp2 Hs2).
    cbn [escore_proximidade]. rewrite pagina_escore_fst.
    split; apply escore_mono; assumption.
Qed.

Lemma C3_distance_score_witness :
  let longe := resposta_com [registro_em 4 5; registro_em 3 (1 # 2)] in
  let perto := resposta_com [registro_em 4 5; registro_em (3 # 2) (1 # 2)] in
  let area := Retangulos.area_quadrado in
  (escore_proximidade (App.linha_da_resposta area 100 "Puma concolor" longe) = 0
   /\ ocorrencia_na_regiao (App.linha_da_resposta area 100 "Puma concolor" longe)
      = Distante 100)
  /\ escore_proximidade (App.linha_da_resposta area 100 "Puma concolor" perto)
     = 4
  /\ escore_proximidade (App.linha_da_resposta area 100 "Puma concolor" longe)
     <= escore_proximidade (App.linha_da_resposta area 100 "Puma concolor" perto).
Proof.
  intros longe perto area.
  pose proof (C3_distance_score area 100 "Puma concolor" longe
                {| ponto_x := 4; ponto_y := 5 |}
                [{| ponto_x := 3; ponto_y := 1 # 2 |}]
                eq_refl eq_refl) as (_ & _ & Hfar & _).
  pose proof (C3_distance_score area 100 "Puma concolor" perto
                {| ponto_x := 4; ponto_y := 5 |}
                [{| ponto_x := 3 # 2; ponto_y := 1 # 2 |}]
                eq_refl eq_refl) as (_ & _ & _ & Hnear & _ & Hmono).
  split; [|split].
  - destruct Hfar as (H1 & H2 & _); [reflexivity|]. auto.
  - destruct Hnear as (H1 & _); [reflexivity|]. rewrite H1. reflexivity.
  - apply (Hmono area "Puma concolor" longe
             {| ponto_x := 4; ponto_y := 5 |}
             [{| ponto_x := 3; ponto_y := 1 # 2 |}] eq_refl eq_refl).
    + reflexivity.
    + reflexivity.
Defined.

(** C7 (as the code has it).  In [app.py], for a non-contained point set
    whose minimum distance d is below the threshold, the text is chosen by
    d alone: very near when d < 1 km, near when 1 <= d < 50, moderately
    near otherwise; the score is round(9 * (1 - d / threshold)) whatever
    the text.  The version of the page has the single text "Próxima" for
    every such d.  The distance d, the comparisons and the score are those
    of the code, in floats.  For the unit square at the equator, threshold
    100 km and a point 0.5 degrees outside an edge, d is the float 55.66:
    the score is 4 in both versions, with the moderately-near text in
    [app.py] and the near text in the page. *)
Theorem C7_distance_labels `{Gm : Geo} (gdf_area : GeoDataFrame) (dmax : Q)
    (e : string) (dados : Resposta) (p0 : Ponto) (resto : list Ponto) :
  Analise.pontos_de (results dados) = p0 :: resto ->
  Analise.sjoin_within (p0 :: resto) gdf_area = [] ->
  let d := distancia_minima_km gdf_area p0 resto in
  F64.geb d (F64.Fin dmax) = false ->
  let linha := App.linha_da_resposta gdf_area dmax e dados in
  let linha' := Pagina.linha_da_resposta gdf_area dmax e dados in
  (F64.ltb d (F64.Fin 1) = true ->
     ocorrencia_na_regiao linha
     = Muito_Proxima (F64.mul d (F64.Fin 1000)))
  /\ (F64.ltb d (F64.Fin 1) = false -> F64.ltb d (F64.Fin 50) = true ->
        ocorrencia_na_regiao linha = Proxima d)
  /\ (F64.ltb d (F64.Fin 1) = false -> F64.ltb d (F64.Fin 50) = false ->
        ocorrencia_na_regiao linha = Moderadamente_Proxima d)
  /\ (forall a, d = F64.Fin a ->
        (F64.ltb d (F64.Fin 1) = true <-> (a < 1)%Q)
        /\ (F64.ltb d (F64.Fin 50) = true <-> (a < 50)%Q))
  /\ escore_proximidade linha = F64.round (escore_float d dmax)
  /\ ocorrencia_na_regiao linha' = Proxima d
  /\ escore_proximidade linha' = F64.round (escore_float d dmax)
  /\ (let exemplo := resposta_com [registro_em (3 # 2) (1 # 2)] in
      let area := Retangulos.area_quadrado in
      distancia_minima_km area {| ponto_x := 3 # 2; ponto_y := 1 # 2 |} []
      = F64.lit (5566 # 100)
      /\ App.linha_da_resposta area 100 e exemplo
         = {| especie := e;
              ocorrencia_na_regiao :=
                Moderadamente_Proxima (F64.lit (5566 # 100));
              escore_proximidade := 4;
              gbif_total_records := 1;
              longitude_ocorrencia := Some (3 # 2)%Q;
              latitude_ocorrencia := Some (1 # 2)%Q;
              pontos := [{| ponto_x := 3 # 2; ponto_y := 1 # 2 |}] |}
      /\ ocorrencia_na_regiao (Pagina.linha_da_resposta area 100 e exemplo)
         = Proxima (F64.lit (5566 # 100))
      /\ escore_proximidade (Pagina.linha_da_resposta area 100 e exemplo) = 4).
Proof.
  intros Hp Hs d Hg linha linha'.
  pose proof (linha_fora_app gdf_area dmax e dados p0 resto Hp Hs) as Ha.
  pose proof (linha_fora_pagina gdf_area dmax e dados p0 resto Hp Hs) as Hb.
  cbv zeta in Ha, Hb. fold d in Ha, Hb.
  subst linha linha'. rewrite Ha, Hb.
  cbn [escore_proximidade ocorrencia_na_regiao].
  rewrite pagina_escore_fst, app_escore_fst.
  unfold App.escore_por_distancia, Pagina.escore_por_distancia. cbv zeta.
  rewrite Hg. cbn [snd].
  split; [|split; [|split; [|split; [|split; [|split; [|split]]]]]].
  - intros H1. rewrite H1. reflexivity.
  - intros H1 H50. rewrite H1, H50. reflexivity.
  - intros H1 H50. rewrite H1, H50. reflexivity.
  - intros a ->. split; apply ltb_Fin.
  - reflexivity.
  - reflexivity.
  - reflexivity.
  - cbv zeta. split; [vm_compute; reflexivity|].
    split; [|split]; vm_compute; reflexivity.
Qed.

Lemma C7_distance_labels_witness :
  let dados := resposta_com [registro_em (3 # 2) (1 # 2);
                             registro_em 1 (5 # 4)] in
  let linha := App.linha_da_resposta Retangulos.area_quadrado 100
                 "Puma concolor" dados in
  ocorrencia_na_regiao linha = Proxima (F64.lit (2783 # 100))
  /\ escore_proximidade linha = 6.
Proof.
  intros dados linha.
  pose proof (C7_distance_labels Retangulos.area_quadrado 100 "Puma concolor"
                dados {| ponto_x := 3 # 2; ponto_y := 1 # 2 |}
                [{| ponto_x := 1; ponto_y := 5 # 4 |}]
                eq_refl eq_refl eq_refl) as (_ & Hnear & _ & _ & Hscore & _).
  split.
  - subst linha. rewrite Hnear; [vm_compute; reflexivity | reflexivity
                                 | reflexivity].
  - subst linha. rewrite Hscore. vm_compute. reflexivity.
Defined.

(** C7, the claim as stated, fails on [app.py]: in its own example
    (unit square, threshold 100 km, a point 0.5 degrees outside the edge)
    the text is not the near one. *)
Lemma C7_counterexample :
  let ponto := {| ponto_x := 3 # 2; ponto_y := 1 # 2 |} in
  let linha := App.linha_da_resposta Retangulos.area_quadrado 100
                 "Puma concolor" (resposta_com [registro_em (3 # 2) (1 # 2)]) in
  contido ponto Retangulos.area_quadrado = false
  /\ distance (unary_union Retangulos.area_quadrado) ponto = (1 # 2)%Q
  /\ ~ (escore_proximidade linha = 4
        /\ exists km, ocorrencia_na_regiao linha = Proxima km).
Proof.
  intros ponto linha. split; [reflexivity|]. split; [reflexivity|].
  intros [_ [km Hkm]]. vm_compute in Hkm. discriminate Hkm.
Qed.

(** ** Points on the boundary *)

Lemma fronteira_nao_interior (p : Ponto) (r : Retangulos.Retangulo) :
  Retangulos.na_fronteira p r = true -> Retangulos.interior p r = false.
Proof.
  unfold Retangulos.na_fronteira. intros H.
  apply andb_true_iff in H. destruct H as [_ H].
  apply negb_true_iff in H. exact H.
Qed.

(** For one rectangle the interior of the union is its interior. *)
Lemma interior_uniao_um (p : Ponto) (r : Retangulos.Retangulo) :
  Retangulos.interior_uniao p [r] = Retangulos.interior p r.
Proof.
  unfold Retangulos.interior_uniao, Retangulos.cobre_quadrante,
    Retangulos.interior, Py.ltb.
  cbn [forallb existsb fst snd].
  destruct (Qle_bool (Retangulos.xmin r) (ponto_x p)) eqn:A1;
    destruct (Qle_bool (ponto_x p) (Retangulos.xmin r)) eqn:A2;
    destruct (Qle_bool (ponto_x p) (Retangulos.xmax r)) eqn:A3;
    destruct (Qle_bool (Retangulos.xmax r) (ponto_x p)) eqn:A4;
    destruct (Qle_bool (Retangulos.ymin r) (ponto_y p)) eqn:B1;
    destruct (Qle_bool (ponto_y p) (Retangulos.ymin r)) eqn:B2;
    destruct (Qle_bool (ponto_y p) (Retangulos.ymax r)) eqn:B3;
    destruct (Qle_bool (Retangulos.ymax r) (ponto_y p)) eqn:B4;
    try reflexivity; exfalso;
    repeat match goal with
           | H : Qle_bool _ _ = true |- _ => apply Qle_bool_iff in H
           | H : Qle_bool ?a ?b = false |- _ =>
               assert (b < a)%Q
                 by (apply Qnot_le_lt; intros Hc;
                     apply Qle_bool_iff in Hc; congruence);
               clear H
           end; lra.
Qed.

Lemma fronteira_distancia (p : Ponto) (r : Retangulos.Retangulo) :
  Retangulos.na_fronteira p r = true -> Retangulos.distancia_ret p r = 0%Q.
Proof.
  unfold Retangulos.na_fronteira. intros H.
  repeat (apply andb_true_iff in H; destruct H as [H ?]).
  unfold Retangulos.distancia_ret, Retangulos.fora, Py.ltb.
  repeat match goal with E : Qle_bool _ _ = true |- _ => rewrite E; clear E end.
  reflexivity.
Qed.

(** The row of a point set with a point at distance 0 and no point
    within the area. *)
Lemma linha_a_distancia_zero `{Gm : Geo} (gdf_area : GeoDataFrame) (dmax : Q)
    (p0 : Ponto) (resto : list Ponto) :
  (0 < dmax)%Q ->
  (forall p, In p (p0 :: resto) ->
     (0 <= distance (unary_union gdf_area) p)%Q) ->
  (exists p, In p (p0 :: resto)
             /\ (distance (unary_union gdf_area) p == 0)%Q) ->
  let d := distancia_minima_km gdf_area p0 resto in
  App.escore_por_distancia d dmax
  = (F64.Fin 9, Muito_Proxima (F64.Fin 0))
  /\ Pagina.escore_por_distancia d dmax = (F64.Fin 9, Proxima (F64.Fin 0)).
Proof.
  intros Hm Hd (p & Hin & Hp0) d.
  destruct (distancia_km_nonneg gdf_area p0 resto Hd) as [Hmin _].
  assert (Hz : (distancia_minima gdf_area p0 resto == 0)%Q).
  { apply Qle_antisym; [|exact Hmin]. rewrite <- Hp0.
    unfold distancia_minima. apply serie_min_le.
    change (distance (unary_union gdf_area) p0
            :: map (distance (unary_union gdf_area)) resto)
      with (map (distance (unary_union gdf_area)) (p0 :: resto)).
    apply in_map. exact Hin. }
  assert (Ed : d = F64.Fin 0).
  { subst d. unfold distancia_minima_km. rewrite km_por_grau_valor.
    cbn [F64.mul]. rewrite (rnd_comp _ 0); [reflexivity|].
    rewrite Hz. ring. }
  rewrite Ed.
  assert (Eg : F64.geb (F64.Fin 0) (F64.Fin dmax) = false)
    by (apply leb_Fin_false; exact Hm).
  assert (Ee : escore_float (F64.Fin 0) dmax = F64.Fin 9).
  { unfold escore_float. cbn [F64.div].
    assert (Ec : Qcompare dmax 0 = Gt) by (apply Qgt_alt; exact Hm).
    rewrite Ec. rewrite (rnd_comp (0 / dmax) 0) by (unfold Qdiv; ring).
    reflexivity. }
  unfold App.escore_por_distancia, Pagina.escore_por_distancia. cbv zeta.
  fold (escore_float (F64.Fin 0) dmax).
  rewrite Eg, Ee. split; reflexivity.
Qed.

(** C6 (as the code has it).  The containment test is the [within]
    predicate of the spatial join, applied to each row of the area; for a
    point it holds in the interior only.  Whatever the geometry library:
    a point set with no point within a row of the area never gets the
    inside-area text, and its score is at most 9 when no distance is
    negative; when such a set has a point at distance 0 from the area, as
    a point on its boundary is, a positive threshold gives score 9, with
    the very-near text of 0 m in [app.py] and the text "Próxima" of 0 km
    in the page.  A set with a point within a row gets score 10 and the
    inside-area text.  On the rectangle library every point on the
    boundary of a one-rectangle area is within no row and at distance
    0. *)
Theorem C6_boundary_not_contained `{Gm : Geo} (gdf_area : GeoDataFrame)
    (dmax : Q) (e : string) (dados : Resposta) (p0 : Ponto)
    (resto : list Ponto) :
  Analise.pontos_de (results dados) = p0 :: resto ->
  (0 < dmax)%Q ->
  let linha := App.linha_da_resposta gdf_area dmax e dados in
  let linha' := Pagina.linha_da_resposta gdf_area dmax e dados in
  ((forall p, In p (p0 :: resto) -> contido p gdf_area = false) ->
     (forall n, ocorrencia_na_regiao linha <> Dentro_da_area n)
     /\ (forall n, ocorrencia_na_regiao linha' <> Dentro_da_area n)
     /\ ((forall p, In p (p0 :: resto) ->
            (0 <= distance (unary_union gdf_area) p)%Q) ->
         escore_proximidade linha <= 9
         /\ escore_proximidade linha' <= 9
         /\ ((exists p, In p (p0 :: resto)
                        /\ (distance (unary_union gdf_area) p == 0)%Q) ->
             escore_proximidade linha = 9
             /\ ocorrencia_na_regiao linha = Muito_Proxima (F64.Fin 0)
             /\ escore_proximidade linha' = 9
             /\ ocorrencia_na_regiao linha' = Proxima (F64.Fin 0))))
  /\ ((exists p, In p (p0 :: resto) /\ contido p gdf_area = true) ->
        escore_proximidade linha = 10
        /\ ocorrencia_na_regiao linha
           = Dentro_da_area (pares_dentro (p0 :: resto) gdf_area)
        /\ linha' = linha)
  /\ (forall (r : Retangulos.Retangulo) (p : Ponto),
        Retangulos.na_fronteira p r = true ->
        let area : @GeoDataFrame Retangulos.geo := [[r]] in
        contido p area = false
        /\ distance (unary_union area) p = 0%Q).
Proof.
  intros Hp Hm linha linha'. split; [|split].
  - intros Hfora.
    pose proof (sjoin_within_nil gdf_area (p0 :: resto) Hfora) as Hs.
    pose proof (linha_fora_app gdf_area dmax e dados p0 resto Hp Hs) as Ha.
    pose proof (linha_fora_pagina gdf_area dmax e dados p0 resto Hp Hs) as Hb.
    cbv zeta in Ha, Hb. subst linha linha'. rewrite Ha, Hb.
    cbn [escore_proximidade ocorrencia_na_regiao].
    set (d := distancia_minima_km gdf_area p0 resto).
    split; [|split].
    + intros n. unfold App.escore_por_distancia. cbv zeta.
      destruct (F64.geb _ _); [discriminate|].
      destruct (F64.ltb _ _); [discriminate|].
      destruct (F64.ltb _ _); discriminate.
    + intros n. unfold Pagina.escore_por_distancia. cbv zeta.
      destruct (F64.geb _ _); discriminate.
    + intros Hd.
      destruct (distancia_km_nonneg gdf_area p0 resto Hd) as [_ H0].
      fold d in H0. rewrite pagina_escore_fst.
      split; [apply (escore_intervalo d dmax H0)|].
      split; [apply (escore_intervalo d dmax H0)|].
      intros Hz.
      destruct (linha_a_distancia_zero gdf_area dmax p0 resto Hm Hd Hz)
        as [E1 E2].
      fold d in E1, E2. rewrite E1, E2. cbn [fst snd F64.round].
      repeat split; reflexivity.
  - intros Hex.
    pose proof (sjoin_within_primeiro gdf_area (p0 :: resto) Hex)
      as (antes & q & depois & cauda & _ & _ & _ & Hs).
    destruct (linha_dentro gdf_area dmax e dados p0 resto q cauda Hp Hs)
      as [Hl Hpag].
    pose proof (sjoin_within_pares gdf_area (p0 :: resto)) as Hn.
    rewrite Hs in Hn.
    subst linha linha'. rewrite Hpag, Hl.
    cbn [escore_proximidade ocorrencia_na_regiao]. rewrite Hn. auto.
  - intros r p Hb area. subst area. split.
    + unfold contido. cbn [existsb within Retangulos.geo].
      rewrite interior_uniao_um, (fronteira_nao_interior p r Hb).
      reflexivity.
    + cbn [distance unary_union Retangulos.geo concat app map].
      rewrite (fronteira_distancia p r Hb). reflexivity.
Qed.

Lemma C6_boundary_not_contained_witness :
  let dados := resposta_com [registro_em 1 (1 # 2)] in
  escore_proximidade
    (App.linha_da_resposta Retangulos.area_quadrado 100 "Puma concolor" dados)
  = 9
  /\ escore_proximidade
       (App.linha_da_resposta Retangulos.area_quadrado 100 "Puma concolor"
          (resposta_com [registro_em (1 # 2) (1 # 2)]))
     = 10.
Proof.
  intros dados. split.
  - destruct (C6_boundary_not_contained Retangulos.area_quadrado 100
                "Puma concolor" dados {| ponto_x := 1; ponto_y := 1 # 2 |} []
                eq_refl eq_refl) as [Hb _].
    destruct Hb as (_ & _ & Hd).
    + intros p [<-|[]]. reflexivity.
    + destruct Hd as (_ & _ & Hz).
      * intros p [<-|[]]. vm_compute. discriminate.
      * destruct Hz as (H9 & _); [|exact H9].
        exists {| ponto_x := 1; ponto_y := 1 # 2 |}. split; [left|];
          reflexivity.
  - destruct (C6_boundary_not_contained Retangulos.area_quadrado 100
                "Puma concolor" (resposta_com [registro_em (1 # 2) (1 # 2)])
                {| ponto_x := 1 # 2; ponto_y := 1 # 2 |} []
                eq_refl eq_refl) as (_ & Hi & _).
    destruct Hi as (H10 & _); [|exact H10].
    exists {| ponto_x := 1 # 2; ponto_y := 1 # 2 |}. split; [left|];
      reflexivity.
Defined.

(** C6, the claim as stated, fails: the point (1, 1/2) lies on the
    boundary of the unit square, and a point set made of it alone is not
    classified inside the area with score 10. *)
Lemma C6_counterexample :
  let ponto := {| ponto_x := 1; ponto_y := 1 # 2 |} in
  let linha := App.linha_da_resposta Retangulos.area_quadrado 100
                 "Puma concolor" (resposta_com [registro_em 1 (1 # 2)]) in
  Retangulos.na_fronteira ponto Retangulos.quadrado = true
  /\ ~ (contido ponto Retangulos.area_quadrado = true)
  /\ ~ (escore_proximidade linha = 10)
  /\ ~ (exists n, ocorrencia_na_regiao linha = Dentro_da_area n).
Proof.
  intros ponto linha. split; [reflexivity|].
  split; [vm_compute; discriminate|].
  split; [vm_compute; discriminate|].
  intros [n Hn]. vm_compute in Hn. discriminate Hn.
Qed.

(** ** The batch loop *)

Section Laco.
Variable passo : nat -> string -> M Resultado.
Hypothesis passo_especie : forall i e w, especie (fst (passo i e w)) = e.

Lemma laco_acc (l : list string) : forall i acc w,
  laco passo i l acc w
  = (acc ++ fst (laco passo i l [] w), snd (laco passo i l [] w)).
Proof.
  induction l as [|e l IH]; intros i acc w; simpl.
  - unfold ret. simpl. rewrite app_nil_r. reflexivity.
  - unfold bind. destruct (passo i e w) as [r w'].
    rewrite (IH (S i) (acc ++ [r]) w'), (IH (S i) [r] w'). simpl.
    rewrite <- app_assoc. reflexivity.
Qed.

Lemma laco_cons i e l w :
  laco passo i (e :: l) [] w
  = (fst (passo i e w) :: fst (laco passo (S i) l [] (snd (passo i e w))),
     snd (laco passo (S i) l [] (snd (passo i e w)))).
Proof.
  simpl. unfold bind. destruct (passo i e w) as [r w']. simpl.
  rewrite laco_acc. reflexivity.
Qed.

Lemma laco_especies (l : list string) : forall i w,
  map especie (fst (laco passo i l [] w)) = l.
Proof.
  induction l as [|e l IH]; intros i w; [reflexivity|].
  rewrite laco_cons. simpl. rewrite passo_especie, IH. reflexivity.
Qed.

Lemma laco_length (l : list string) i w :
  length (fst (laco passo i l [] w)) = length l.
Proof. rewrite <- (laco_especies l i w) at 2. rewrite length_map. reflexivity. Qed.

(** The rows of a run, around the species in the middle. *)
Lemma laco_split (antes : list string) : forall i e depois w,
  let w1 := snd (laco passo i antes [] w) in
  let i1 := (i + length antes)%nat in
  fst (laco passo i (antes ++ e :: depois) [] w)
  = fst (laco passo i antes [] w)
    ++ fst (passo i1 e w1)
    :: fst (laco passo (S i1) depois [] (snd (passo i1 e w1))).
Proof.
  induction antes as [|a antes IH]; intros i e depois w; cbv zeta.
  - simpl app. rewrite laco_cons. simpl. rewrite Nat.add_0_r. reflexivity.
  - rewrite <- app_comm_cons. rewrite !laco_cons. simpl fst. simpl snd.
    rewrite IH. cbv zeta. simpl length.
    replace (S i + length antes)%nat with (i + S (length antes))%nat by lia.
    reflexivity.
Qed.

End Laco.

Lemma app_for_especie_laco `{G : GBIF} `{Gm : Geo} gdf_area dmax grupo total
    (l : list string) : forall i acc w,
  App.for_especie gdf_area dmax grupo total i l acc w
  = laco (App.analisar_especie gdf_area dmax grupo total) i l acc w.
Proof.
  induction l as [|e l IH]; intros i acc w; [reflexivity|].
  simpl. unfold bind.
  destruct (App.analisar_especie gdf_area dmax grupo total i e w) as [r w'].
  apply IH.
Qed.

Lemma pagina_for_especie_laco `{G : GBIF} `{Gm : Geo} gdf_area dmax grupo total
    (l : list string) : forall i acc w,
  Pagina.for_especie gdf_area dmax grupo total i l acc w
  = laco (Pagina.analisar_especie gdf_area dmax grupo total) i l acc w.
Proof.
  induction l as [|e l IH]; intros i acc w; [reflexivity|].
  simpl. unfold bind.
  destruct (Pagina.analisar_especie gdf_area dmax grupo total i e w) as [r w'].
  apply IH.
Qed.

Lemma app_linha_especie `{Gm : Geo} gdf_area dmax e dados :
  especie (App.linha_da_resposta gdf_area dmax e dados) = e.
Proof.
  unfold App.linha_da_resposta.
  destruct (results dados); [reflexivity|].
  destruct (Analise.pontos_de _); [reflexivity|].
  destruct (Analise.sjoin_within _ _); [|reflexivity].
  destruct (App.escore_por_distancia _ _). reflexivity.
Qed.

Lemma pagina_linha_especie `{Gm : Geo} gdf_area dmax e dados :
  especie (Pagina.linha_da_resposta gdf_area dmax e dados) = e.
Proof.
  unfold Pagina.linha_da_resposta.
  destruct (results dados); [reflexivity|].
  destruct (Analise.pontos_de _); [reflexivity|].
  destruct (Analise.sjoin_within _ _); [|reflexivity].
  destruct (Pagina.escore_por_distancia _ _). reflexivity.
Qed.

Lemma app_passo_especie `{G : GBIF} `{Gm : Geo} gdf_area dmax grupo total i e w :
  especie (fst (App.analisar_especie gdf_area dmax grupo total i e w)) = e.
Proof.
  unfold App.analisar_especie, bind, emit, do_search, ret.
  destruct (occ_search _ _); simpl; [apply app_linha_especie|reflexivity].
Qed.

Lemma pagina_passo_especie `{G : GBIF} `{Gm : Geo} gdf_area dmax grupo total
    i e w :
  especie (fst (Pagina.analisar_especie gdf_area dmax grupo total i e w)) = e.
Proof.
  unfold Pagina.analisar_especie, bind, emit, ret.
  destruct (Helpers.search_gbif_with_retries _ _ _) as [[r|] w'];
    simpl; [apply pagina_linha_especie|reflexivity].
Qed.

(** A failed search gives the failure row. *)
Lemma app_passo_falha `{G : GBIF} `{Gm : Geo} gdf_area dmax grupo total i e w m :
  occ_search (n_chamadas w) (Analise.search_params e grupo) = Levanta m ->
  fst (App.analisar_especie gdf_area dmax grupo total i e w)
  = App.linha_sem_escore e Erro_na_busca 0.
Proof.
  intros Hm. unfold App.analisar_especie, bind, emit, do_search, ret.
  rewrite n_chamadas_snoc. simpl. rewrite Nat.add_0_r, Hm. reflexivity.
Qed.

Lemma pagina_passo_falha `{G : GBIF} `{Gm : Geo} gdf_area dmax grupo total
    i e w :
  fst (Helpers.search_gbif_with_retries (Analise.search_params e grupo)
         Helpers.max_retries_default (w ++ [Ev_status e (i + 1) total]))
  = None ->
  fst (Pagina.analisar_especie gdf_area dmax grupo total i e w)
  = Pagina.linha_sem_escore e Falha_na_busca 0.
Proof.
  intros Hn. unfold Pagina.analisar_especie, bind, emit, ret.
  destruct (Helpers.search_gbif_with_retries _ _ _) as [[r|] w'];
    simpl in *; [discriminate|reflexivity].
Qed.

(** ** The rows of a run, one query after the other *)

Lemma for_attempt_tentativas `{G : GBIF} (p : Params) (mr : nat)
    (attempts : list nat) : forall w,
  fst (Helpers.for_attempt p mr attempts w)
  = fst (tentativas p (n_chamadas w) (length attempts))
  /\ n_chamadas (snd (Helpers.for_attempt p mr attempts w))
     = (n_chamadas w
        + snd (tentativas p (n_chamadas w) (length attempts)))%nat.
Proof.
  induction attempts as [|a rest IH]; intros w.
  - cbn [Helpers.for_attempt length tentativas]. unfold bind, emit, ret.
    cbn [fst snd]. trace_simpl. split; [reflexivity|lia].
  - cbn [length tentativas].
    destruct (occ_search (n_chamadas w) p) as [r|m] eqn:E.
    + rewrite (for_attempt_sucesso _ _ _ _ _ _ E). cbn [fst snd].
      trace_simpl. split; [reflexivity|lia].
    + destruct (Helpers.is_connection_error m) eqn:C.
      * rewrite (for_attempt_transiente _ _ _ _ _ _ E C).
        match goal with |- context [Helpers.for_attempt _ _ _ ?w1] =>
          destruct (IH w1) as [H1 H2];
          assert (Hn : n_chamadas w1 = S (n_chamadas w))
            by (trace_simpl; lia)
        end.
        rewrite Hn in H1, H2.
        destruct (tentativas p (S (n_chamadas w)) (length rest)) as [res k].
        cbn [fst snd] in *. split; [exact H1|]. rewrite H2. lia.
      * rewrite (for_attempt_outro_erro _ _ _ _ _ _ E C). cbn [fst snd].
        rewrite app_assoc. trace_simpl. split; [reflexivity|lia].
Qed.

(** The retry loop gives what [tentativas] says, from the number of the
    next call. *)
Lemma search_tentativas `{G : GBIF} (p : Params) (mr : nat) (w : Mundo) :
  fst (Helpers.search_gbif_with_retries p mr w)
  = fst (tentativas p (n_chamadas w) mr)
  /\ n_chamadas (snd (Helpers.search_gbif_with_retries p mr w))
     = (n_chamadas w + snd (tentativas p (n_chamadas w) mr))%nat.
Proof.
  unfold Helpers.search_gbif_with_retries.
  pose proof (for_attempt_tentativas p mr (seq 0 mr) w) as H.
  rewrite length_seq in H. exact H.
Qed.

Lemma tentativas_chamadas `{G : GBIF} (p : Params) (mr : nat) : forall n,
  (snd (tentativas p n mr) <= mr)%nat
  /\ (1 <= mr -> 1 <= snd (tentativas p n mr))%nat.
Proof.
  induction mr as [|mr IH]; intros n; cbn [tentativas].
  - cbn [snd]. lia.
  - destruct (occ_search n p) as [r|m]; [cbn [snd]; lia|].
    destruct (Helpers.is_connection_error m); [|cbn [snd]; lia].
    specialize (IH (S n)).
    destruct (tentativas p (S n) mr) as [res k]. cbn [snd] in *. lia.
Qed.

Lemma app_passo_linha `{G : GBIF} `{Gm : Geo} gdf_area dmax grupo total i e w :
  fst (App.analisar_especie gdf_area dmax grupo total i e w)
  = match occ_search (n_chamadas w) (Analise.search_params e grupo) with
    | Retorna dados => App.linha_da_resposta gdf_area dmax e dados
    | Levanta _ => App.linha_sem_escore e Erro_na_busca 0
    end
  /\ n_chamadas (snd (App.analisar_especie gdf_area dmax grupo total i e w))
     = S (n_chamadas w).
Proof.
  unfold App.analisar_especie, bind, emit, do_search, ret.
  rewrite n_chamadas_snoc. cbn [is_search]. rewrite Nat.add_0_r.
  destruct (occ_search (n_chamadas w) (Analise.search_params e grupo));
    cbn [fst snd]; trace_simpl; split; try reflexivity; lia.
Qed.

Lemma pagina_passo_linha `{G : GBIF} `{Gm : Geo} gdf_area dmax grupo total
    i e w :
  let t := tentativas (Analise.search_params e grupo) (n_chamadas w)
             Helpers.max_retries_default in
  fst (Pagina.analisar_especie gdf_area dmax grupo total i e w)
  = match fst t with
    | Some dados => Pagina.linha_da_resposta gdf_area dmax e dados
    | None => Pagina.linha_sem_escore e Falha_na_busca 0
    end
  /\ n_chamadas (snd (Pagina.analisar_especie gdf_area dmax grupo total i e w))
     = (n_chamadas w + snd t)%nat.
Proof.
  intros t. unfold Pagina.analisar_especie, bind, emit, ret.
  pose proof (search_tentativas (Analise.search_params e grupo)
                Helpers.max_retries_default
                (w ++ [Ev_status e (i + 1) total])) as [H1 H2].
  assert (Hn : n_chamadas (w ++ [Ev_status e (i + 1) total]) = n_chamadas w)
    by (trace_simpl; lia).
  rewrite Hn in H1, H2. fold t in H1, H2.
  destruct (Helpers.search_gbif_with_retries _ _ _) as [[dados|] w'];
    cbn [fst snd] in *; rewrite <- H1; trace_simpl; split;
    try reflexivity; lia.
Qed.

Lemma app_laco_linhas `{G : GBIF} `{Gm : Geo} gdf_area dmax grupo total
    (l : list string) : forall i w,
  fst (laco (App.analisar_especie gdf_area dmax grupo total) i l [] w)
  = linhas_app gdf_area dmax grupo (n_chamadas w) l.
Proof.
  induction l as [|e l IH]; intros i w; [reflexivity|].
  rewrite laco_cons. cbn [fst linhas_app].
  destruct (app_passo_linha gdf_area dmax grupo total i e w) as [H1 H2].
  rewrite H1, IH, H2. reflexivity.
Qed.

Lemma pagina_laco_linhas `{G : GBIF} `{Gm : Geo} gdf_area dmax grupo total
    (l : list string) : forall i w,
  fst (laco (Pagina.analisar_especie gdf_area dmax grupo total) i l [] w)
  = linhas_pagina gdf_area dmax grupo (n_chamadas w) l.
Proof.
  induction l as [|e l IH]; intros i w; [reflexivity|].
  rewrite laco_cons. cbn [fst linhas_pagina].
  destruct (pagina_passo_linha gdf_area dmax grupo total i e w) as [H1 H2].
  cbv zeta in H1, H2. rewrite H1, IH, H2.
  destruct (tentativas _ _ _) as [res k]. reflexivity.
Qed.

Lemma linhas_app_split `{G : GBIF} `{Gm : Geo} gdf_area dmax grupo
    (antes : list string) : forall n e depois,
  linhas_app gdf_area dmax grupo n (antes ++ e :: depois)
  = linhas_app gdf_area dmax grupo n antes
    ++ match occ_search (n + length antes) (Analise.search_params e grupo) with
       | Retorna dados => App.linha_da_resposta gdf_area dmax e dados
       | Levanta _ => App.linha_sem_escore e Erro_na_busca 0
       end
    :: linhas_app gdf_area dmax grupo (S (n + length antes)) depois.
Proof.
  induction antes as [|a antes IH]; intros n e depois.
  - cbn [app linhas_app length]. rewrite Nat.add_0_r. reflexivity.
  - cbn [app linhas_app length]. rewrite IH.
    replace (S n + length antes)%nat with (n + S (length antes))%nat by lia.
    reflexivity.
Qed.

Lemma linhas_pagina_split `{G : GBIF} `{Gm : Geo} gdf_area dmax grupo
    (antes : list string) : forall n e depois,
  let n1 := (n + chamadas_pagina grupo n antes)%nat in
  let t := tentativas (Analise.search_params e grupo) n1
             Helpers.max_retries_default in
  linhas_pagina gdf_area dmax grupo n (antes ++ e :: depois)
  = linhas_pagina gdf_area dmax grupo n antes
    ++ match fst t with
       | Some dados => Pagina.linha_da_resposta gdf_area dmax e dados
       | None => Pagina.linha_sem_escore e Falha_na_busca 0
       end
    :: linhas_pagina gdf_area dmax grupo (n1 + snd t) depois.
Proof.
  induction antes as [|a antes IH]; intros n e depois; cbv zeta.
  - cbn [app linhas_pagina chamadas_pagina]. rewrite Nat.add_0_r.
    destruct (tentativas _ _ _) as [res k]. reflexivity.
  - cbn [app linhas_pagina chamadas_pagina].
    destruct (tentativas (Analise.search_params a grupo) n
                Helpers.max_retries_default) as [res k] eqn:T.
    cbn [snd]. rewrite IH. cbv zeta.
    replace (n + (k + chamadas_pagina grupo (n + k) antes))%nat
      with (n + k + chamadas_pagina grupo (n + k) antes)%nat by lia.
    reflexivity.
Qed.

Lemma linhas_app_especies `{G : GBIF} `{Gm : Geo} gdf_area dmax grupo
    (l : list string) : forall n,
  map especie (linhas_app gdf_area dmax grupo n l) = l.
Proof.
  induction l as [|e l IH]; intros n; [reflexivity|].
  cbn [linhas_app map]. rewrite IH. f_equal.
  destruct (occ_search _ _); [apply app_linha_especie|reflexivity].
Qed.

Lemma linhas_pagina_especies `{G : GBIF} `{Gm : Geo} gdf_area dmax grupo
    (l : list string) : forall n,
  map especie (linhas_pagina gdf_area dmax grupo n l) = l.
Proof.
  induction l as [|e l IH]; intros n; [reflexivity|].
  cbn [linhas_pagina]. destruct (tentativas _ _ _) as [[dados|] k];
    cbn [map]; rewrite IH; f_equal; apply pagina_linha_especie.
Qed.

(** C1.  For every list of species, both versions of the batch analysis
    return one row per species, in the order of the input, and the row of
    each species is computed from the answer to its own query: [app.py]
    makes one call per species, the page runs its retry loop for each
    ([linhas_app], [linhas_pagina]).  A species whose search fails (an
    exception in [app.py]; in the page no result after the retries, or a
    non-transient error) gets the failure row with score -1; the rows
    before it are those of the species before it, and the species after
    it are processed as they would be on their own, from the next call
    on. *)
Theorem C1_one_row_per_query `{G : GBIF} `{Gm : Geo} (gdf_area : GeoDataFrame)
    (dmax : Q) (grupo : option string) (especies : list string) (w : Mundo) :
  let app :=
    App.analisar_ocorrencia_especies (Some especies) gdf_area dmax grupo w in
  let pag :=
    Pagina.analisar_ocorrencia_especies (Some especies) gdf_area dmax grupo w in
  let n := n_chamadas w in
  let falha e rotulo :=
    {| especie := e; ocorrencia_na_regiao := rotulo;
       escore_proximidade := -1; gbif_total_records := 0;
       longitude_ocorrencia := None; latitude_ocorrencia := None;
       pontos := [] |} in
  fst app = Some (linhas_app gdf_area dmax grupo n especies)
  /\ fst pag = linhas_pagina gdf_area dmax grupo n especies
  /\ (exists rs, fst app = Some rs
                 /\ length rs = length especies
                 /\ map especie rs = especies)
  /\ (length (fst pag) = length especies /\ map especie (fst pag) = especies)
  /\ (forall antes e depois,
        especies = antes ++ e :: depois ->
        exists rs1 r rs2,
          fst app = Some (rs1 ++ r :: rs2)
          /\ rs1 = linhas_app gdf_area dmax grupo n antes
          /\ map especie rs1 = antes
          /\ r = match occ_search (n + length antes)
                         (Analise.search_params e grupo) with
                 | Retorna dados =>
                     App.linha_da_resposta gdf_area dmax e dados
                 | Levanta _ => falha e Erro_na_busca
                 end
          /\ rs2 = linhas_app gdf_area dmax grupo (S (n + length antes)) depois
          /\ map especie rs2 = depois)
  /\ (forall antes e depois,
        especies = antes ++ e :: depois ->
        let n1 := (n + chamadas_pagina grupo n antes)%nat in
        exists rs1 r rs2 k,
          fst pag = rs1 ++ r :: rs2
          /\ rs1 = linhas_pagina gdf_area dmax grupo n antes
          /\ map especie rs1 = antes
          /\ (1 <= k <= Helpers.max_retries_default)%nat
          /\ r = match fst (Helpers.search_gbif_with_retries
                              (Analise.search_params e grupo)
                              Helpers.max_retries_default
                              (repeat (Ev_search (Analise.search_params e grupo))
                                 n1)) with
                 | Some dados =>
                     Pagina.linha_da_resposta gdf_area dmax e dados
                 | None => falha e Falha_na_busca
                 end
          /\ rs2 = linhas_pagina gdf_area dmax grupo (n1 + k) depois
          /\ map especie rs2 = depois)
  /\ (forall p w',
        Helpers.search_gbif_with_retries p Helpers.max_retries_default w'
        = (fst (tentativas p (n_chamadas w') Helpers.max_retries_default),
           snd (Helpers.search_gbif_with_retries p
                  Helpers.max_retries_default w'))
        /\ n_chamadas
             (snd (Helpers.search_gbif_with_retries p
                     Helpers.max_retries_default w'))
           = (n_chamadas w'
              + snd (tentativas p (n_chamadas w')
                       Helpers.max_retries_default))%nat).
Proof.
  intros app pag n falha.
  assert (Happ : fst app = Some (linhas_app gdf_area dmax grupo n especies)).
  { subst app. unfold App.analisar_ocorrencia_especies, bind, emit, ret.
    rewrite app_for_especie_laco.
    pose proof (app_laco_linhas gdf_area dmax grupo (length especies)
                  especies 0 w) as H.
    destruct (laco _ 0%nat especies [] w) as [rs w']. cbn [fst] in *.
    rewrite H. reflexivity. }
  assert (Hpag : fst pag = linhas_pagina gdf_area dmax grupo n especies).
  { subst pag. unfold Pagina.analisar_ocorrencia_especies, bind, emit, ret.
    rewrite pagina_for_especie_laco.
    pose proof (pagina_laco_linhas gdf_area dmax grupo (length especies)
                  especies 0 w) as H.
    destruct (laco _ 0%nat especies [] w) as [rs w']. cbn [fst] in *.
    exact H. }
  split; [exact Happ|]. split; [exact Hpag|].
  split; [|split; [|split; [|split]]].
  - eexists. split; [exact Happ|].
    pose proof (linhas_app_especies gdf_area dmax grupo especies n) as H.
    split; [|exact H]. rewrite <- H at 2. rewrite length_map. reflexivity.
  - rewrite Hpag.
    pose proof (linhas_pagina_especies gdf_area dmax grupo especies n) as H.
    split; [|exact H]. rewrite <- H at 2. rewrite length_map. reflexivity.
  - intros antes e depois ->. rewrite Happ, linhas_app_split.
    eexists _, _, _. split; [reflexivity|].
    split; [reflexivity|]. split; [apply linhas_app_especies|].
    split; [reflexivity|]. split; [reflexivity|].
    apply linhas_app_especies.
  - intros antes e depois -> n1. rewrite Hpag, linhas_pagina_split.
    cbv zeta. fold n1.
    set (p := Analise.search_params e grupo).
    pose proof (search_tentativas p Helpers.max_retries_default
                  (repeat (Ev_search p) n1)) as [H1 _].
    assert (Hn : n_chamadas (repeat (Ev_search p) n1) = n1).
    { unfold n_chamadas. clear. induction n1 as [|k IH]; [reflexivity|].
      cbn [repeat List.filter is_search length]. rewrite IH. reflexivity. }
    rewrite Hn in H1. rewrite H1.
    pose proof (tentativas_chamadas p Helpers.max_retries_default n1)
      as [Hk1 Hk2].
    eexists _, _, _, _. split; [reflexivity|].
    split; [reflexivity|]. split; [apply linhas_pagina_especies|].
    split; [split; [apply Hk2; unfold Helpers.max_retries_default; lia
                   | exact Hk1]|].
    split; [reflexivity|]. split; [reflexivity|].
    apply linhas_pagina_especies.
  - intros p w'.
    pose proof (search_tentativas p Helpers.max_retries_default w') as [H1 H2].
    split; [|exact H2]. rewrite <- H1.
    destruct (Helpers.search_gbif_with_retries _ _ _). reflexivity.
Qed.

Lemma C1_one_row_per_query_witness :
  let G := gbif_roteiro [Retorna (resposta_com [registro_em (1 # 2) (1 # 2)]);
                         Levanta "400 Bad Request";
                         Retorna (resposta_com [])] in
  let falha rotulo :=
    {| especie := "Puma concolor"; ocorrencia_na_regiao := rotulo;
       escore_proximidade := -1; gbif_total_records := 0;
       longitude_ocorrencia := None; latitude_ocorrencia := None;
       pontos := [] |} in
  let especies := ["Panthera onca"; "Puma concolor"; "Tapirus terrestris"] in
  let dentro :=
    {| especie := "Panthera onca"; ocorrencia_na_regiao := Dentro_da_area 1;
       escore_proximidade := 10; gbif_total_records := 1;
       longitude_ocorrencia := Some (1 # 2)%Q;
       latitude_ocorrencia := Some (1 # 2)%Q;
       pontos := [{| ponto_x := 1 # 2; ponto_y := 1 # 2 |}] |} in
  let nada :=
    {| especie := "Tapirus terrestris";
       ocorrencia_na_regiao := Nao_encontrado_no_GBIF;
       escore_proximidade := -1; gbif_total_records := 0;
       longitude_ocorrencia := None; latitude_ocorrencia := None;
       pontos := [] |} in
  fst (@App.analisar_ocorrencia_especies G Retangulos.geo (Some especies)
         Retangulos.area_quadrado 100 None [])
  = Some [dentro; falha Erro_na_busca; nada]
  /\ fst (@Pagina.analisar_ocorrencia_especies G Retangulos.geo
            (Some especies) Retangulos.area_quadrado 100 None [])
     = [dentro; falha Falha_na_busca; nada].
Proof.
  intros G falha especies dentro nada.
  pose proof (@C1_one_row_per_query G Retangulos.geo Retangulos.area_quadrado
                100 None especies []) as (Ha & Hp & _).
  split.
  - rewrite Ha. reflexivity.
  - rewrite Hp. reflexivity.
Defined.

(** ** The paginated fetch *)

Lemma buscas_snoc w e :
  buscas (w ++ [e]) = buscas w ++ match e with Ev_search p => [p] | _ => [] end.
Proof.
  unfold buscas. rewrite flat_map_app. simpl. rewrite app_nil_r. reflexivity.
Qed.

Lemma slice_to_length {A} (l : list A) (n : Z) :
  (length (Py.slice_to l n) <= length l)%nat
  /\ (0 <= n -> (length (Py.slice_to l n) <= Z.to_nat n)%nat).
Proof.
  unfold Py.slice_to. destruct (n <? 0) eqn:E.
  - apply Z.ltb_lt in E. rewrite length_firstn. split; lia.
  - rewrite length_firstn. split; lia.
Qed.

Lemma slice_to_nonneg {A} (l : list A) (n : Z) :
  0 <= n -> Py.slice_to l n = firstn (Z.to_nat n) l.
Proof.
  intros H. unfold Py.slice_to.
  destruct (n <? 0) eqn:E; [apply Z.ltb_lt in E; lia | reflexivity].
Qed.

Lemma paginas_para_step (x : Z) :
  0 < x -> paginas_para x = 1 + paginas_para (x - 300).
Proof.
  intros Hx. unfold paginas_para.
  replace (x + 299) with ((x - 300 + 299) + 1 * 300) by lia.
  rewrite Z.div_add by lia.
  assert (0 <= (x - 300 + 299) / 300).
  { apply Z.div_pos; lia. }
  lia.
Qed.

Lemma paginas_para_nonpos (x : Z) : x <= 0 -> paginas_para x = 0.
Proof.
  intros Hx. unfold paginas_para.
  assert ((x + 299) / 300 < 1).
  { apply Z.div_lt_upper_bound; lia. }
  lia.
Qed.

Section Paginacao.
Context `{G : GBIF}.

Lemma for_attempt_paginas p mr l : forall w,
  n_paginas (snd (Helpers.for_attempt p mr l w)) = n_paginas w.
Proof.
  induction l as [|a l IH]; intros w; simpl.
  - unfold bind, emit, ret. simpl. trace_simpl. reflexivity.
  - unfold bind, do_search.
    destruct (occ_search (n_chamadas w) p) as [r|m].
    + unfold ret. simpl. trace_simpl. reflexivity.
    + destruct (Helpers.is_connection_error m).
      * unfold emit. rewrite IH. trace_simpl. reflexivity.
      * unfold emit, ret. simpl. trace_simpl. reflexivity.
Qed.

Lemma search_paginas p mr w :
  n_paginas (snd (Helpers.search_gbif_with_retries p mr w)) = n_paginas w.
Proof. apply for_attempt_paginas. Qed.

(** One iteration of the loop, by what the page request gives. *)
Lemma while_offset_fim fuel wkt reino limite o acc w :
  limite <= o ->
  Helpers.while_offset (S fuel) wkt reino limite o acc w = (Some acc, w).
Proof.
  intros H. simpl. destruct (o <? limite) eqn:E; [|reflexivity].
  apply Z.ltb_lt in E. lia.
Qed.

Lemma while_offset_passo fuel wkt reino limite o acc w :
  o < limite ->
  Helpers.while_offset (S fuel) wkt reino limite o acc w
  = let sw := Helpers.search_gbif_with_retries
                (Helpers.params_pagina wkt reino o)
                Helpers.max_retries_default (w ++ [Ev_info (length acc)]) in
    match fst sw with
    | None => (Some acc, snd sw ++ [Ev_error Erro_busca_falhou])
    | Some pagina =>
        match results pagina with
        | [] => (Some acc, snd sw ++ [Ev_success_sem_mais])
        | r :: rs =>
            Helpers.while_offset fuel wkt reino limite (o + Helpers.passo)
              (acc ++ r :: rs) (snd sw ++ [Ev_sleep (1 # 5)])
        end
    end.
Proof.
  intros H. apply Z.ltb_lt in H. simpl. rewrite H.
  unfold bind at 1. unfold emit at 1. unfold bind at 1.
  destruct (Helpers.search_gbif_with_retries _ _ _) as [[pagina|] w1]; simpl.
  - destruct (results pagina); reflexivity.
  - reflexivity.
Qed.

(** The loop ends within its fuel, keeps what was accumulated and makes
    at most ceil((limite - offset) / 300) page requests. *)
Lemma while_offset_total wkt reino limite : forall fuel o acc w,
  (0 < fuel)%nat -> limite - o < Z.of_nat fuel ->
  exists extra w',
    Helpers.while_offset fuel wkt reino limite o acc w
    = (Some (acc ++ extra), w')
    /\ (n_paginas w <= n_paginas w')%nat
    /\ Z.of_nat (n_paginas w') - Z.of_nat (n_paginas w)
       <= paginas_para (limite - o).
Proof.
  induction fuel as [|fuel IH]; intros o acc w Hf Hlim; [lia|].
  destruct (Z_lt_le_dec o limite) as [Hlt|Hge].
  - rewrite while_offset_passo by exact Hlt. cbv zeta.
    pose proof (search_paginas (Helpers.params_pagina wkt reino o)
                  Helpers.max_retries_default (w ++ [Ev_info (length acc)])) as Hn.
    revert Hn. trace_simpl.
    destruct (Helpers.search_gbif_with_retries _ _ _) as [[pagina|] w1];
      simpl; intros Hn.
    + destruct (results pagina) as [|r rs].
      * exists [], (w1 ++ [Ev_success_sem_mais]). rewrite app_nil_r.
        split; [reflexivity|]. trace_simpl.
        rewrite (paginas_para_step (limite - o)) by lia.
        unfold paginas_para. lia.
      * destruct (IH (o + Helpers.passo) (acc ++ r :: rs)
                    (w1 ++ [Ev_sleep (1 # 5)]))
          as (extra & w' & E & Hle & Hb).
        { unfold Helpers.passo in *. lia. }
        { unfold Helpers.passo. lia. }
        exists ((r :: rs) ++ extra), w'. rewrite E, <- app_assoc.
        split; [reflexivity|]. revert Hle Hb. trace_simpl. intros Hle Hb.
        rewrite (paginas_para_step (limite - o)) by lia.
        unfold Helpers.passo in Hb.
        replace (limite - o - 300) with (limite - (o + 300)) by lia.
        lia.
    + exists [], (w1 ++ [Ev_error Erro_busca_falhou]). rewrite app_nil_r.
      split; [reflexivity|]. trace_simpl.
      rewrite (paginas_para_step (limite - o)) by lia.
      unfold paginas_para. lia.
  - rewrite while_offset_fim by exact Hge.
    exists [], w. rewrite app_nil_r. split; [reflexivity|].
    unfold paginas_para. lia.
Qed.

End Paginacao.

Lemma n_chamadas_buscas (w : Mundo) : n_chamadas w = length (buscas w).
Proof.
  unfold n_chamadas, buscas. induction w as [|e w IH]; [reflexivity|].
  simpl. rewrite length_app, <- IH. destruct e; reflexivity.
Qed.

Lemma paginas_para_nonneg (x : Z) : 0 <= paginas_para x.
Proof. unfold paginas_para. lia. Qed.

Lemma pedidos_fim (n d o : Z) : n <= o -> pedidos n d o = 0.
Proof.
  intros H. unfold pedidos.
  destruct (o <? n) eqn:E; [apply Z.ltb_lt in E; lia | reflexivity].
Qed.

Lemma pedidos_vazia (n d o : Z) : o < n -> d <= o -> pedidos n d o = 1.
Proof.
  intros Hn Hd. unfold pedidos.
  rewrite (proj2 (Z.ltb_lt o n) Hn).
  rewrite (paginas_para_nonpos (d - o)) by lia.
  rewrite (paginas_para_step (n - o)) by lia.
  pose proof (paginas_para_nonneg (n - o - 300)). lia.
Qed.

Lemma pedidos_cheia (n d o : Z) :
  o < n -> o < d -> pedidos n d o = 1 + pedidos n d (o + 300).
Proof.
  intros Hn Hd. unfold pedidos.
  rewrite (proj2 (Z.ltb_lt o n) Hn).
  rewrite (paginas_para_step (n - o)), (paginas_para_step (d - o)) by lia.
  replace (n - (o + 300)) with (n - o - 300) by lia.
  replace (d - (o + 300)) with (d - o - 300) by lia.
  destruct (o + 300 <? n) eqn:E.
  - lia.
  - apply Z.ltb_ge in E.
    rewrite (paginas_para_nonpos (n - o - 300)) by lia.
    pose proof (paginas_para_nonneg (d - o - 300)). lia.
Qed.

Lemma pedidos_nonneg (n d o : Z) : 0 <= pedidos n d o.
Proof.
  unfold pedidos. destruct (o <? n); [|lia].
  pose proof (paginas_para_nonneg (n - o)).
  pose proof (paginas_para_nonneg (d - o)). lia.
Qed.

Lemma pedidos_le (n d o : Z) : pedidos n d o <= paginas_para (n - o).
Proof.
  unfold pedidos. destruct (o <? n); [lia|apply paginas_para_nonneg].
Qed.

Section Paginado.
Variable dados : list Registro.
Let G : GBIF := gbif_paginado dados.

Lemma search_paginado wkt reino o w :
  0 <= o ->
  @Helpers.search_gbif_with_retries G (Helpers.params_pagina wkt reino o)
    Helpers.max_retries_default w
  = (Some {| count := Some (Z.of_nat (length dados));
             results := firstn 300 (skipn (Z.to_nat o) dados) |},
     w ++ [Ev_search (Helpers.params_pagina wkt reino o)]).
Proof.
  intros Ho. unfold Helpers.search_gbif_with_retries,
    Helpers.max_retries_default.
  simpl seq. apply for_attempt_sucesso. reflexivity.
Qed.

(** Against a source that serves [dados] page by page, the loop collects
    the records in order and makes [pedidos] requests, one call each, at
    offsets o, o + 300, ... *)
Lemma while_offset_paginado wkt reino limite : forall fuel o acc w,
  0 <= o -> (0 < fuel)%nat -> limite - o < Z.of_nat fuel ->
  acc = firstn (Z.to_nat o) dados ->
  let k := Z.to_nat (pedidos limite (Z.of_nat (length dados)) o) in
  exists raw w',
    @Helpers.while_offset G fuel wkt reino limite o acc w = (Some raw, w')
    /\ firstn (Z.to_nat limite) raw = firstn (Z.to_nat limite) dados
    /\ (limite <= 0 -> raw = acc)
    /\ n_paginas w' = (n_paginas w + k)%nat
    /\ buscas w'
       = buscas w
         ++ map (fun i => Helpers.params_pagina wkt reino (o + 300 * Z.of_nat i))
              (seq 0 k).
Proof.
  induction fuel as [|fuel IH]; intros o acc w Ho Hf Hlim Hacc k; [lia|].
  destruct (Z_lt_le_dec o limite) as [Hlt|Hge].
  - rewrite while_offset_passo by exact Hlt. cbv zeta.
    rewrite search_paginado by exact Ho. simpl fst. simpl snd.
    destruct (firstn 300 (skipn (Z.to_nat o) dados)) as [|r rs] eqn:Hpg;
      cbn [results].
    + assert (Hd : Z.of_nat (length dados) <= o).
      { apply take_nil_inv in Hpg. destruct Hpg as [Hpg|Hpg]; [discriminate|].
        apply drop_nil_inv in Hpg. lia. }
      assert (Hk : k = 1%nat).
      { unfold k. rewrite pedidos_vazia by lia. reflexivity. }
      eexists. eexists. split; [reflexivity|]. rewrite Hk.
      split; [|split; [|split]].
      * rewrite Hacc, (take_ge dados (Z.to_nat o)) by lia. reflexivity.
      * intros _. reflexivity.
      * trace_simpl. reflexivity.
      * rewrite !buscas_snoc. simpl. rewrite !app_nil_r.
        replace (o + 300 * Z.of_nat 0) with o by lia. reflexivity.
    + assert (Hd : o < Z.of_nat (length dados)).
      { destruct (Z_lt_le_dec o (Z.of_nat (length dados))) as [H|H]; [exact H|].
        rewrite drop_ge in Hpg by lia. discriminate. }
      destruct (IH (o + Helpers.passo) (acc ++ r :: rs)
                  (((w ++ [Ev_info (length acc)])
                      ++ [Ev_search (Helpers.params_pagina wkt reino o)])
                     ++ [Ev_sleep (1 # 5)]))
        as (raw & w' & E & Hraw & _ & Hn & Hb).
      { unfold Helpers.passo. lia. }
      { unfold Helpers.passo in *. lia. }
      { unfold Helpers.passo. lia. }
      { rewrite Hacc, <- Hpg, take_take_drop. f_equal.
        unfold Helpers.passo. lia. }
      exists raw, w'. split; [exact E|].
      assert (Hk : k = S (Z.to_nat (pedidos limite (Z.of_nat (length dados))
                                      (o + Helpers.passo)))).
      { unfold k, Helpers.passo. rewrite (pedidos_cheia _ _ o) by lia.
        pose proof (pedidos_nonneg limite (Z.of_nat (length dados)) (o + 300)).
        lia. }
      rewrite Hk. split; [exact Hraw|]. split; [intros; lia|]. split.
      * rewrite Hn. trace_simpl. lia.
      * rewrite Hb, !buscas_snoc. simpl. rewrite !app_nil_r, <- app_assoc.
        simpl. replace (o + 300 * Z.of_nat 0) with o by lia. do 2 f_equal.
        rewrite <- seq_shift, map_map. apply map_ext. intros i.
        f_equal. unfold Helpers.passo. lia.
  - rewrite while_offset_fim by exact Hge.
    assert (Hk : k = 0%nat).
    { unfold k. rewrite pedidos_fim by lia. reflexivity. }
    exists acc, w. rewrite Hk. simpl. rewrite app_nil_r.
    split; [reflexivity|]. split; [|auto].
    rewrite Hacc, take_take. f_equal. lia.
Qed.

End Paginado.

(** Every call of the paginated fetch returns a list of at most
    [limite_registros] records, after at most ceil(limite / 300) page
    requests, whatever the service does. *)
Lemma buscar_com_paginacao_total `{G : GBIF} `{Gm : Geo}
    (gdf_area : option GeoDataFrame) (reino limite : Z) (w : Mundo) :
  exists l w',
    Helpers.buscar_com_paginacao gdf_area reino limite w = (Some l, w')
    /\ (length l <= Z.to_nat limite)%nat
    /\ (n_paginas w <= n_paginas w')%nat
    /\ Z.of_nat (n_paginas w') - Z.of_nat (n_paginas w) <= paginas_para limite.
Proof.
  pose proof (paginas_para_nonneg limite) as Hpp.
  unfold Helpers.buscar_com_paginacao.
  destruct gdf_area as [area|].
  2:{ exists [], w. unfold ret. simpl. repeat split; lia. }
  destruct (wkt_rewind (unary_union area)) as [wkt|].
  2:{ eexists. eexists. unfold bind, emit, ret. split; [reflexivity|].
      trace_simpl. repeat split; lia. }
  unfold bind.
  destruct (Z_lt_le_dec limite 0) as [Hneg|Hpos].
  - unfold Helpers.fuel_of. rewrite while_offset_fim by lia.
    unfold emit, ret. eexists. eexists. split; [reflexivity|].
    trace_simpl. unfold Py.slice_to. rewrite !firstn_nil.
    destruct (limite <? 0); simpl; repeat split; lia.
  - destruct (while_offset_total wkt reino limite (Helpers.fuel_of limite)
                0 [] w) as (extra & w' & E & Hle & Hb).
    { unfold Helpers.fuel_of. lia. }
    { unfold Helpers.fuel_of. lia. }
    rewrite E. unfold emit, ret. eexists. eexists. split; [reflexivity|].
    trace_simpl. rewrite Z.sub_0_r in Hb.
    split; [apply slice_to_length; exact Hpos|]. split; lia.
Qed.

(** C4.  A capped fetch of N records with page size 300 against a source
    that serves its records in full pages until they run out: requests are
    made at offsets 0, 300, 600, ... while the offset is below the cap,
    and stop after the first empty page; their number is
    min(ceil(N/300), ceil(D/300) + 1) for D records at the source (0 when
    N <= 0), hence at most ceil(N/300), each one a single call; the result
    is the first N records of the source, never more than N.  The bounds
    on the number of page requests and on the length hold against any
    service. *)
Theorem C4_capped_pagination `{Gm : Geo} (dados : list Registro)
    (area : GeoDataFrame) (wkt : string) (reino limite : Z) (w : Mundo) :
  wkt_rewind (unary_union area) = Some wkt ->
  let k := Z.to_nat (pedidos limite (Z.of_nat (length dados)) 0) in
  Helpers.passo = 300
  /\ (exists w',
        @Helpers.buscar_com_paginacao (gbif_paginado dados) Gm (Some area)
          reino limite w
        = (Some (firstn (Z.to_nat limite) dados), w')
        /\ (length (firstn (Z.to_nat limite) dados) <= Z.to_nat limite)%nat
        /\ n_paginas w' = (n_paginas w + k)%nat
        /\ n_chamadas w' = (n_chamadas w + k)%nat
        /\ buscas w'
           = buscas w
             ++ map (fun i => Helpers.params_pagina wkt reino (300 * Z.of_nat i))
                  (seq 0 k))
  /\ Z.of_nat k
     = (if 0 <? limite
        then Z.min (paginas_para limite)
               (paginas_para (Z.of_nat (length dados)) + 1)
        else 0)
  /\ Z.of_nat k <= paginas_para limite
  /\ (forall (G : GBIF) gdf_area reino' limite' w0,
        exists l w',
          @Helpers.buscar_com_paginacao G Gm gdf_area reino' limite' w0
          = (Some l, w')
          /\ (length l <= Z.to_nat limite')%nat
          /\ Z.of_nat (n_paginas w') - Z.of_nat (n_paginas w0)
             <= paginas_para limite').
Proof.
  intros Hwkt k.
  pose proof (pedidos_nonneg limite (Z.of_nat (length dados)) 0) as Hk0.
  split; [reflexivity|]. split; [|split; [|split]].
  - unfold Helpers.buscar_com_paginacao. rewrite Hwkt. unfold bind.
    destruct (while_offset_paginado dados wkt reino limite
                (Helpers.fuel_of limite) 0 [] w)
      as (raw & w' & E & Hraw & Hnil & Hn & Hb).
    { lia. } { unfold Helpers.fuel_of. lia. } { unfold Helpers.fuel_of. lia. }
    { reflexivity. }
    rewrite E. unfold emit, ret. eexists. split; [|split; [|split; [|split]]].
    + f_equal. f_equal.
      destruct (Z_lt_le_dec 0 limite) as [Hpos|Hneg].
      * rewrite slice_to_nonneg by lia. exact Hraw.
      * rewrite (Hnil Hneg). unfold Py.slice_to. rewrite !firstn_nil.
        replace (Z.to_nat limite) with 0%nat by lia.
        destruct (limite <? 0); reflexivity.
    + rewrite length_firstn. lia.
    + trace_simpl. exact Hn.
    + rewrite !n_chamadas_buscas, buscas_snoc, Hb. simpl.
      rewrite app_nil_r, length_app, length_map, length_seq. reflexivity.
    + rewrite buscas_snoc, Hb. simpl. rewrite app_nil_r. f_equal.
  - unfold k. rewrite Z2Nat.id by exact Hk0.
    unfold pedidos. rewrite !Z.sub_0_r. reflexivity.
  - unfold k. rewrite Z2Nat.id by exact Hk0.
    pose proof (pedidos_le limite (Z.of_nat (length dados)) 0) as H.
    rewrite Z.sub_0_r in H. exact H.
  - intros G gdf_area reino' limite' w0.
    destruct (@buscar_com_paginacao_total G Gm gdf_area reino' limite' w0)
      as (l & w' & E & Hl & _ & Hp).
    exists l, w'. auto.
Qed.

Lemma C4_capped_pagination_witness :
  let dados := repeat (registro_em 0 0) 7 in
  exists w',
    @Helpers.buscar_com_paginacao (gbif_paginado dados) Retangulos.geo
      (Some Retangulos.area_quadrado) 6 5 []
    = (Some (firstn 5 dados), w')
    /\ n_paginas w' = 1%nat
    /\ buscas w' = [Helpers.params_pagina "MULTIPOLYGON" 6 0].
Proof.
  intros dados.
  destruct (@C4_capped_pagination Retangulos.geo dados
              Retangulos.area_quadrado "MULTIPOLYGON" 6 5 [] eq_refl)
    as (_ & (w' & E & _ & Hn & _ & Hb) & _).
  exists w'. split; [exact E|]. split; [exact Hn|exact Hb].
Defined.

(** ** A page request that fails *)

Section Falha.
Context `{G : GBIF}.

Lemma for_attempt_erros_mono p mr l : forall w,
  (n_erros w <= n_erros (snd (Helpers.for_attempt p mr l w)))%nat.
Proof.
  induction l as [|a l IHl]; intros w; simpl.
  - unfold bind, emit, ret. simpl. trace_simpl. lia.
  - unfold bind, do_search.
    destruct (occ_search (n_chamadas w) p) as [r|m].
    + unfold ret. simpl. trace_simpl. lia.
    + destruct (Helpers.is_connection_error m).
      * unfold emit. eapply Nat.le_trans; [|apply IHl]. trace_simpl. lia.
      * unfold emit, ret. simpl. trace_simpl. lia.
Qed.

Lemma search_erros_mono p mr w :
  (n_erros w
   <= n_erros (snd (Helpers.search_gbif_with_retries p mr w)))%nat.
Proof. apply for_attempt_erros_mono. Qed.

Lemma search_falha p w :
  pedido_falha p (n_chamadas w) ->
  fst (Helpers.search_gbif_with_retries p Helpers.max_retries_default w) = None.
Proof.
  unfold Helpers.search_gbif_with_retries, Helpers.max_retries_default.
  intros [Ht|(m & Hm & Hc)].
  - destruct (for_attempt_transientes p 4 4 0 [] w Ht) as (w1 & E & _).
    rewrite app_nil_r in E. rewrite E. reflexivity.
  - simpl seq. rewrite (for_attempt_outro_erro _ _ _ _ _ _ Hm Hc). reflexivity.
Qed.

(** Pages that arrive are accumulated; when the request after them fails
    the loop ends with what was accumulated. *)
Lemma while_offset_falha wkt reino limite (paginas : list Resposta) :
  forall fuel o acc w,
    (0 < fuel)%nat -> limite - o < Z.of_nat fuel ->
    o + 300 * Z.of_nat (length paginas) < limite ->
    (forall i pg, paginas !! i = Some pg ->
       occ_search (n_chamadas w + i)
         (Helpers.params_pagina wkt reino (o + 300 * Z.of_nat i)) = Retorna pg
       /\ results pg <> []) ->
    pedido_falha
      (Helpers.params_pagina wkt reino (o + 300 * Z.of_nat (length paginas)))
      (n_chamadas w + length paginas) ->
    exists w',
      Helpers.while_offset fuel wkt reino limite o acc w
      = (Some (acc ++ concat (map results paginas)), w')
      /\ (n_erros w < n_erros w')%nat.
Proof.
  induction paginas as [|pg paginas IH]; intros fuel o acc w Hf Hlim Hcap Hpg Hfail;
    (destruct fuel as [|fuel]; [lia|]).
  - simpl length in *. rewrite Z.mul_0_r, Z.add_0_r in *.
    rewrite Nat.add_0_r in Hfail.
    rewrite while_offset_passo by lia. cbv zeta.
    rewrite search_falha.
    2:{ rewrite n_chamadas_snoc. simpl. rewrite Nat.add_0_r. exact Hfail. }
    eexists. cbn [map concat]. rewrite app_nil_r. split; [reflexivity|].
    pose proof (search_erros_mono (Helpers.params_pagina wkt reino o)
                  Helpers.max_retries_default
                  (w ++ [Ev_info (length acc)])) as Hmono.
    rewrite n_erros_snoc in Hmono |- *. cbn [is_error] in Hmono |- *. lia.
  - destruct (Hpg 0%nat pg eq_refl) as [Hret Hne].
    rewrite Nat.add_0_r, Z.mul_0_r, Z.add_0_r in Hret.
    simpl length in Hcap, Hfail.
    rewrite while_offset_passo by lia. cbv zeta.
    unfold Helpers.search_gbif_with_retries, Helpers.max_retries_default.
    simpl seq.
    rewrite (for_attempt_sucesso _ _ _ _ (w ++ [Ev_info (length acc)]) pg).
    2:{ rewrite n_chamadas_snoc. simpl. rewrite Nat.add_0_r. exact Hret. }
    simpl fst. simpl snd.
    destruct (results pg) as [|r rs] eqn:Hres; [congruence|].
    destruct (IH fuel (o + Helpers.passo) (acc ++ r :: rs)
                (((w ++ [Ev_info (length acc)])
                    ++ [Ev_search (Helpers.params_pagina wkt reino o)])
                   ++ [Ev_sleep (1 # 5)])) as (w' & E & He).
    + lia.
    + unfold Helpers.passo. lia.
    + unfold Helpers.passo. lia.
    + intros i pg' Hi. destruct (Hpg (S i) pg' Hi) as [H1 H2].
      split; [|exact H2].
      trace_simpl. rewrite <- H1. f_equal; [lia|].
      f_equal. unfold Helpers.passo. lia.
    + trace_simpl.
      replace (o + Helpers.passo + 300 * Z.of_nat (length paginas))
        with (o + 300 * Z.of_nat (S (length paginas)))
        by (unfold Helpers.passo; lia).
      replace (n_chamadas w + 1 + length paginas)%nat
        with (n_chamadas w + S (length paginas))%nat by lia.
      exact Hfail.
    + exists w'. rewrite Hres, E. cbn [map concat].
      rewrite Hres, <- app_assoc.
      split; [reflexivity|]. revert He. trace_simpl. lia.
Qed.

End Falha.

(** C10.  When the first pages arrive and the request after them fails
    (after all retries, or at once on a non-transient error), the
    paginated fetch returns the records of the pages that arrived, cut to
    the cap, and an error is recorded.  Whatever the service does, the
    fetch returns a list: no exit of the model is an exception or an
    unfinished loop. *)
Theorem C10_partial_failure `{G : GBIF} `{Gm : Geo} (area : GeoDataFrame)
    (wkt : string) (reino limite : Z) (w : Mundo) (paginas : list Resposta) :
  wkt_rewind (unary_union area) = Some wkt ->
  300 * Z.of_nat (length paginas) < limite ->
  (forall i pg, paginas !! i = Some pg ->
     occ_search (n_chamadas w + i)
       (Helpers.params_pagina wkt reino (300 * Z.of_nat i)) = Retorna pg
     /\ results pg <> []) ->
  pedido_falha
    (Helpers.params_pagina wkt reino (300 * Z.of_nat (length paginas)))
    (n_chamadas w + length paginas) ->
  (exists w',
      Helpers.buscar_com_paginacao (Some area) reino limite w
      = (Some (Py.slice_to (concat (map results paginas)) limite), w')
      /\ (n_erros w < n_erros w')%nat)
  /\ (forall gdf_area reino' limite' w0,
        exists l w',
          Helpers.buscar_com_paginacao gdf_area reino' limite' w0 = (Some l, w')
          /\ (length l <= Z.to_nat limite')%nat).
Proof.
  intros Hwkt Hcap Hpg Hfail. split.
  - unfold Helpers.buscar_com_paginacao. rewrite Hwkt. unfold bind.
    destruct (while_offset_falha wkt reino limite paginas
                (Helpers.fuel_of limite) 0 [] w) as (w' & E & He).
    + unfold Helpers.fuel_of. lia.
    + unfold Helpers.fuel_of. lia.
    + lia.
    + exact Hpg.
    + exact Hfail.
    + rewrite E. unfold emit, ret. eexists. split; [reflexivity|].
      trace_simpl. exact He.
  - intros gdf_area reino' limite' w0.
    destruct (buscar_com_paginacao_total gdf_area reino' limite' w0)
      as (l & w' & E & Hl & _).
    exists l, w'. auto.
Qed.

Lemma C10_partial_failure_witness :
  let pg1 := resposta_com [registro_em 0 0; registro_em 1 1] in
  let pg2 := resposta_com [registro_em 2 2] in
  exists w',
    @Helpers.buscar_com_paginacao (gbif_roteiro [Retorna pg1; Retorna pg2])
      Retangulos.geo (Some Retangulos.area_quadrado) 6 1000 []
    = (Some [registro_em 0 0; registro_em 1 1; registro_em 2 2], w')
    /\ (0 < n_erros w')%nat.
Proof.
  intros pg1 pg2.
  destruct (@C10_partial_failure
              (gbif_roteiro [Retorna pg1; Retorna pg2]) Retangulos.geo
              Retangulos.area_quadrado "MULTIPOLYGON" 6 1000 []
              [pg1; pg2] eq_refl) as [H _].
  - reflexivity.
  - intros [|[|i]] pg Hi; simpl in Hi; inversion Hi;
      (split; [reflexivity | discriminate]).
  - left. intros i Hi. eexists.
    split; [destruct i as [|[|[|[|i]]]]; reflexivity | reflexivity].
  - exact H.
Defined.

(** ** The trait cache *)

Section Cache.
Context `{F : Helpers.FloraAPI}.
Import Helpers.

Lemma str_truthy_iff (n : string) : Py.str_truthy n = true <-> n <> ""%string.
Proof. destruct n; simpl; split; congruence. Qed.

Lemma get_categoria_sessao (n : string) (s : Sessao) :
  lifeform_cache (snd (get_categoria_flora_brasil n s)) = lifeform_cache s
  /\ consultas (snd (get_categoria_flora_brasil n s)) = consultas s ++ [n].
Proof.
  unfold get_categoria_flora_brasil.
  destruct (Py.split_space n) as [|genus [|esp resto]]; simpl; auto.
  destruct (requests_get _ _) as [|status data]; simpl; auto.
  destruct (status =? 404); simpl; auto.
  destruct (raise_for_status_fails status); simpl; auto.
  destruct data as [| | | |[|item itens]|]; simpl; auto.
Qed.

Lemma fetch_one_spec (s : Sessao) (n : string) :
  consultas (fetch_one s n) = consultas s ++ [n]
  /\ cache_of (fetch_one s n)
     = <[n := valor_em_cache (fst (get_categoria_flora_brasil n s))]>
         (cache_of s).
Proof.
  unfold fetch_one.
  destruct (get_categoria_sessao n s) as [Hc Hq].
  destruct (get_categoria_flora_brasil n s) as [r s']. simpl in *.
  assert (Hco : cache_of s' = cache_of s) by (unfold cache_of; rewrite Hc; reflexivity).
  destruct r as [[lf|]|]; unfold set_cache, cache_of at 1; simpl;
    rewrite Hco; auto.
Qed.

Lemma fold_fetch_spec (l : list string) : forall s,
  let s1 := fold_left fetch_one l s in
  consultas s1 = consultas s ++ l
  /\ (forall n, is_Some (cache_of s1 !! n)
                <-> is_Some (cache_of s !! n) \/ In n l)
  /\ (forall n, ~ In n l -> cache_of s1 !! n = cache_of s !! n).
Proof.
  induction l as [|a l IH]; intros s; cbv zeta.
  - simpl. rewrite app_nil_r. split; [reflexivity|]. split; [|reflexivity].
    intros n. tauto.
  - simpl fold_left.
    destruct (IH (fetch_one s a)) as (Hq & Hs & Hk).
    destruct (fetch_one_spec s a) as [Hq1 Hc1].
    split; [|split].
    + rewrite Hq, Hq1, <- app_assoc. reflexivity.
    + intros n. rewrite Hs, Hc1.
      destruct (decide (a = n)) as [->|Hne].
      * rewrite lookup_insert_eq. simpl. split; [auto|]. intros _. left. eauto.
      * rewrite lookup_insert_ne by exact Hne. simpl.
        split; [intros [H|H]; auto | intros [H|[H|H]]; auto; congruence].
    + intros n Hn. rewrite Hk by (intros H; apply Hn; right; exact H).
      rewrite Hc1, lookup_insert_ne; [reflexivity|].
      intros ->. apply Hn. left. reflexivity.
Qed.

(** The value cached for a name just fetched is the value of its lookup. *)
Lemma fold_fetch_valor (l : list string) : forall s n,
  List.NoDup l -> In n l ->
  exists s',
    cache_of (fold_left fetch_one l s) !! n
    = Some (valor_em_cache (fst (get_categoria_flora_brasil n s'))).
Proof.
  induction l as [|a l IH]; intros s n Hnd Hin; [destruct Hin|].
  apply List.NoDup_cons_iff in Hnd. destruct Hnd as [Ha Hnd].
  simpl fold_left. destruct Hin as [->|Hin].
  - exists s.
    destruct (fold_fetch_spec l (fetch_one s n)) as (_ & _ & Hk).
    rewrite (Hk n Ha).
    destruct (fetch_one_spec s n) as [_ Hc]. rewrite Hc.
    apply lookup_insert_eq.
  - apply IH; assumption.
Qed.

Lemma names_to_fetch_spec (names : list string) (s : Sessao) :
  List.NoDup (names_to_fetch names s)
  /\ forall n, In n (names_to_fetch names s)
               <-> In n names /\ n <> ""%string /\ cache_of s !! n = None.
Proof.
  unfold names_to_fetch. split.
  - apply List.NoDup_filter. apply NoDup_ListNoDup, NoDup_elements.
  - intros n. rewrite List.filter_In, andb_true_iff, negb_true_iff,
      str_truthy_iff, bool_decide_eq_false.
    rewrite <- list_elem_of_In, elem_of_elements, elem_of_list_to_set,
      list_elem_of_In.
    rewrite <- eq_None_not_Some. tauto.
Qed.

Lemma traits_lookup (cache : gmap string string) (names : list string) :
  forall (t0 : gmap string string) n,
    fold_left
      (fun (traits : gmap string string) name =>
         if Py.str_truthy name
         then <[name := default nao_categorizado (cache !! name)]> traits
         else traits)
      names t0 !! n
    = if decide (n ∈ names /\ n <> ""%string)
      then Some (default nao_categorizado (cache !! n))
      else t0 !! n.
Proof.
  induction names as [|a names IH]; intros t0 n.
  - cbn [fold_left].
    destruct (decide (n ∈ [] /\ n <> ""%string)) as [[H _]|_]; [|reflexivity].
    apply elem_of_nil in H. destruct H.
  - cbn [fold_left]. rewrite IH.
    destruct (decide (n ∈ names /\ n <> ""%string)) as [[Hin Hne]|Hno].
    + rewrite decide_True; [reflexivity|].
      split; [apply elem_of_cons; right; exact Hin|exact Hne].
    + destruct (decide (a = n)) as [->|Han].
      * destruct (Py.str_truthy n) eqn:Et.
        -- rewrite lookup_insert_eq.
           rewrite decide_True; [reflexivity|].
           split; [apply elem_of_cons; left; reflexivity
                  | apply str_truthy_iff; exact Et].
        -- rewrite decide_False; [reflexivity|].
           intros [_ Hne]. apply str_truthy_iff in Hne. congruence.
      * assert (Hno' : ~ (n ∈ a :: names /\ n <> ""%string)).
        { intros [H Hne]. apply elem_of_cons in H.
          destruct H as [H|H]; [congruence|]. apply Hno. auto. }
        rewrite decide_False by exact Hno'.
        destruct (Py.str_truthy a); [|reflexivity].
        apply lookup_insert_ne. exact Han.
Qed.

End Cache.

Section Sessoes.
Context `{F : Helpers.FloraAPI}.
Import Helpers.

(** What one call of [get_plant_traits] does to the session and returns. *)
Lemma get_plant_traits_spec (names : list string) (s : Sessao) :
  let r := get_plant_traits names s in
  let l := names_to_fetch names s in
  consultas (snd r) = consultas s ++ l
  /\ (forall n, is_Some (cache_of (snd r) !! n)
                <-> is_Some (cache_of s !! n) \/ In n l)
  /\ (forall n, ~ In n l -> cache_of (snd r) !! n = cache_of s !! n)
  /\ (forall n,
        fst r !! n
        = if decide (n ∈ names /\ n <> ""%string)
          then Some (default nao_categorizado (cache_of (snd r) !! n))
          else None)
  /\ (forall n, In n l ->
        exists s',
          cache_of (snd r) !! n
          = Some (valor_em_cache (fst (get_categoria_flora_brasil n s')))).
Proof.
  intros r l.
  set (s0 := {| lifeform_cache := Some (cache_of s);
                requisicoes := requisicoes s;
                consultas := consultas s |}).
  assert (Hl : names_to_fetch names s0 = l) by reflexivity.
  assert (Hr2 : snd r = fold_left fetch_one l s0).
  { subst r. unfold get_plant_traits. fold s0. rewrite Hl. reflexivity. }
  destruct (fold_fetch_spec l s0) as (Hq & Hs & Hk).
  cbv zeta in Hq, Hs, Hk. rewrite <- Hr2 in Hq, Hs, Hk.
  split; [exact Hq|]. split; [exact Hs|]. split; [exact Hk|]. split.
  - intros n. subst r. unfold get_plant_traits. fold s0. rewrite Hl.
    cbn [fst snd]. rewrite traits_lookup, lookup_empty. reflexivity.
  - intros n Hn. rewrite Hr2.
    apply fold_fetch_valor; [|exact Hn].
    apply (names_to_fetch_spec names s).
Qed.

Lemma get_plant_traits_coerente (names : list string) (s : Sessao) :
  sessao_coerente s -> sessao_coerente (snd (get_plant_traits names s)).
Proof.
  intros [Hnd Hiff].
  destruct (get_plant_traits_spec names s) as (Hq & Hs & _).
  destruct (names_to_fetch_spec names s) as [Hndl Hl].
  cbv zeta in Hq, Hs. split.
  - rewrite Hq. apply List.NoDup_app; [exact Hnd | exact Hndl |].
    intros n Hin Hin'. apply Hiff in Hin. apply Hl in Hin'.
    destruct Hin' as (_ & _ & Hnone). rewrite Hnone in Hin.
    destruct Hin as [x Hx]. discriminate.
  - intros n. rewrite Hq, in_app_iff, Hs, Hiff. reflexivity.
Qed.

(** A cached name is not looked up again and keeps its value. *)
Lemma get_plant_traits_cached (names : list string) (s : Sessao) (n : string) :
  is_Some (cache_of s !! n) ->
  cache_of (snd (get_plant_traits names s)) !! n = cache_of s !! n
  /\ ~ In n (names_to_fetch names s).
Proof.
  intros Hsome.
  assert (Hn : ~ In n (names_to_fetch names s)).
  { intros Hin. apply (names_to_fetch_spec names s) in Hin.
    destruct Hin as (_ & _ & Hnone). rewrite Hnone in Hsome.
    destruct Hsome as [x Hx]. discriminate. }
  split; [|exact Hn].
  destruct (get_plant_traits_spec names s) as (_ & _ & Hk & _).
  apply Hk. exact Hn.
Qed.

(** A name that is queried is in the cache afterwards. *)
Lemma get_plant_traits_caches (names : list string) (s : Sessao) (n : string) :
  In n names -> n <> ""%string ->
  is_Some (cache_of (snd (get_plant_traits names s)) !! n).
Proof.
  intros Hin Hne.
  destruct (get_plant_traits_spec names s) as (_ & Hs & _).
  apply Hs.
  destruct (cache_of s !! n) eqn:E; [left; eauto|].
  right. apply names_to_fetch_spec. auto.
Qed.

Lemma fold_coerente (chamadas : list (list string)) : forall s,
  sessao_coerente s ->
  sessao_coerente
    (fold_left (fun s names => snd (get_plant_traits names s)) chamadas s).
Proof.
  induction chamadas as [|names chamadas IH]; intros s Hs; [exact Hs|].
  cbn [fold_left]. apply IH, get_plant_traits_coerente, Hs.
Qed.

Lemma fold_cached (chamadas : list (list string)) (n : string) : forall s,
  is_Some (cache_of s !! n) ->
  cache_of (fold_left (fun s names => snd (get_plant_traits names s))
              chamadas s) !! n
  = cache_of s !! n.
Proof.
  induction chamadas as [|names chamadas IH]; intros s Hs; [reflexivity|].
  cbn [fold_left]. destruct (get_plant_traits_cached names s n Hs) as [E _].
  rewrite IH; [exact E|]. rewrite E. exact Hs.
Qed.

Lemma sessao_nova_coerente : sessao_coerente sessao_nova.
Proof.
  split; [constructor|]. intros n. simpl. unfold cache_of. simpl.
  rewrite lookup_empty. split; [intros []|intros [x Hx]; discriminate].
Qed.

Lemma sessao_apos_coerente (chamadas : list (list string)) :
  sessao_coerente (sessao_apos chamadas).
Proof. apply fold_coerente, sessao_nova_coerente. Qed.

Lemma sessao_apos_app (antes depois : list (list string)) :
  sessao_apos (antes ++ depois)
  = fold_left (fun s names => snd (get_plant_traits names s)) depois
      (sessao_apos antes).
Proof. unfold sessao_apos. apply fold_left_app. Qed.

End Sessoes.

Section Memo.
Context `{F : Helpers.FloraAPI}.
Import Helpers.

Lemma coerente_count (s : Sessao) (n : string) :
  sessao_coerente s -> is_Some (cache_of s !! n) ->
  count_occ String.string_dec (consultas s) n = 1%nat.
Proof.
  intros [Hnd Hiff] Hsome.
  apply (proj1 (List.NoDup_count_occ' String.string_dec (consultas s)) Hnd).
  apply Hiff. exact Hsome.
Qed.

Lemma get_plant_traits_no_retry (names : list string) (s : Sessao) (n : string) :
  is_Some (cache_of s !! n) ->
  let r := get_plant_traits names s in
  count_occ String.string_dec (consultas (snd r)) n
  = count_occ String.string_dec (consultas s) n
  /\ cache_of (snd r) !! n = cache_of s !! n
  /\ (In n names -> n <> ""%string -> fst r !! n = cache_of s !! n).
Proof.
  intros Hsome r.
  destruct (get_plant_traits_cached names s n Hsome) as [E Hn].
  destruct (get_plant_traits_spec names s) as (Hq & _ & _ & Ht & _).
  cbv zeta in Hq, Ht. fold r in Hq, Ht, E.
  split; [|split].
  - rewrite Hq, count_occ_app.
    rewrite (proj1 (count_occ_not_In String.string_dec _ n) Hn). lia.
  - exact E.
  - intros Hin Hne. rewrite Ht, decide_True.
    2:{ split; [apply list_elem_of_In; exact Hin | exact Hne]. }
    rewrite E. destruct Hsome as [v Hv]. rewrite Hv. reflexivity.
Qed.

Lemma cached_apos (chamadas : list (list string)) (n : string) :
  n <> ""%string -> Exists (In n) chamadas ->
  is_Some (cache_of (sessao_apos chamadas) !! n).
Proof.
  intros Hne Hex. apply Exists_exists in Hex. destruct Hex as (names & Hin & Hn).
  apply list_elem_of_In, in_split in Hin.
  destruct Hin as (antes & depois & ->).
  rewrite sessao_apos_app. cbn [fold_left].
  pose proof (get_plant_traits_caches names (sessao_apos antes) n Hn Hne) as Hc.
  rewrite fold_cached; exact Hc.
Qed.

Lemma get_categoria_sem_servico (n : string) (s : Sessao) :
  (forall i url, requests_get i url = Http_excecao) ->
  fst (get_categoria_flora_brasil n s) = Ok None.
Proof.
  intros Hdown. unfold get_categoria_flora_brasil.
  destruct (Py.split_space n) as [|genus [|esp resto]]; try reflexivity.
  rewrite Hdown. reflexivity.
Qed.

End Memo.

(** C8.  The trait cache memoizes by name over one session (a sequence of
    calls of [get_plant_traits] from a new session).  For a non-empty
    name: if some call of the session queries it, it is looked up exactly
    once in the whole session; in particular one call with the name
    repeated in its list looks it up once.  When the name was queried by
    an earlier call, a later call makes no lookup for it, leaves its cache
    entry as it was and returns that cached value. *)
Theorem C8_trait_cache_memoizes `{F : Helpers.FloraAPI}
    (chamadas : list (list string)) (name : string) :
  name <> ""%string ->
  (Exists (In name) chamadas ->
     count_occ String.string_dec
       (Helpers.consultas (sessao_apos chamadas)) name = 1%nat)
  /\ (forall names,
        In name names ->
        count_occ String.string_dec
          (Helpers.consultas
             (snd (Helpers.get_plant_traits names Helpers.sessao_nova))) name
        = 1%nat)
  /\ (forall antes names depois,
        chamadas = antes ++ names :: depois ->
        Exists (In name) antes ->
        In name names ->
        let s := sessao_apos antes in
        let r := Helpers.get_plant_traits names s in
        exists v,
          Helpers.cache_of s !! name = Some v
          /\ fst r !! name = Some v
          /\ Helpers.cache_of (snd r) !! name = Some v
          /\ count_occ String.string_dec (Helpers.consultas (snd r)) name
             = count_occ String.string_dec (Helpers.consultas s) name
          /\ count_occ String.string_dec (Helpers.consultas (snd r)) name
             = 1%nat).
Proof.
  intros Hne. split; [|split].
  - intros Hex. apply coerente_count.
    + apply sessao_apos_coerente.
    + apply cached_apos; assumption.
  - intros names Hin.
    change (snd (Helpers.get_plant_traits names Helpers.sessao_nova))
      with (sessao_apos [names]).
    apply coerente_count.
    + apply sessao_apos_coerente.
    + apply cached_apos; [exact Hne|]. constructor. exact Hin.
  - intros antes names depois _ Hex Hin s r.
    pose proof (cached_apos antes name Hne Hex) as Hsome. fold s in Hsome.
    destruct (get_plant_traits_no_retry names s name Hsome) as (Hc & Hk & Ht).
    fold r in Hc, Hk, Ht.
    destruct Hsome as [v Hv]. exists v.
    split; [exact Hv|]. split; [rewrite Ht; auto|].
    split; [rewrite Hk; exact Hv|]. split; [exact Hc|].
    rewrite Hc. apply coerente_count.
    + apply sessao_apos_coerente.
    + rewrite Hv. eauto.
Qed.

Lemma C8_trait_cache_memoizes_witness :
  let F := flora_roteiro [] in
  let chamadas := [["Panthera onca"; "Puma concolor"; "Panthera onca"];
                   ["Puma concolor"; "Panthera onca"]] in
  count_occ String.string_dec
    (Helpers.consultas (@sessao_apos F chamadas)) "Panthera onca" = 1%nat
  /\ exists v,
       fst (@Helpers.get_plant_traits F ["Puma concolor"; "Panthera onca"]
              (@sessao_apos F [["Panthera onca"; "Puma concolor";
                                "Panthera onca"]]))
       !! "Panthera onca" = Some v.
Proof.
  intros F chamadas.
  assert (Hne : "Panthera onca"%string <> ""%string) by discriminate.
  destruct (@C8_trait_cache_memoizes F chamadas "Panthera onca" Hne)
    as (H1 & _ & H3).
  split.
  - apply H1. constructor. simpl. auto.
  - destruct (H3 [["Panthera onca"; "Puma concolor"; "Panthera onca"]]
                ["Puma concolor"; "Panthera onca"] [] eq_refl)
      as (v & _ & Hv & _).
    + constructor. simpl. auto.
    + simpl. auto.
    + exists v. exact Hv.
Defined.

(** C9 (as the code has it).  A lookup whose HTTP request fails with a
    request error (connection error, timeout) is absorbed by
    [get_categoria_flora_brasil], which returns no trait: the cache
    receives "Não categorizado", the value of an uncategorized name.  Only
    an exception that leaves the lookup is recorded as "Erro ao buscar
    dados", which differs from "Não categorizado".  In both cases the
    value is cached: a later call returns it and makes no new lookup for
    the name. *)
Theorem C9_failed_lookup_cached `{F : Helpers.FloraAPI} (s : Helpers.Sessao)
    (names names2 : list string) (name : string) :
  name <> ""%string -> In name names -> In name names2 ->
  Helpers.cache_of s !! name = None ->
  let r1 := Helpers.get_plant_traits names s in
  let r2 := Helpers.get_plant_traits names2 (snd r1) in
  Helpers.erro_ao_buscar_dados <> Helpers.nao_categorizado
  /\ (forall valor,
        (forall s', valor_em_cache
                      (fst (Helpers.get_categoria_flora_brasil name s'))
                    = valor) ->
        fst r1 !! name = Some valor
        /\ Helpers.cache_of (snd r1) !! name = Some valor
        /\ fst r2 !! name = Some valor
        /\ count_occ String.string_dec (Helpers.consultas (snd r2)) name
           = count_occ String.string_dec (Helpers.consultas (snd r1)) name)
  /\ ((forall s', fst (Helpers.get_categoria_flora_brasil name s')
                  = Helpers.Raise) ->
        fst r1 !! name = Some Helpers.erro_ao_buscar_dados
        /\ fst r2 !! name = Some Helpers.erro_ao_buscar_dados)
  /\ ((forall i url, Helpers.requests_get i url = Helpers.Http_excecao) ->
        fst r1 !! name = Some Helpers.nao_categorizado
        /\ fst r2 !! name = Some Helpers.nao_categorizado).
Proof.
  intros Hne Hin Hin2 Hnone r1 r2.
  assert (Hgeral : forall valor,
    (forall s', valor_em_cache
                  (fst (Helpers.get_categoria_flora_brasil name s')) = valor) ->
    fst r1 !! name = Some valor
    /\ Helpers.cache_of (snd r1) !! name = Some valor
    /\ fst r2 !! name = Some valor
    /\ count_occ String.string_dec (Helpers.consultas (snd r2)) name
       = count_occ String.string_dec (Helpers.consultas (snd r1)) name).
  { intros valor Hv.
    destruct (get_plant_traits_spec names s) as (_ & _ & _ & Ht & Hval).
    cbv zeta in Ht, Hval. fold r1 in Ht, Hval.
    destruct (Hval name) as [s' Hs'].
    { apply names_to_fetch_spec. auto. }
    rewrite Hv in Hs'.
    assert (Hsome : is_Some (Helpers.cache_of (snd r1) !! name))
      by (rewrite Hs'; eauto).
    destruct (get_plant_traits_no_retry names2 (snd r1) name Hsome)
      as (Hc & _ & Ht2).
    fold r2 in Hc, Ht2.
    split; [|split; [exact Hs'|split; [|exact Hc]]].
    - rewrite Ht, decide_True, Hs'; [reflexivity|].
      split; [apply list_elem_of_In; exact Hin | exact Hne].
    - rewrite Ht2 by assumption. exact Hs'. }
  split; [discriminate|]. split; [exact Hgeral|]. split.
  - intros Hraise.
    destruct (Hgeral Helpers.erro_ao_buscar_dados) as (H1 & _ & H2 & _).
    { intros s'. rewrite Hraise. reflexivity. }
    auto.
  - intros Hdown.
    destruct (Hgeral Helpers.nao_categorizado) as (H1 & _ & H2 & _).
    { intros s'. rewrite get_categoria_sem_servico by exact Hdown.
      reflexivity. }
    auto.
Qed.

Lemma C9_failed_lookup_cached_witness :
  let corpo := Helpers.JArr [Helpers.JNum 3] in
  let F := flora_constante (Helpers.Http_resposta 200 corpo) in
  let r1 := @Helpers.get_plant_traits F ["Panthera onca"] Helpers.sessao_nova in
  fst r1 !! "Panthera onca" = Some "Erro ao buscar dados"%string
  /\ fst (@Helpers.get_plant_traits F ["Puma concolor"; "Panthera onca"]
            (snd r1)) !! "Panthera onca"
     = Some "Erro ao buscar dados"%string.
Proof.
  intros corpo F r1.
  assert (Hne : "Panthera onca"%string <> ""%string) by discriminate.
  destruct (@C9_failed_lookup_cached F Helpers.sessao_nova ["Panthera onca"]
              ["Puma concolor"; "Panthera onca"] "Panthera onca" Hne)
    as (_ & _ & Hraise & _).
  - simpl. auto.
  - simpl. auto.
  - reflexivity.
  - apply Hraise. intros s'. reflexivity.
Defined.

(** C9, the claim as stated, fails: with the service unreachable, the
    request for "Panthera" is made and raises a connection error, and the
    value recorded and returned for "Panthera onca" is the uncategorized
    one, not a distinct error value. *)
Lemma C9_counterexample :
  let F := flora_roteiro [] in
  let r := @Helpers.get_plant_traits F ["Panthera onca"] Helpers.sessao_nova in
  @Helpers.requests_get F 0 (Helpers.url_flora "Panthera") = Helpers.Http_excecao
  /\ Helpers.requisicoes (snd r) = [Helpers.url_flora "Panthera"]
  /\ Helpers.cache_of (snd r) !! "Panthera onca"
     = Some Helpers.nao_categorizado
  /\ ~ (exists v, Helpers.cache_of (snd r) !! "Panthera onca" = Some v
                  /\ v <> Helpers.nao_categorizado).
Proof.
  intros F r.
  assert (Hc : Helpers.cache_of (snd r) !! "Panthera onca"
               = Some Helpers.nao_categorizado) by (vm_compute; reflexivity).
  split; [reflexivity|]. split; [vm_compute; reflexivity|].
  split; [exact Hc|].
  intros (v & Hv & Hdif). rewrite Hc in Hv. congruence.
Qed.

(* ===================================================================== *)
(** * Further properties of the code                                      *)
(* ===================================================================== *)

(** ** search_gbif_with_retries, against any service *)

Section RetriesGeral.
Context `{G : GBIF}.

(** What a run of the attempts [a, a+1, ..., a+n-1] does: [k] calls, all
    with the same arguments; a result comes from the last call, after
    [k - 1] waits and with no error message; a failure is either [n]
    connection errors and [n] waits, or an error of another class at the
    last call, and leaves one error message. *)
Lemma for_attempt_geral (p : Params) (mr n : nat) : forall a w,
  exists k : nat,
    (k <= n)%nat
    /\ buscas (snd (Helpers.for_attempt p mr (seq a n) w))
       = buscas w ++ repeat p k
    /\ match fst (Helpers.for_attempt p mr (seq a n) w) with
       | Some r =>
           (1 <= k)%nat
           /\ occ_search (n_chamadas w + (k - 1)) p = Retorna r
           /\ n_erros (snd (Helpers.for_attempt p mr (seq a n) w)) = n_erros w
           /\ sonos (snd (Helpers.for_attempt p mr (seq a n) w))
              = sonos w ++ backoff a (k - 1)
       | None =>
           n_erros (snd (Helpers.for_attempt p mr (seq a n) w))
           = S (n_erros w)
           /\ ((k = n
                /\ transientes p (n_chamadas w) n
                /\ sonos (snd (Helpers.for_attempt p mr (seq a n) w))
                   = sonos w ++ backoff a n)
               \/ ((1 <= k)%nat
                   /\ (exists m,
                         occ_search (n_chamadas w + (k - 1)) p = Levanta m
                         /\ Helpers.is_connection_error m = false)
                   /\ sonos (snd (Helpers.for_attempt p mr (seq a n) w))
                      = sonos w ++ backoff a (k - 1)))
       end.
Proof.
  induction n as [|n IH]; intros a w.
  - exists 0%nat. simpl. unfold bind, emit, ret. simpl.
    rewrite buscas_snoc, !app_nil_r. split; [lia|]. split; [reflexivity|].
    trace_simpl. split; [lia|]. left.
    split; [reflexivity|]. split; [intros i Hi; lia|].
    reflexivity.
  - simpl seq.
    destruct (occ_search (n_chamadas w) p) as [r|m] eqn:Hr.
    + rewrite (for_attempt_sucesso _ _ _ _ _ _ Hr). exists 1%nat. simpl.
      rewrite buscas_snoc. split; [lia|]. split; [reflexivity|].
      rewrite Nat.add_0_r. trace_simpl.
      repeat split; auto;
        try (unfold backoff; simpl; rewrite ?app_nil_r; reflexivity).
    + destruct (Helpers.is_connection_error m) eqn:Hc.
      * rewrite (for_attempt_transiente _ _ _ _ _ _ Hr Hc).
        match goal with |- context [Helpers.for_attempt _ _ _ ?w1] =>
          set (w1' := w1) end.
        destruct (IH (S a) w1') as (k & Hk & Hb & Hres).
        assert (Hn1 : n_chamadas w1' = S (n_chamadas w))
          by (unfold w1'; trace_simpl; lia).
        assert (He1 : n_erros w1' = n_erros w)
          by (unfold w1'; trace_simpl; lia).
        assert (Hs1 : sonos w1'
                      = sonos w ++ [inject_Z (2 ^ (Z.of_nat a + 1))])
          by (unfold w1'; trace_simpl; reflexivity).
        assert (Hb1 : buscas w1' = buscas w ++ [p]).
        { unfold w1'. rewrite !buscas_snoc. simpl. rewrite !app_nil_r.
          reflexivity. }
        assert (Hback : forall j, backoff a (S j)
                          = inject_Z (2 ^ (Z.of_nat a + 1)) :: backoff (S a) j)
          by (intros j; reflexivity).
        exists (S k). split; [lia|]. split.
        { rewrite Hb, Hb1, <- app_assoc. reflexivity. }
        destruct (fst (Helpers.for_attempt p mr (seq (S a) n) w1')) as [r|].
        -- destruct Hres as (H1 & Ho & He & Hs).
           split; [lia|]. split.
           { rewrite <- Ho, Hn1. f_equal. lia. }
           split; [lia|].
           rewrite Hs, Hs1, <- app_assoc.
           replace (S k - 1)%nat with (S (k - 1)) by lia.
           rewrite Hback. reflexivity.
        -- destruct Hres as (He & Hcase). split; [lia|].
           destruct Hcase as [(Hkn & Ht & Hs)|(H1 & (m' & Hm' & Hc') & Hs)].
           ++ left. split; [lia|]. split.
              { intros i Hi. destruct i as [|i].
                - exists m. rewrite Nat.add_0_r. auto.
                - destruct (Ht i ltac:(lia)) as (mi & Hmi & Hci).
                  exists mi. split; [|exact Hci].
                  rewrite <- Hmi, Hn1. f_equal. lia. }
              rewrite Hs, Hs1, <- app_assoc, Hback. reflexivity.
           ++ right. split; [lia|]. split.
              { exists m'. split; [|exact Hc'].
                rewrite <- Hm', Hn1. f_equal. lia. }
              rewrite Hs, Hs1, <- app_assoc.
              replace (S k - 1)%nat with (S (k - 1)) by lia.
              rewrite Hback. reflexivity.
      * rewrite (for_attempt_outro_erro _ _ _ _ _ _ Hr Hc). exists 1%nat.
        cbn [fst snd]. rewrite (app_assoc w), !buscas_snoc.
        split; [lia|]. split; [simpl; rewrite app_nil_r; reflexivity|].
        trace_simpl. split; [lia|]. right.
        split; [lia|]. split.
        { exists m. rewrite ?Nat.add_0_r. auto. }
        unfold backoff; simpl; rewrite ?app_nil_r; reflexivity.
Qed.

End RetriesGeral.

Lemma backoff_cons (a j : nat) :
  backoff a (S j) = inject_Z (2 ^ (Z.of_nat a + 1)) :: backoff (S a) j.
Proof. reflexivity. Qed.

Lemma tempo_total_backoff (j : nat) : forall a,
  (tempo_total (backoff a j)
   == inject_Z (2 ^ (Z.of_nat (a + j) + 1) - 2 ^ (Z.of_nat a + 1)))%Q.
Proof.
  induction j as [|j IH]; intros a.
  - rewrite Nat.add_0_r, Z.sub_diag. reflexivity.
  - rewrite backoff_cons. cbn [tempo_total fold_right].
    fold (tempo_total (backoff (S a) j)). rewrite IH.
    rewrite <- inject_Z_plus.
    replace (Z.of_nat (S a + j)) with (Z.of_nat (a + S j)) by lia.
    replace (Z.of_nat (S a) + 1) with (Z.succ (Z.of_nat a + 1)) by lia.
    rewrite Z.pow_succ_r by lia.
    apply inject_Z_injective. lia.
Qed.

Lemma tempo_total_backoff_le (j n : nat) :
  (j <= n)%nat ->
  (tempo_total (backoff 0 j) <= inject_Z (2 ^ (Z.of_nat n + 1) - 2))%Q.
Proof.
  intros Hjn. rewrite tempo_total_backoff. rewrite <- Zle_Qle.
  simpl Z.of_nat. change (2 ^ (0 + 1)) with 2.
  assert (2 ^ (Z.of_nat j + 1) <= 2 ^ (Z.of_nat n + 1)).
  { apply Z.pow_le_mono_r; lia. }
  replace (Z.of_nat (0 + j)) with (Z.of_nat j) by lia. lia.
Qed.

(** The behaviour of one call of [search_gbif_with_retries] against any
    service. *)
Lemma search_gbif_geral `{G : GBIF} (p : Params) (max_retries : nat)
    (w : Mundo) :
  let r := Helpers.search_gbif_with_retries p max_retries w in
  exists k : nat,
    (k <= max_retries)%nat
    /\ buscas (snd r) = buscas w ++ repeat p k
    /\ n_chamadas (snd r) = (n_chamadas w + k)%nat
    /\ match fst r with
       | Some resposta =>
           (1 <= k)%nat
           /\ occ_search (n_chamadas w + (k - 1)) p = Retorna resposta
           /\ n_erros (snd r) = n_erros w
           /\ sonos (snd r) = sonos w ++ backoff 0 (k - 1)
       | None =>
           n_erros (snd r) = S (n_erros w)
           /\ ((k = max_retries
                /\ transientes p (n_chamadas w) max_retries
                /\ sonos (snd r) = sonos w ++ backoff 0 max_retries)
               \/ ((1 <= k)%nat
                   /\ (exists m,
                         occ_search (n_chamadas w + (k - 1)) p = Levanta m
                         /\ Helpers.is_connection_error m = false)
                   /\ sonos (snd r) = sonos w ++ backoff 0 (k - 1)))
       end.
Proof.
  intros r. subst r. unfold Helpers.search_gbif_with_retries.
  destruct (for_attempt_geral p max_retries max_retries 0 w)
    as (k & Hk & Hb & Hres).
  exists k. split; [exact Hk|]. split; [exact Hb|]. split; [|exact Hres].
  rewrite !n_chamadas_buscas, Hb, length_app, repeat_length. reflexivity.
Qed.


(** X1.  Against any service and for any number of attempts,
    [search_gbif_with_retries] makes between 0 and [max_retries] calls,
    all with the arguments it was given.  A result is the answer of the
    last call, reached after one wait per earlier call and without any
    error message.  [None] comes with exactly one error message, either
    after [max_retries] connection errors (and as many waits) or after an
    error of another class at the last call. *)
Theorem X1_retry_any_service `{G : GBIF} (p : Params) (max_retries : nat)
    (w : Mundo) :
  let r := Helpers.search_gbif_with_retries p max_retries w in
  exists k : nat,
    (k <= max_retries)%nat
    /\ buscas (snd r) = buscas w ++ repeat p k
    /\ n_chamadas (snd r) = (n_chamadas w + k)%nat
    /\ match fst r with
       | Some resposta =>
           (1 <= k)%nat
           /\ occ_search (n_chamadas w + (k - 1)) p = Retorna resposta
           /\ n_erros (snd r) = n_erros w
           /\ sonos (snd r) = sonos w ++ backoff 0 (k - 1)
       | None =>
           n_erros (snd r) = S (n_erros w)
           /\ ((k = max_retries
                /\ transientes p (n_chamadas w) max_retries
                /\ sonos (snd r) = sonos w ++ backoff 0 max_retries)
               \/ ((1 <= k)%nat
                   /\ (exists m,
                         occ_search (n_chamadas w + (k - 1)) p = Levanta m
                         /\ Helpers.is_connection_error m = false)
                   /\ sonos (snd r) = sonos w ++ backoff 0 (k - 1)))
       end.
Proof. exact (search_gbif_geral p max_retries w). Qed.

(** X2.  One call of [search_gbif_with_retries] sleeps at most
    2^(max_retries+1) - 2 seconds in total, whatever the service does:
    at most 30 seconds with the default of 4 attempts. *)
Theorem X2_retry_total_wait `{G : GBIF} (p : Params) (max_retries : nat)
    (w : Mundo) :
  exists esperas,
    sonos (snd (Helpers.search_gbif_with_retries p max_retries w))
    = sonos w ++ esperas
    /\ (tempo_total esperas
        <= inject_Z (2 ^ (Z.of_nat max_retries + 1) - 2))%Q
    /\ (inject_Z (2 ^ (Z.of_nat Helpers.max_retries_default + 1) - 2)
        == 30)%Q.
Proof.
  destruct (search_gbif_geral p max_retries w) as (k & Hk & _ & _ & Hres).
  cbv zeta in Hres.
  assert (Hj : exists j, (j <= max_retries)%nat
             /\ sonos (snd (Helpers.search_gbif_with_retries p max_retries w))
                = sonos w ++ backoff 0 j).
  { destruct (fst (Helpers.search_gbif_with_retries p max_retries w)).
    - destruct Hres as (_ & _ & _ & Hs). exists (k - 1)%nat. split; [lia|auto].
    - destruct Hres as (_ & [(_ & _ & Hs)|(_ & _ & Hs)]).
      + exists max_retries. auto.
      + exists (k - 1)%nat. split; [lia|auto]. }
  destruct Hj as (j & Hjn & Hs).
  exists (backoff 0 j). split; [exact Hs|].
  pose proof (tempo_total_backoff_le j max_retries Hjn) as Hle.
  split; [exact Hle|]. reflexivity.
Qed.

(** ** buscar_com_paginacao, against any service *)

Section PaginacaoGeral.
Context `{G : GBIF}.

Lemma search_buscas (p : Params) (mr : nat) (w : Mundo) :
  exists k : nat,
    buscas (snd (Helpers.search_gbif_with_retries p mr w))
    = buscas w ++ repeat p k.
Proof.
  destruct (for_attempt_geral p mr mr 0 w) as (k & _ & Hb & _).
  exists k. exact Hb.
Qed.

(** Every call the loop makes asks for a page of 300 records at an offset
    that is a multiple of 300 from the current one and below the cap. *)
Lemma while_offset_buscas wkt reino limite : forall fuel o acc w,
  exists novas,
    buscas (snd (Helpers.while_offset fuel wkt reino limite o acc w))
    = buscas w ++ novas
    /\ Forall (fun q => exists i : nat,
                 q = Helpers.params_pagina wkt reino (o + 300 * Z.of_nat i)
                 /\ o + 300 * Z.of_nat i < limite) novas.
Proof.
  induction fuel as [|fuel IH]; intros o acc w.
  - exists []. simpl. rewrite app_nil_r. split; [reflexivity|constructor].
  - destruct (Z_lt_le_dec o limite) as [Hlt|Hge].
    2:{ rewrite while_offset_fim by exact Hge. exists []. simpl.
        rewrite app_nil_r. split; [reflexivity|constructor]. }
    rewrite while_offset_passo by exact Hlt. cbv zeta.
    destruct (search_buscas (Helpers.params_pagina wkt reino o)
                Helpers.max_retries_default (w ++ [Ev_info (length acc)]))
      as (k & Hk).
    rewrite buscas_snoc in Hk. simpl in Hk. rewrite app_nil_r in Hk.
    assert (Hrep : Forall (fun q => exists i : nat,
                     q = Helpers.params_pagina wkt reino (o + 300 * Z.of_nat i)
                     /\ o + 300 * Z.of_nat i < limite)
                     (repeat (Helpers.params_pagina wkt reino o) k)).
    { apply Forall_forall. intros q Hq. apply list_elem_of_In in Hq.
      apply repeat_spec in Hq. subst q. exists 0%nat.
      rewrite Z.mul_0_r, Z.add_0_r. auto. }
    destruct (Helpers.search_gbif_with_retries _ _ _) as [[pagina|] w1];
      cbn [fst snd] in *.
    + destruct (results pagina) as [|r rs]; cbn [snd].
      * exists (repeat (Helpers.params_pagina wkt reino o) k).
        rewrite buscas_snoc, Hk. simpl. rewrite app_nil_r. auto.
      * destruct (IH (o + Helpers.passo) (acc ++ r :: rs)
                    (w1 ++ [Ev_sleep (1 # 5)])) as (novas & Hn & Hf).
        exists (repeat (Helpers.params_pagina wkt reino o) k ++ novas).
        rewrite Hn, buscas_snoc, Hk. simpl.
        rewrite app_nil_r, <- app_assoc. split; [reflexivity|].
        apply Forall_app. split; [exact Hrep|].
        eapply Forall_impl; [exact Hf|].
        intros q (i & -> & Hi). exists (S i). unfold Helpers.passo in *.
        split; [f_equal; lia | lia].
    + exists (repeat (Helpers.params_pagina wkt reino o) k).
      rewrite buscas_snoc, Hk. simpl. rewrite app_nil_r. auto.
Qed.

End PaginacaoGeral.

(** X3.  Whatever the service does, every call that
    [buscar_com_paginacao] makes carries the WKT text of the area, the
    kingdom key it was given, [hasCoordinate], a page size of 300 and an
    offset that is a multiple of 300, at least 0 and below the cap. *)
Theorem X3_paginated_requests `{G : GBIF} `{Gm : Geo}
    (gdf_area : option GeoDataFrame) (reino limite : Z) (w : Mundo) :
  exists novas,
    buscas (snd (Helpers.buscar_com_paginacao gdf_area reino limite w))
    = buscas w ++ novas
    /\ Forall
         (fun q =>
            exists (area : GeoDataFrame) (wkt : string) (i : nat),
              gdf_area = Some area
              /\ wkt_rewind (unary_union area) = Some wkt
              /\ q = {| scientificName := None; classe := None;
                        geometry := Some wkt; kingdomKey := Some reino;
                        hasCoordinate := true; limit := 300;
                        offset := Some (300 * Z.of_nat i) |}
              /\ 300 * Z.of_nat i < limite)
         novas.
Proof.
  unfold Helpers.buscar_com_paginacao.
  destruct gdf_area as [area|].
  2:{ exists []. simpl. rewrite app_nil_r. split; [reflexivity|constructor]. }
  destruct (wkt_rewind (unary_union area)) as [wkt|] eqn:Hw.
  2:{ exists []. unfold bind, emit, ret. cbn [snd].
      rewrite buscas_snoc. simpl. rewrite !app_nil_r.
      split; [reflexivity|constructor]. }
  destruct (while_offset_buscas wkt reino limite (Helpers.fuel_of limite)
              0 [] w) as (novas & Hn & Hf).
  exists novas. unfold bind.
  destruct (Helpers.while_offset _ _ _ _ _ _ _) as [[l|] w'];
    cbn [snd] in Hn |- *.
  - unfold emit, ret. cbn [snd]. rewrite buscas_snoc, Hn. simpl.
    rewrite app_nil_r. split; [reflexivity|].
    eapply Forall_impl; [exact Hf|].
    intros q (i & -> & Hi). exists area, wkt, i.
    rewrite Z.add_0_l in Hi. repeat split; auto.
  - unfold ret. cbn [snd]. split; [exact Hn|].
    eapply Forall_impl; [exact Hf|].
    intros q (i & -> & Hi). exists area, wkt, i.
    rewrite Z.add_0_l in Hi. repeat split; auto.
Qed.

(** X4.  [buscar_com_paginacao] returns the empty list without calling
    the service in three cases: no area at all (nothing is reported),
    an area whose geometry cannot be turned into WKT (one error message),
    and a cap that is not positive. *)
Theorem X4_paginated_no_request `{G : GBIF} `{Gm : Geo} (reino limite : Z)
    (w : Mundo) :
  Helpers.buscar_com_paginacao None reino limite w = (Some [], w)
  /\ (forall area,
        wkt_rewind (unary_union area) = None ->
        Helpers.buscar_com_paginacao (Some area) reino limite w
        = (Some [], w ++ [Ev_error Erro_geometria]))
  /\ (forall area,
        limite <= 0 ->
        exists w',
          Helpers.buscar_com_paginacao (Some area) reino limite w
          = (Some [], w')
          /\ buscas w' = buscas w
          /\ n_paginas w' = n_paginas w).
Proof.
  split; [reflexivity|]. split.
  - intros area Hw. unfold Helpers.buscar_com_paginacao. rewrite Hw.
    reflexivity.
  - intros area Hl. unfold Helpers.buscar_com_paginacao.
    destruct (wkt_rewind (unary_union area)) as [wkt|].
    + unfold bind, Helpers.fuel_of. rewrite while_offset_fim by lia.
      unfold emit, ret. eexists. split.
      * unfold Py.slice_to. rewrite !firstn_nil.
        destruct (limite <? 0); reflexivity.
      * rewrite buscas_snoc. trace_simpl. simpl. rewrite ?app_nil_r. auto.
    + unfold bind, emit, ret. eexists. split; [reflexivity|].
      rewrite buscas_snoc. trace_simpl. simpl. rewrite ?app_nil_r. auto.
Qed.

Lemma X4_paginated_no_request_witness :
  exists w',
    @Helpers.buscar_com_paginacao (gbif_paginado [registro_em 0 0])
      Retangulos.geo (Some Retangulos.area_quadrado) 6 0 []
    = (Some [], w')
    /\ buscas w' = [].
Proof.
  destruct (@X4_paginated_no_request (gbif_paginado [registro_em 0 0])
              Retangulos.geo 6 0 []) as (_ & _ & H).
  destruct (H Retangulos.area_quadrado) as (w' & E & Hb & _).
  - lia.
  - exists w'. split; [exact E|exact Hb].
Defined.

(** ** The trait lookup *)

Lemma contains_espaco_cons (c : ascii) (s : string) :
  Py.contains " " (String c s) = Ascii.eqb c " " || Py.contains " " s.
Proof.
  cbn [Py.contains String.prefix]. destruct (ascii_dec " " c) as [<-|Hne].
  - destruct s; reflexivity.
  - rewrite (proj2 (Ascii.eqb_neq c " ")) by congruence. reflexivity.
Qed.

Lemma append_vazio (s : string) : (s ++ "")%string = s.
Proof.
  induction s as [|c s IH]; [reflexivity|].
  change (String c (String.append s "") = String c s). rewrite IH. reflexivity.
Qed.

Lemma append_snoc (cur : string) (c : ascii) (s : string) :
  ((cur ++ String c "") ++ s)%string = (cur ++ String c s)%string.
Proof.
  induction cur as [|d cur IH]; [reflexivity|].
  change (String d (String.append (String.append cur (String c "")) s)
          = String d (String.append cur (String c s))).
  rewrite IH. reflexivity.
Qed.

Lemma split_sem_espaco (s : string) : forall cur,
  Py.contains " " s = false ->
  Py.split_space_aux cur s = [(cur ++ s)%string].
Proof.
  induction s as [|c s IH]; intros cur Hs.
  - simpl. rewrite append_vazio. reflexivity.
  - rewrite contains_espaco_cons in Hs. apply orb_false_iff in Hs.
    destruct Hs as [Hc Hs]. simpl. rewrite Hc, IH by exact Hs.
    rewrite append_snoc. reflexivity.
Qed.

Lemma split_com_espaco (g resto : string) : forall cur,
  Py.contains " " g = false ->
  Py.split_space_aux cur (g ++ " " ++ resto)
  = (cur ++ g)%string :: Py.split_space resto.
Proof.
  induction g as [|c g IH]; intros cur Hg.
  - simpl. rewrite append_vazio. reflexivity.
  - rewrite contains_espaco_cons in Hg. apply orb_false_iff in Hg.
    destruct Hg as [Hc Hg].
    change (String.append (String c g) (String.append " " resto))
      with (String c (String.append g (String.append " " resto))).
    cbn [Py.split_space_aux].
    rewrite Hc, IH by exact Hg.
    rewrite append_snoc. reflexivity.
Qed.

Lemma split_space_nao_vazio (s : string) : forall cur,
  Py.split_space_aux cur s <> [].
Proof.
  induction s as [|c s IH]; intros cur; simpl; [discriminate|].
  destruct (Ascii.eqb c " "); [discriminate|apply IH].
Qed.

(** X5.  A name without a space (fewer than two parts) is answered with
    no trait and without any HTTP request. *)
Theorem X5_lookup_single_token `{F : Helpers.FloraAPI} (nome : string)
    (s : Helpers.Sessao) :
  Py.contains " " nome = false ->
  fst (Helpers.get_categoria_flora_brasil nome s) = Helpers.Ok None
  /\ Helpers.requisicoes (snd (Helpers.get_categoria_flora_brasil nome s))
     = Helpers.requisicoes s.
Proof.
  intros Hn. unfold Helpers.get_categoria_flora_brasil, Py.split_space.
  rewrite split_sem_espaco by exact Hn. split; reflexivity.
Qed.

Lemma X5_lookup_single_token_witness :
  @Helpers.get_categoria_flora_brasil
    (flora_constante (Helpers.Http_resposta 200 (Helpers.JArr [])))
    "Quercus" Helpers.sessao_nova
  = (Helpers.Ok None,
     {| Helpers.lifeform_cache := None; Helpers.requisicoes := [];
        Helpers.consultas := ["Quercus"] |}).
Proof.
  pose proof (@X5_lookup_single_token
                (flora_constante (Helpers.Http_resposta 200 (Helpers.JArr [])))
                "Quercus" Helpers.sessao_nova eq_refl) as [_ _].
  reflexivity.
Defined.

(** X6.  For a name whose first part is [genus], exactly one request is
    made, to the address of the genus, whatever else the name holds.  The
    lookup gives no trait, and raises nothing, when the request raises a
    request error, when the status is an error status (400 to 599, 404
    included), and when the body is not a non-empty list. *)
Theorem X6_lookup_absorbs_failures `{F : Helpers.FloraAPI}
    (genus resto : string) (s : Helpers.Sessao) :
  Py.contains " " genus = false ->
  let nome := (genus ++ " " ++ resto)%string in
  let r := Helpers.get_categoria_flora_brasil nome s in
  let d := Helpers.requests_get (length (Helpers.requisicoes s))
             (Helpers.url_flora genus) in
  Helpers.requisicoes (snd r)
  = Helpers.requisicoes s ++ [Helpers.url_flora genus]
  /\ (d = Helpers.Http_excecao -> fst r = Helpers.Ok None)
  /\ (forall status corpo,
        d = Helpers.Http_resposta status corpo ->
        400 <= status < 600 ->
        fst r = Helpers.Ok None)
  /\ (forall status corpo,
        d = Helpers.Http_resposta status corpo ->
        (forall item itens, corpo <> Helpers.JArr (item :: itens)) ->
        fst r = Helpers.Ok None).
Proof.
  intros Hg nome r d.
  assert (Hsplit : exists esp cauda,
             Py.split_space nome = genus :: esp :: cauda).
  { unfold nome, Py.split_space. rewrite split_com_espaco by exact Hg.
    destruct (Py.split_space resto) as [|esp cauda] eqn:E.
    - exfalso. apply (split_space_nao_vazio resto EmptyString). exact E.
    - exists esp, cauda. reflexivity. }
  destruct Hsplit as (esp & cauda & Hsplit).
  subst r d. unfold Helpers.get_categoria_flora_brasil. rewrite Hsplit.
  cbn [Helpers.requisicoes Helpers.consultas Helpers.lifeform_cache].
  destruct (Helpers.requests_get _ _) as [|status corpo].
  - repeat split; try reflexivity; intros; discriminate.
  - split; [|split; [|split]].
    + destruct (status =? 404); [reflexivity|].
      destruct (Helpers.raise_for_status_fails status); [reflexivity|].
      destruct corpo as [| | | |[|item itens]|]; reflexivity.
    + intros H. discriminate.
    + intros st co E Hst. injection E as <- <-.
      destruct (status =? 404); [reflexivity|].
      unfold Helpers.raise_for_status_fails.
      rewrite (proj2 (Z.leb_le 400 status)), (proj2 (Z.ltb_lt status 600))
        by lia.
      reflexivity.
    + intros st co E Hco. injection E as <- <-.
      destruct (status =? 404); [reflexivity|].
      destruct (Helpers.raise_for_status_fails status); [reflexivity|].
      destruct corpo as [| | | |[|item itens]|]; try reflexivity.
      exfalso. apply (Hco item itens). reflexivity.
Qed.

Lemma X6_lookup_absorbs_failures_witness :
  let F := flora_constante (Helpers.Http_resposta 503 Helpers.JNull) in
  let r := @Helpers.get_categoria_flora_brasil F "Panthera onca L."
             Helpers.sessao_nova in
  Helpers.requisicoes (snd r) = [Helpers.url_flora "Panthera"]
  /\ fst r = Helpers.Ok None.
Proof.
  intros F r.
  destruct (@X6_lookup_absorbs_failures F "Panthera" "onca L."
              Helpers.sessao_nova eq_refl) as (Hq & _ & Hst & _).
  split; [exact Hq|].
  apply (Hst 503 Helpers.JNull eq_refl). lia.
Defined.

Lemma all_str_map (formas : list string) :
  Helpers.all_str (map Helpers.JStr formas) = Helpers.Ok formas.
Proof.
  induction formas as [|f fs IH]; [reflexivity|]. simpl. rewrite IH.
  reflexivity.
Qed.

Lemma item_step_flora (alvo : string) (it : string * option (list string)) :
  Helpers.item_step alvo (item_flora it)
  = Helpers.Ok
      (if casa alvo it
       then Some match snd it with
                 | Some (f :: fs) => Some (Py.join ", " (f :: fs))
                 | _ => None
                 end
       else None).
Proof.
  destruct it as [nome formas]. unfold casa, item_flora. cbn [fst snd].
  unfold Helpers.item_step. cbn [Helpers.dict_get List.find fst snd
    String.eqb Ascii.eqb Bool.eqb Helpers.truthy].
  destruct (Py.str_truthy nome) eqn:Et; [|reflexivity].
  cbn [Helpers.as_str andb].
  destruct (Py.startswith nome alvo); [|reflexivity].
  destruct formas as [[|f fs]|]; try reflexivity.
  cbn [Helpers.truthy Helpers.dict_get List.find fst snd String.eqb
       Ascii.eqb Bool.eqb map Helpers.join_life_form].
  change (Helpers.JStr f :: map Helpers.JStr fs)
    with (map Helpers.JStr (f :: fs)).
  rewrite all_str_map. reflexivity.
Qed.

Lemma for_item_flora (alvo : string)
    (itens : list (string * option (list string))) :
  Helpers.for_item alvo (map item_flora itens)
  = Helpers.Ok
      match List.find (casa alvo) itens with
      | Some (_, Some (f :: fs)) => Some (Py.join ", " (f :: fs))
      | _ => None
      end.
Proof.
  induction itens as [|it itens IH]; [reflexivity|].
  cbn [map Helpers.for_item List.find]. rewrite item_step_flora.
  destruct (casa alvo it).
  - destruct it as [nome [[|f fs]|]]; reflexivity.
  - exact IH.
Qed.

(** X7.  For a well-formed answer of the trait service, the first taxon
    whose name starts with the first two parts of the queried name
    decides: its life forms joined by ", " are returned, and nothing is
    returned when it has no profile or no life form, even if a later
    taxon of the list matches too. *)
Theorem X7_lookup_first_match `{F : Helpers.FloraAPI}
    (nome genus esp : string) (cauda : list string) (s : Helpers.Sessao)
    (status : Z) (it : string * option (list string))
    (itens : list (string * option (list string))) :
  Py.split_space nome = genus :: esp :: cauda ->
  Helpers.requests_get (length (Helpers.requisicoes s)) (Helpers.url_flora genus)
  = Helpers.Http_resposta status (Helpers.JArr (map item_flora (it :: itens))) ->
  Helpers.raise_for_status_fails status = false ->
  fst (Helpers.get_categoria_flora_brasil nome s)
  = Helpers.Ok
      match List.find (casa (genus ++ " " ++ esp)) (it :: itens) with
      | Some (_, Some (f :: fs)) => Some (Py.join ", " (f :: fs))
      | _ => None
      end.
Proof.
  intros Hsplit Hreq Hst.
  unfold Helpers.get_categoria_flora_brasil. rewrite Hsplit.
  cbn [Helpers.requisicoes Helpers.consultas Helpers.lifeform_cache].
  rewrite Hreq, Hst.
  assert (H404 : (status =? 404) = false).
  { destruct (status =? 404) eqn:E; [|reflexivity].
    apply Z.eqb_eq in E. subst status. discriminate Hst. }
  rewrite H404. cbn [map fst].
  change (item_flora it :: map item_flora itens)
    with (map item_flora (it :: itens)).
  apply for_item_flora.
Qed.

Lemma X7_lookup_first_match_witness :
  let corpo :=
    Helpers.JArr (map item_flora
      [("Inga edulis Mart.", None);
       ("Inga edulis var. parviflora", Some ["Árvore"; "Arbusto"])]) in
  let F := flora_constante (Helpers.Http_resposta 200 corpo) in
  fst (@Helpers.get_categoria_flora_brasil F "Inga edulis" Helpers.sessao_nova)
  = Helpers.Ok None.
Proof.
  intros corpo F.
  exact (@X7_lookup_first_match F "Inga edulis" "Inga" "edulis" []
           Helpers.sessao_nova 200 ("Inga edulis Mart.", None)
           [("Inga edulis var. parviflora", Some ["Árvore"; "Arbusto"])]
           eq_refl eq_refl eq_refl).
Defined.

(** ** get_plant_traits *)

Section TraitsMais.
Context `{F : Helpers.FloraAPI}.
Import Helpers.

Lemma get_categoria_requisicoes (n : string) (s : Sessao) :
  (length (requisicoes s)
   <= length (requisicoes (snd (get_categoria_flora_brasil n s))))%nat
  /\ (length (requisicoes (snd (get_categoria_flora_brasil n s)))
      <= S (length (requisicoes s)))%nat.
Proof.
  unfold get_categoria_flora_brasil.
  destruct (Py.split_space n) as [|genus [|esp resto]]; simpl; try lia.
  assert (H : length (requisicoes s ++ [url_flora genus])
              = S (length (requisicoes s)))
    by (rewrite length_app; simpl; lia).
  destruct (requests_get _ _) as [|status data]; simpl; try lia.
  destruct (status =? 404); simpl; try lia.
  destruct (raise_for_status_fails status); simpl; try lia.
  destruct data as [| | | |[|item itens]|]; simpl; lia.
Qed.

Lemma fetch_one_requisicoes (s : Sessao) (n : string) :
  (length (requisicoes s) <= length (requisicoes (fetch_one s n)))%nat
  /\ (length (requisicoes (fetch_one s n)) <= S (length (requisicoes s)))%nat.
Proof.
  pose proof (get_categoria_requisicoes n s) as H.
  unfold fetch_one.
  destruct (get_categoria_flora_brasil n s) as [r s']. simpl in H.
  destruct r as [[lf|]|]; exact H.
Qed.

Lemma fold_fetch_requisicoes (l : list string) : forall s,
  (length (requisicoes s)
   <= length (requisicoes (fold_left fetch_one l s)))%nat
  /\ (length (requisicoes (fold_left fetch_one l s))
      <= length (requisicoes s) + length l)%nat.
Proof.
  induction l as [|a l IH]; intros s; cbn [fold_left length]; [lia|].
  pose proof (fetch_one_requisicoes s a). pose proof (IH (fetch_one s a)).
  lia.
Qed.

Lemma valor_em_cache_truthy (r : Exc (option string)) :
  valor_em_cache r <> ""%string.
Proof.
  destruct r as [[lf|]|]; simpl; try discriminate.
  destruct (Py.str_truthy lf) eqn:E; [|discriminate].
  apply str_truthy_iff. exact E.
Qed.

Lemma fold_fetch_sem_vazios (l : list string) : forall s,
  Forall (fun n => n <> ""%string) l ->
  cache_sem_vazios s -> cache_sem_vazios (fold_left fetch_one l s).
Proof.
  induction l as [|a l IH]; intros s Hl Hs; [exact Hs|].
  cbn [fold_left]. apply Forall_cons in Hl. destruct Hl as [Ha Hl].
  apply IH; [exact Hl|].
  intros n v. destruct (fetch_one_spec s a) as [_ Hc]. rewrite Hc.
  destruct (decide (a = n)) as [->|Hne].
  - rewrite lookup_insert_eq. intros [= <-].
    split; [exact Ha | apply valor_em_cache_truthy].
  - rewrite lookup_insert_ne by exact Hne. apply Hs.
Qed.

Lemma get_plant_traits_sem_vazios (names : list string) (s : Sessao) :
  cache_sem_vazios s -> cache_sem_vazios (snd (get_plant_traits names s)).
Proof.
  intros Hs. unfold get_plant_traits. cbn [snd].
  apply fold_fetch_sem_vazios; [|exact Hs].
  apply Forall_forall. intros n Hn. apply list_elem_of_In in Hn.
  apply names_to_fetch_spec in Hn. tauto.
Qed.

End TraitsMais.

(** X8.  The dictionary [get_plant_traits] returns has exactly the
    non-empty names of its argument as keys, and each of them carries the
    value the session cache holds for it after the call: the default of
    the final loop is never what decides. *)
Theorem X8_traits_keys_and_values `{F : Helpers.FloraAPI}
    (names : list string) (s : Helpers.Sessao) :
  let r := Helpers.get_plant_traits names s in
  (forall n, is_Some (fst r !! n) <-> In n names /\ n <> ""%string)
  /\ (forall n, In n names -> n <> ""%string ->
        exists v, fst r !! n = Some v
                  /\ Helpers.cache_of (snd r) !! n = Some v).
Proof.
  intros r.
  destruct (get_plant_traits_spec names s) as (_ & _ & _ & Ht & _).
  cbv zeta in Ht. fold r in Ht. split.
  - intros n. rewrite Ht. destruct (decide (n ∈ names /\ n <> ""%string))
      as [[Hin Hne]|Hno].
    + split; [intros _; split; [apply list_elem_of_In; exact Hin|exact Hne]
             | intros _; eauto].
    + split; [intros [x Hx]; discriminate|].
      intros [Hin Hne]. exfalso. apply Hno.
      split; [apply list_elem_of_In; exact Hin|exact Hne].
  - intros n Hin Hne.
    destruct (get_plant_traits_caches names s n Hin Hne) as [v Hv].
    fold r in Hv. exists v. split; [|exact Hv].
    rewrite Ht, decide_True, Hv; [reflexivity|].
    split; [apply list_elem_of_In; exact Hin|exact Hne].
Qed.

(** X9.  When every non-empty name of the argument is already in the
    cache, [get_plant_traits] makes no lookup and no HTTP request, leaves
    the cache as it is, and answers from it. *)
Theorem X9_traits_all_cached `{F : Helpers.FloraAPI} (names : list string)
    (s : Helpers.Sessao) :
  (forall n, In n names -> n <> ""%string ->
     is_Some (Helpers.cache_of s !! n)) ->
  let r := Helpers.get_plant_traits names s in
  Helpers.consultas (snd r) = Helpers.consultas s
  /\ Helpers.requisicoes (snd r) = Helpers.requisicoes s
  /\ Helpers.cache_of (snd r) = Helpers.cache_of s
  /\ (forall n, In n names -> n <> ""%string ->
        fst r !! n = Helpers.cache_of s !! n).
Proof.
  intros Hall r.
  assert (Hnil : Helpers.names_to_fetch names s = []).
  { destruct (Helpers.names_to_fetch names s) as [|n l] eqn:E; [reflexivity|].
    assert (Hin : In n (Helpers.names_to_fetch names s))
      by (rewrite E; left; reflexivity).
    apply names_to_fetch_spec in Hin. destruct Hin as (Hin & Hne & Hnone).
    destruct (Hall n Hin Hne) as [v Hv]. congruence. }
  assert (Hs : snd r
               = {| Helpers.lifeform_cache := Some (Helpers.cache_of s);
                    Helpers.requisicoes := Helpers.requisicoes s;
                    Helpers.consultas := Helpers.consultas s |}).
  { subst r. unfold Helpers.get_plant_traits. cbn [snd].
    change (Helpers.names_to_fetch names _)
      with (Helpers.names_to_fetch names s).
    rewrite Hnil. reflexivity. }
  rewrite Hs. split; [reflexivity|]. split; [reflexivity|].
  split; [reflexivity|].
  intros n Hin Hne.
  destruct (get_plant_traits_no_retry names s n (Hall n Hin Hne))
    as (_ & _ & Ht).
  apply Ht; assumption.
Qed.

Lemma X9_traits_all_cached_witness :
  let F := flora_roteiro [] in
  let s := snd (@Helpers.get_plant_traits F ["Panthera onca"; "Zea mays"]
                  Helpers.sessao_nova) in
  Helpers.requisicoes
    (snd (@Helpers.get_plant_traits F ["Zea mays"; ""; "Zea mays"] s))
  = Helpers.requisicoes s
  /\ Helpers.consultas
       (snd (@Helpers.get_plant_traits F ["Zea mays"; ""; "Zea mays"] s))
     = Helpers.consultas s.
Proof.
  intros F s.
  destruct (@X9_traits_all_cached F ["Zea mays"; ""; "Zea mays"] s)
    as (Hc & Hq & _).
  - intros n [<-|[<-|[<-|[]]]] Hne;
      try (exfalso; apply Hne; reflexivity);
      vm_compute; eauto.
  - split; [exact Hq|exact Hc].
Defined.

(** X10.  One call of [get_plant_traits] looks up each distinct,
    non-empty, uncached name once, so at most as many names as its
    argument holds, and makes at most one HTTP request per lookup. *)
Theorem X10_traits_lookup_budget `{F : Helpers.FloraAPI}
    (names : list string) (s : Helpers.Sessao) :
  let r := Helpers.get_plant_traits names s in
  exists novos,
    Helpers.consultas (snd r) = Helpers.consultas s ++ novos
    /\ List.NoDup novos
    /\ (forall n, In n novos
                  <-> In n names /\ n <> ""%string
                      /\ Helpers.cache_of s !! n = None)
    /\ (length novos <= length names)%nat
    /\ (length (Helpers.requisicoes s)
        <= length (Helpers.requisicoes (snd r)))%nat
    /\ (length (Helpers.requisicoes (snd r))
        <= length (Helpers.requisicoes s) + length novos)%nat.
Proof.
  intros r. exists (Helpers.names_to_fetch names s).
  destruct (get_plant_traits_spec names s) as (Hq & _).
  destruct (names_to_fetch_spec names s) as [Hnd Hl].
  cbv zeta in Hq. fold r in Hq.
  split; [exact Hq|]. split; [exact Hnd|]. split; [exact Hl|]. split.
  - apply List.NoDup_incl_length; [exact Hnd|].
    intros n Hn. apply Hl in Hn. tauto.
  - subst r. unfold Helpers.get_plant_traits. cbn [snd].
    change (Helpers.names_to_fetch names _)
      with (Helpers.names_to_fetch names s).
    apply (fold_fetch_requisicoes (Helpers.names_to_fetch names s)
             {| Helpers.lifeform_cache := Some (Helpers.cache_of s);
                Helpers.requisicoes := Helpers.requisicoes s;
                Helpers.consultas := Helpers.consultas s |}).
Qed.

(** X11.  Over a whole session, no key and no value of the trait cache
    is the empty string: a stored value is a non-empty life-form text,
    "Não categorizado" or "Erro ao buscar dados". *)
Theorem X11_cache_no_empty_strings `{F : Helpers.FloraAPI}
    (chamadas : list (list string)) (n v : string) :
  Helpers.cache_of (sessao_apos chamadas) !! n = Some v ->
  n <> ""%string /\ v <> ""%string.
Proof.
  revert n v. change (cache_sem_vazios (sessao_apos chamadas)).
  unfold sessao_apos.
  assert (Hgen : forall s, cache_sem_vazios s ->
            cache_sem_vazios
              (fold_left (fun s names => snd (Helpers.get_plant_traits names s))
                 chamadas s)).
  { induction chamadas as [|names chamadas IH]; intros s Hs; [exact Hs|].
    cbn [fold_left]. apply IH, get_plant_traits_sem_vazios, Hs. }
  apply Hgen. intros n v. unfold Helpers.cache_of. simpl.
  rewrite lookup_empty. discriminate.
Qed.

Lemma X11_cache_no_empty_strings_witness :
  let F := flora_roteiro [] in
  "Não categorizado"%string <> ""%string.
Proof.
  intros F.
  apply (@X11_cache_no_empty_strings F [["Zea mays"]] "Zea mays"
           "Não categorizado").
  vm_compute. reflexivity.
Defined.

(** ** The rows of the analysis *)

Section LinhaMais.
Context `{Gm : Geo}.
Import Analise.

Lemma sjoin_within_In (gdf_area : GeoDataFrame) (pts : list Ponto) (q : Ponto) :
  In q (sjoin_within pts gdf_area) -> In q pts.
Proof.
  unfold sjoin_within. intros H. apply in_flat_map in H.
  destruct H as (p & Hp & Hq). apply in_map_iff in Hq.
  destruct Hq as (g & <- & _). exact Hp.
Qed.

(** A row of [app.py] either has no score or has one with its
    coordinate, according to whether some record carries coordinates. *)
Lemma app_linha_casos gdf_area dmax e dados :
  (0 < dmax)%Q ->
  (forall p, (0 <= distance (unary_union gdf_area) p)%Q) ->
  let r := App.linha_da_resposta gdf_area dmax e dados in
  pontos r = pontos_de (results dados)
  /\ gbif_total_records r = default 0 (count dados)
  /\ (pontos_de (results dados) = [] ->
        sem_escore r
        /\ ocorrencia_na_regiao r
           = match results dados with
             | [] => Nao_encontrado_no_GBIF
             | _ => Dados_insuficientes
             end)
  /\ (pontos_de (results dados) <> [] -> com_escore r).
Proof.
  intros Hm Hd r.
  destruct (pontos_de (results dados)) as [|p0 resto] eqn:Hp.
  - assert (Hr : r = App.linha_sem_escore e
                       match results dados with
                       | [] => Nao_encontrado_no_GBIF
                       | _ => Dados_insuficientes
                       end (default 0 (count dados))).
    { subst r. unfold App.linha_da_resposta.
      destruct (results dados) as [|x xs]; [reflexivity|].
      rewrite Hp. reflexivity. }
    rewrite Hr. split; [reflexivity|]. split; [reflexivity|].
    split; [|congruence]. intros _. split; [|reflexivity].
    repeat split.
  - destruct (sjoin_within (p0 :: resto) gdf_area) as [|q cauda] eqn:Hs.
    + pose proof (linha_fora_app gdf_area dmax e dados p0 resto Hp Hs) as Hr.
      cbv zeta in Hr. fold r in Hr. rewrite Hr. cbn [pontos gbif_total_records].
      split; [reflexivity|]. split; [reflexivity|].
      split; [discriminate|]. intros _. split.
      * cbn [escore_proximidade].
        destruct (distancia_km_nonneg gdf_area p0 resto
                    (fun p _ => Hd p)) as [_ H0].
        pose proof (escore_intervalo (distancia_minima_km gdf_area p0 resto)
                      dmax H0). lia.
      * destruct (ponto_mais_proximo_spec (distance (unary_union gdf_area))
                    p0 resto) as (Hin & _).
        eexists. split; [exact Hin|]. split; reflexivity.
    + destruct (linha_dentro gdf_area dmax e dados p0 resto q cauda Hp Hs)
        as [Hr _].
      fold r in Hr. rewrite Hr. cbn [pontos gbif_total_records].
      split; [reflexivity|]. split; [reflexivity|].
      split; [discriminate|]. intros _. split.
      * cbn [escore_proximidade]. lia.
      * exists q. split; [|split; reflexivity].
        apply (sjoin_within_In gdf_area (p0 :: resto)).
        rewrite Hs. left. reflexivity.
Qed.

(** The row of the page is the row of [app.py] with the text of the
    page. *)
Lemma pagina_linha_app gdf_area dmax e dados :
  let a := App.linha_da_resposta gdf_area dmax e dados in
  let b := Pagina.linha_da_resposta gdf_area dmax e dados in
  especie b = especie a
  /\ escore_proximidade b = escore_proximidade a
  /\ gbif_total_records b = gbif_total_records a
  /\ longitude_ocorrencia b = longitude_ocorrencia a
  /\ latitude_ocorrencia b = latitude_ocorrencia a
  /\ pontos b = pontos a
  /\ match ocorrencia_na_regiao a, ocorrencia_na_regiao b with
     | Muito_Proxima m, Proxima km => m = F64.mul km (F64.Fin 1000)
     | Proxima k, Proxima km | Moderadamente_Proxima k, Proxima km => k = km
     | Distante k, Longe km => k = km
     | Muito_Proxima _, _ | Proxima _, _ | Moderadamente_Proxima _, _
     | Distante _, _ => False
     | ra, rb => ra = rb
     end.
Proof.
  intros a b.
  destruct (pontos_de (results dados)) as [|p0 resto] eqn:Hp.
  - subst a b. unfold App.linha_da_resposta, Pagina.linha_da_resposta.
    destruct (results dados) as [|x xs]; [repeat split|].
    rewrite Hp. repeat split.
  - destruct (sjoin_within (p0 :: resto) gdf_area) as [|q cauda] eqn:Hs.
    + pose proof (linha_fora_app gdf_area dmax e dados p0 resto Hp Hs) as Ha.
      pose proof (linha_fora_pagina gdf_area dmax e dados p0 resto Hp Hs) as Hb.
      cbv zeta in Ha, Hb. fold a in Ha. fold b in Hb. rewrite Ha, Hb.
      cbn [especie escore_proximidade gbif_total_records longitude_ocorrencia
           latitude_ocorrencia pontos ocorrencia_na_regiao].
      rewrite pagina_escore_fst.
      repeat (split; [reflexivity|]).
      unfold App.escore_por_distancia, Pagina.escore_por_distancia.
      cbv zeta.
      destruct (F64.geb _ _); [reflexivity|].
      destruct (F64.ltb _ (F64.Fin 1)); [cbn [snd]; reflexivity|].
      destruct (F64.ltb _ (F64.Fin 50)); reflexivity.
    + destruct (linha_dentro gdf_area dmax e dados p0 resto q cauda Hp Hs)
        as [Ha Hb].
      fold a in Ha, Hb. fold b in Hb. rewrite Hb, Ha. repeat split.
Qed.

End LinhaMais.

(** The two kinds of rows, in both versions. *)
Lemma linha_casos `{Gm : Geo} (gdf_area : GeoDataFrame) (dmax : Q)
    (e : string) (dados : Resposta) :
  (0 < dmax)%Q ->
  (forall p, (0 <= distance (unary_union gdf_area) p)%Q) ->
  forall r,
    r = App.linha_da_resposta gdf_area dmax e dados
    \/ r = Pagina.linha_da_resposta gdf_area dmax e dados ->
    pontos r = Analise.pontos_de (results dados)
    /\ gbif_total_records r = default 0 (count dados)
    /\ (Analise.pontos_de (results dados) = [] ->
          sem_escore r
          /\ ocorrencia_na_regiao r
             = match results dados with
               | [] => Nao_encontrado_no_GBIF
               | _ => Dados_insuficientes
               end)
    /\ (Analise.pontos_de (results dados) <> [] -> com_escore r).
Proof.
  intros Hm Hd r Hr.
  pose proof (app_linha_casos gdf_area dmax e dados Hm Hd) as Ha.
  cbv zeta in Ha.
  destruct Hr as [->| ->]; [exact Ha|].
  destruct (pagina_linha_app gdf_area dmax e dados)
    as (_ & He & Ht & Hlo & Hla & Hp & Hrot).
  destruct Ha as (Ha1 & Ha2 & Ha3 & Ha4).
  split; [congruence|]. split; [congruence|]. split.
  - intros Hnil. destruct (Ha3 Hnil) as [(H1 & H2 & H3 & H4) Hl].
    split; [unfold sem_escore; repeat split; congruence|].
    rewrite Hl in Hrot.
    destruct (results dados);
      destruct (ocorrencia_na_regiao (Pagina.linha_da_resposta _ _ _ _));
      try discriminate; try contradiction; reflexivity.
  - intros Hne. destruct (Ha4 Hne) as [Hs (q & Hq1 & Hq2 & Hq3)].
    split; [rewrite He; exact Hs|].
    exists q. rewrite Hp, Hlo, Hla. auto.
Qed.

(** X12.  In both versions of the analysis (for a positive threshold and
    a geometry library whose distances are not negative), a row either
    has the sentinel score -1, no coordinate and no point, exactly when no
    record of the answer carries both coordinates, with the text "Não
    encontrado no GBIF" for an empty answer and "Dados insuficientes"
    otherwise; or it has a score from 0 to 10 and the coordinate of one of
    its points.  The count of the answer is carried in both cases, and
    the row keeps every point that has coordinates. *)
Theorem X12_row_score_range `{Gm : Geo} (gdf_area : GeoDataFrame) (dmax : Q)
    (e : string) (dados : Resposta) :
  (0 < dmax)%Q ->
  (forall p, (0 <= distance (unary_union gdf_area) p)%Q) ->
  forall r,
    r = App.linha_da_resposta gdf_area dmax e dados
    \/ r = Pagina.linha_da_resposta gdf_area dmax e dados ->
    pontos r = Analise.pontos_de (results dados)
    /\ gbif_total_records r = default 0 (count dados)
    /\ (Analise.pontos_de (results dados) = [] ->
          sem_escore r
          /\ ocorrencia_na_regiao r
             = match results dados with
               | [] => Nao_encontrado_no_GBIF
               | _ => Dados_insuficientes
               end)
    /\ (Analise.pontos_de (results dados) <> [] -> com_escore r).
Proof. exact (linha_casos gdf_area dmax e dados). Qed.

Lemma retangulos_distancia_nonneg (g : list Retangulos.Retangulo) (p : Ponto) :
  (0 <= @distance Retangulos.geo g p)%Q.
Proof.
  assert (Hfora : forall lo hi v, (0 <= Retangulos.fora lo hi v)%Q).
  { intros lo hi v. unfold Retangulos.fora.
    destruct (Py.ltb v lo) eqn:E1; [apply ltb_true in E1; lra|].
    destruct (Py.ltb hi v) eqn:E2; [apply ltb_true in E2; lra|].
    apply Qle_refl. }
  assert (Hret : forall r, (0 <= Retangulos.distancia_ret p r)%Q).
  { intros r. unfold Retangulos.distancia_ret.
    destruct (Qeq_bool _ 0); [apply Hfora|].
    destruct (Qeq_bool _ 0); [apply Hfora|].
    unfold Retangulos.raiz, Qle. simpl. rewrite Z.mul_1_r.
    apply Z.sqrt_nonneg. }
  simpl. destruct g as [|r rs]; simpl; [apply Qle_refl|].
  pose proof (serie_min_In (map (Retangulos.distancia_ret p) rs)
                (Retangulos.distancia_ret p r)) as Hin.
  change (Retangulos.distancia_ret p r :: map (Retangulos.distancia_ret p) rs)
    with (map (Retangulos.distancia_ret p) (r :: rs)) in Hin.
  apply in_map_iff in Hin. destruct Hin as (x & <- & _). apply Hret.
Qed.

Lemma X12_row_score_range_witness :
  let dados := {| count := Some 3;
                  results := [{| decimalLongitude := Some (1 # 2);
                                 decimalLatitude := None;
                                 reg_scientificName := None |}] |} in
  let r := App.linha_da_resposta Retangulos.area_quadrado 100 "Zea mays" dados in
  escore_proximidade r = -1
  /\ ocorrencia_na_regiao r = Dados_insuficientes
  /\ gbif_total_records r = 3.
Proof.
  intros dados r.
  destruct (@X12_row_score_range Retangulos.geo Retangulos.area_quadrado 100
              "Zea mays" dados) with (r := r) as (_ & Ht & Hs & _).
  - reflexivity.
  - intros p. apply retangulos_distancia_nonneg.
  - left. reflexivity.
  - destruct (Hs eq_refl) as [(H1 & _) Hl]. auto.
Defined.

(** X13.  For every answer of the service the two versions of the
    analysis build rows that agree on the species, the score, the count,
    the coordinate and the points, and differ only in the wording of the
    distance texts. *)
Theorem X13_versions_agree `{Gm : Geo} (gdf_area : GeoDataFrame) (dmax : Q)
    (e : string) (dados : Resposta) :
  let a := App.linha_da_resposta gdf_area dmax e dados in
  let b := Pagina.linha_da_resposta gdf_area dmax e dados in
  especie b = especie a
  /\ escore_proximidade b = escore_proximidade a
  /\ gbif_total_records b = gbif_total_records a
  /\ longitude_ocorrencia b = longitude_ocorrencia a
  /\ latitude_ocorrencia b = latitude_ocorrencia a
  /\ pontos b = pontos a
  /\ mesmo_texto (ocorrencia_na_regiao a) (ocorrencia_na_regiao b).
Proof.
  intros a b.
  destruct (pagina_linha_app gdf_area dmax e dados)
    as (H1 & H2 & H3 & H4 & H5 & H6 & Hrot).
  fold a b in H1, H2, H3, H4, H5, H6, Hrot.
  repeat (split; [assumption|]).
  unfold mesmo_texto.
  destruct (ocorrencia_na_regiao a); destruct (ocorrencia_na_regiao b);
    exact Hrot.
Qed.

(** ** Calls made by the batch *)

Section Chamadas.
Context `{G : GBIF} `{Gm : Geo}.

Lemma app_passo_buscas gdf_area dmax grupo total i e w :
  buscas (snd (App.analisar_especie gdf_area dmax grupo total i e w))
  = buscas w ++ [Analise.search_params e grupo].
Proof.
  unfold App.analisar_especie, bind, emit, do_search, ret.
  destruct (occ_search _ _); cbn [snd];
    rewrite !buscas_snoc; simpl; rewrite ?app_nil_r; reflexivity.
Qed.

Lemma pagina_passo_buscas gdf_area dmax grupo total i e w :
  exists k : nat,
    (1 <= k <= Helpers.max_retries_default)%nat
    /\ buscas (snd (Pagina.analisar_especie gdf_area dmax grupo total i e w))
       = buscas w ++ repeat (Analise.search_params e grupo) k.
Proof.
  unfold Pagina.analisar_especie, bind, emit, ret.
  destruct (search_gbif_geral (Analise.search_params e grupo)
              Helpers.max_retries_default
              (w ++ [Ev_status e (i + 1) total])) as (k & Hk & Hb & _ & Hres).
  cbv zeta in Hb, Hres. rewrite buscas_snoc in Hb. simpl in Hb.
  rewrite app_nil_r in Hb.
  destruct (Helpers.search_gbif_with_retries _ _ _) as [[r|] w'];
    cbn [fst snd] in *.
  - exists k. destruct Hres as (H1 & _). split; [lia|].
    rewrite buscas_snoc, Hb. simpl. rewrite app_nil_r. reflexivity.
  - exists k. split; [|exact Hb].
    destruct Hres as (_ & [(-> & _)|(H1 & _)]);
      unfold Helpers.max_retries_default in *; lia.
Qed.

Lemma laco_snd (passo : nat -> string -> M Resultado) i e l w :
  snd (laco passo i (e :: l) [] w)
  = snd (laco passo (S i) l [] (snd (passo i e w))).
Proof. rewrite laco_cons. reflexivity. Qed.

End Chamadas.

(** X14.  [app.py] calls the service exactly once per species, in the
    order of the input and with the arguments of that species, whatever
    the calls return; the page calls it from 1 to 4 times per species. *)
Theorem X14_calls_per_species `{G : GBIF} `{Gm : Geo} (gdf_area : GeoDataFrame)
    (dmax : Q) (grupo : option string) (especies : list string) (w : Mundo) :
  let app :=
    App.analisar_ocorrencia_especies (Some especies) gdf_area dmax grupo w in
  let pag :=
    Pagina.analisar_ocorrencia_especies (Some especies) gdf_area dmax grupo w in
  buscas (snd app)
  = buscas w ++ map (fun e => Analise.search_params e grupo) especies
  /\ (exists ks : list nat,
        length ks = length especies
        /\ Forall (fun k => (1 <= k <= 4)%nat) ks
        /\ buscas (snd pag)
           = buscas w
             ++ concat (map (fun ek => repeat (Analise.search_params (fst ek) grupo)
                                         (snd ek))
                          (combine especies ks))).
Proof.
  intros app pag. split.
  - subst app. unfold App.analisar_ocorrencia_especies, bind, emit, ret.
    rewrite app_for_especie_laco.
    set (pa := App.analisar_especie gdf_area dmax grupo (length especies)).
    assert (H : forall l i w0,
              buscas (snd (laco pa i l [] w0))
              = buscas w0 ++ map (fun e => Analise.search_params e grupo) l).
    { induction l as [|e l IH]; intros i w0.
      - simpl. rewrite app_nil_r. reflexivity.
      - rewrite laco_snd, IH. unfold pa at 1. rewrite app_passo_buscas.
        rewrite <- app_assoc. reflexivity. }
    specialize (H especies 0%nat w).
    destruct (laco pa 0 especies [] w) as [rs w']. cbn [snd] in *.
    rewrite buscas_snoc, H. simpl. rewrite app_nil_r. reflexivity.
  - subst pag. unfold Pagina.analisar_ocorrencia_especies, bind, emit, ret.
    rewrite pagina_for_especie_laco.
    set (pp := Pagina.analisar_especie gdf_area dmax grupo (length especies)).
    assert (H : forall l i w0,
              exists ks : list nat,
                length ks = length l
                /\ Forall (fun k => (1 <= k <= 4)%nat) ks
                /\ buscas (snd (laco pp i l [] w0))
                   = buscas w0
                     ++ concat (map (fun ek =>
                                       repeat (Analise.search_params (fst ek) grupo)
                                         (snd ek))
                                  (combine l ks))).
    { induction l as [|e l IH]; intros i w0.
      - exists []. simpl. rewrite app_nil_r. repeat split. constructor.
      - destruct (pagina_passo_buscas gdf_area dmax grupo (length especies)
                    i e w0) as (k & Hk & Hb).
        fold pp in Hb.
        destruct (IH (S i) (snd (pp i e w0))) as (ks & Hl & Hf & Hbs).
        exists (k :: ks). split; [simpl; lia|]. split.
        + constructor; [exact Hk | exact Hf].
        + rewrite laco_snd, Hbs, Hb. simpl. rewrite <- app_assoc.
          reflexivity. }
    destruct (H especies 0%nat w) as (ks & Hl & Hf & Hb).
    exists ks. split; [exact Hl|]. split; [exact Hf|].
    destruct (laco pp 0 especies [] w) as [rs w']. cbn [snd] in *.
    rewrite buscas_snoc, Hb. simpl. rewrite app_nil_r. reflexivity.
Qed.

(** ** The final table *)

Lemma filter_especie_count (rs : list Resultado) (nome : string) :
  length (List.filter (fun r => String.eqb (especie r) nome) rs)
  = count_occ String.string_dec (map especie rs) nome.
Proof.
  induction rs as [|r rs IH]; [reflexivity|]. simpl.
  destruct (String.eqb_spec (especie r) nome) as [E|NE].
  - rewrite E. destruct (String.string_dec nome nome); [|congruence].
    simpl. rewrite IH. reflexivity.
  - destruct (String.string_dec (especie r) nome); [congruence|]. exact IH.
Qed.

Lemma merge_left_length (especies : list string) (rs : list Resultado) :
  (forall n, In n especies -> In n (map especie rs)) ->
  length (Tabela.merge_left especies rs)
  = list_sum (map (count_occ String.string_dec (map especie rs)) especies).
Proof.
  unfold Tabela.merge_left.
  induction especies as [|n especies IH]; intros Hin; [reflexivity|].
  cbn [flat_map]. rewrite length_app, IH.
  2:{ intros m Hm. apply Hin. right. exact Hm. }
  change (list_sum (map (count_occ String.string_dec (map especie rs))
                      (n :: especies)))
    with (count_occ String.string_dec (map especie rs) n
          + list_sum (map (count_occ String.string_dec (map especie rs))
                        especies))%nat.
  f_equal.
  pose proof (filter_especie_count rs n) as Hc.
  assert (Hpos : (0 < count_occ String.string_dec (map especie rs) n)%nat).
  { apply count_occ_In. apply Hin. left. reflexivity. }
  destruct (List.filter _ rs) as [|r iguais].
  - simpl in Hc. lia.
  - rewrite length_map. exact Hc.
Qed.

Lemma merge_left_skip (especies : list string) (r : Resultado)
    (rs : list Resultado) :
  ~ In (especie r) especies ->
  Tabela.merge_left especies (r :: rs) = Tabela.merge_left especies rs.
Proof.
  unfold Tabela.merge_left.
  induction especies as [|n especies IH]; intros Hn; [reflexivity|].
  cbn [flat_map]. rewrite IH by (intros H; apply Hn; right; exact H).
  f_equal. cbn [List.filter].
  destruct (String.eqb_spec (especie r) n) as [E|NE]; [|reflexivity].
  exfalso. apply Hn. left. symmetry. exact E.
Qed.

Lemma merge_left_nodup (rs : list Resultado) :
  List.NoDup (map especie rs) ->
  Tabela.merge_left (map especie rs) rs = map linha_final rs.
Proof.
  induction rs as [|r rs IH]; intros Hnd; [reflexivity|].
  cbn [map] in *. apply List.NoDup_cons_iff in Hnd. destruct Hnd as [Hr Hnd].
  change (Tabela.merge_left (especie r :: map especie rs) (r :: rs))
    with ((match List.filter (fun x => String.eqb (especie x) (especie r))
                   (r :: rs) with
           | [] => [{| Tabela.lf_scientificName := especie r;
                       Tabela.lf_resultado := None |}]
           | iguais =>
               map (fun x => {| Tabela.lf_scientificName := especie r;
                                Tabela.lf_resultado :=
                                  Some (Tabela.drop_pontos x) |}) iguais
           end)
          ++ Tabela.merge_left (map especie rs) (r :: rs)).
  rewrite merge_left_skip by exact Hr. rewrite IH by exact Hnd.
  cbn [List.filter]. rewrite String.eqb_refl.
  assert (Hnil : List.filter (fun x => String.eqb (especie x) (especie r)) rs
                 = []).
  { pose proof (filter_especie_count rs (especie r)) as Hc.
    rewrite (proj1 (count_occ_not_In String.string_dec _ _) Hr) in Hc.
    destruct (List.filter _ rs); [reflexivity|discriminate]. }
  rewrite Hnil. reflexivity.
Qed.

Lemma list_sum_ge_length (f : string -> nat) (l : list string) :
  (forall n, In n l -> (1 <= f n)%nat) ->
  (length l <= list_sum (map f l))%nat.
Proof.
  induction l as [|a l IH]; intros H; [simpl; lia|].
  cbn [map length].
  change (list_sum (f a :: map f l)) with (f a + list_sum (map f l))%nat.
  pose proof (H a (or_introl eq_refl)).
  pose proof (IH (fun n Hn => H n (or_intror Hn))). lia.
Qed.

Section TabelaFinal.
Context `{G : GBIF} `{Gm : Geo}.

Lemma pagina_especies gdf_area dmax grupo (especies : list string) w :
  map especie
    (fst (Pagina.analisar_ocorrencia_especies (Some especies) gdf_area dmax
            grupo w))
  = especies.
Proof.
  unfold Pagina.analisar_ocorrencia_especies, bind, emit, ret.
  rewrite pagina_for_especie_laco.
  pose proof (laco_especies
                (Pagina.analisar_especie gdf_area dmax grupo (length especies))
                (fun i e w0 => pagina_passo_especie _ _ _ _ i e w0)
                especies 0 w) as H.
  destruct (laco _ 0 especies [] w) as [rs w']. exact H.
Qed.

End TabelaFinal.

(** X15.  The final table of the page is the left merge of the input
    names with the rows of the analysis.  Each input name meets every row
    of that name, so a name given k times takes k * k rows: the table has
    the sum over the input rows of the number of times their name occurs,
    never fewer rows than the input, and no row without a result.  When
    the names are all different the table is the rows of the analysis, one
    per name, in order. *)
Theorem X15_final_table `{G : GBIF} `{Gm : Geo} (gdf_area : GeoDataFrame)
    (dmax : Q) (grupo : option string) (especies : list string) (w : Mundo) :
  let df_resultados :=
    fst (Pagina.analisar_ocorrencia_especies (Some especies) gdf_area dmax
           grupo w) in
  let df_final := Tabela.merge_left especies df_resultados in
  length df_final
  = list_sum (map (count_occ String.string_dec especies) especies)
  /\ (length especies <= length df_final)%nat
  /\ Forall (fun l => is_Some (Tabela.lf_resultado l)) df_final
  /\ (List.NoDup especies ->
        df_final = map linha_final df_resultados
        /\ length df_final = length especies).
Proof.
  intros rs df_final.
  pose proof (pagina_especies gdf_area dmax grupo especies w) as He.
  fold rs in He.
  assert (Hlen : length df_final
                 = list_sum (map (count_occ String.string_dec especies)
                               especies)).
  { unfold df_final. rewrite merge_left_length; rewrite He; auto. }
  split; [exact Hlen|]. split; [|split].
  - rewrite Hlen. apply list_sum_ge_length.
    intros n Hn. apply count_occ_In. exact Hn.
  - unfold df_final, Tabela.merge_left. apply Forall_forall. intros l Hl.
    apply list_elem_of_In, in_flat_map in Hl. destruct Hl as (n & Hn & Hl).
    pose proof (filter_especie_count rs n) as Hc. rewrite He in Hc.
    assert (Hpos : (0 < count_occ String.string_dec especies n)%nat)
      by (apply count_occ_In; exact Hn).
    destruct (List.filter _ rs) as [|r iguais]; [simpl in Hc; lia|].
    apply in_map_iff in Hl. destruct Hl as (x & <- & _). simpl. eauto.
  - intros Hnd. assert (E : df_final = map linha_final rs).
    { unfold df_final. rewrite <- He at 1. apply merge_left_nodup.
      rewrite He. exact Hnd. }
    split; [exact E|]. rewrite E, length_map.
    rewrite <- (length_map especie rs), He. reflexivity.
Qed.

Lemma X15_final_table_witness :
  let G := gbif_roteiro [] in
  length
    (Tabela.merge_left ["Zea mays"; "Zea mays"]
       (fst (@Pagina.analisar_ocorrencia_especies G Retangulos.geo
               (Some ["Zea mays"; "Zea mays"]) Retangulos.area_quadrado 100
               None [])))
  = 4%nat
  /\ length
       (Tabela.merge_left ["Zea mays"; "Inga edulis"]
          (fst (@Pagina.analisar_ocorrencia_especies G Retangulos.geo
                  (Some ["Zea mays"; "Inga edulis"]) Retangulos.area_quadrado
                  100 None [])))
     = 2%nat.
Proof.
  intros G. split.
  - destruct (@X15_final_table G Retangulos.geo Retangulos.area_quadrado 100
                None ["Zea mays"; "Zea mays"] []) as (H & _).
    rewrite H. reflexivity.
  - destruct (@X15_final_table G Retangulos.geo Retangulos.area_quadrado 100
                None ["Zea mays"; "Inga edulis"] []) as (_ & _ & _ & H).
    destruct H as [_ H]; [|exact H].
    repeat constructor; simpl; intuition discriminate.
Defined.

(** ** Rows of a whole run *)

Lemma laco_Forall (P : Resultado -> Prop) (passo : nat -> string -> M Resultado) :
  (forall i e w, P (fst (passo i e w))) ->
  forall l i w, Forall P (fst (laco passo i l [] w)).
Proof.
  intros HP. induction l as [|e l IH]; intros i w.
  - constructor.
  - rewrite laco_cons. cbn [fst]. constructor; [apply HP | apply IH].
Qed.

Section LinhasDoLote.
Context `{G : GBIF} `{Gm : Geo}.
Variable gdf_area : GeoDataFrame.
Variable dmax : Q.
Hypothesis dmax_pos : (0 < dmax)%Q.
Hypothesis distance_nonneg :
  forall p, (0 <= distance (unary_union gdf_area) p)%Q.

Lemma linha_sem_ou_com e dados r :
  r = App.linha_da_resposta gdf_area dmax e dados
  \/ r = Pagina.linha_da_resposta gdf_area dmax e dados ->
  sem_escore r \/ com_escore r.
Proof.
  intros Hr.
  destruct (linha_casos gdf_area dmax e dados dmax_pos distance_nonneg r Hr)
    as (_ & _ & Hs & Hc).
  destruct (Analise.pontos_de (results dados)) as [|p0 resto].
  - left. apply Hs. reflexivity.
  - right. apply Hc. discriminate.
Qed.

Lemma pagina_passo_casos grupo total i e w :
  let r := fst (Pagina.analisar_especie gdf_area dmax grupo total i e w) in
  sem_escore r \/ com_escore r.
Proof.
  unfold Pagina.analisar_especie, bind, emit, ret.
  destruct (Helpers.search_gbif_with_retries _ _ _) as [[dados|] w'];
    cbn [fst].
  - apply (linha_sem_ou_com e dados). right. reflexivity.
  - left. repeat split.
Qed.

Lemma app_passo_casos grupo total i e w :
  let r := fst (App.analisar_especie gdf_area dmax grupo total i e w) in
  sem_escore r \/ com_escore r.
Proof.
  unfold App.analisar_especie, bind, emit, do_search, ret.
  destruct (occ_search _ _) as [dados|m]; cbn [fst].
  - apply (linha_sem_ou_com e dados). left. reflexivity.
  - left. repeat split.
Qed.

Lemma pagina_linhas_casos grupo (especies : list string) w :
  Forall (fun r => sem_escore r \/ com_escore r)
    (fst (Pagina.analisar_ocorrencia_especies (Some especies) gdf_area dmax
            grupo w)).
Proof.
  unfold Pagina.analisar_ocorrencia_especies, bind, emit, ret.
  rewrite pagina_for_especie_laco.
  pose proof (laco_Forall (fun r => sem_escore r \/ com_escore r)
                (Pagina.analisar_especie gdf_area dmax grupo (length especies))
                (fun i e w0 => pagina_passo_casos grupo _ i e w0)
                especies 0%nat w) as H.
  destruct (laco _ 0%nat especies [] w) as [rs w']. exact H.
Qed.

Lemma app_linhas_casos grupo (especies : list string) w :
  exists rs,
    fst (App.analisar_ocorrencia_especies (Some especies) gdf_area dmax
           grupo w) = Some rs
    /\ Forall (fun r => sem_escore r \/ com_escore r) rs.
Proof.
  unfold App.analisar_ocorrencia_especies, bind, emit, ret.
  rewrite app_for_especie_laco.
  pose proof (laco_Forall (fun r => sem_escore r \/ com_escore r)
                (App.analisar_especie gdf_area dmax grupo (length especies))
                (fun i e w0 => app_passo_casos grupo _ i e w0)
                especies 0%nat w) as H.
  destruct (laco _ 0%nat especies [] w) as [rs w']. exists rs. auto.
Qed.

End LinhasDoLote.

Lemma sem_ou_com_pontos (r : Resultado) :
  sem_escore r \/ com_escore r ->
  com_pontos r = negb (escore_proximidade r =? -1)
  /\ match longitude_ocorrencia r, latitude_ocorrencia r with
     | Some _, Some _ => true
     | _, _ => false
     end = negb (escore_proximidade r =? -1).
Proof.
  unfold com_pontos.
  intros [(H1 & H2 & H3 & H4)|((H0 & H10) & q & Hq & Hlo & Hla)].
  - rewrite H1, H2, H4. split; reflexivity.
  - rewrite Hlo, Hla.
    assert (E : (escore_proximidade r =? -1) = false)
      by (apply Z.eqb_neq; lia).
    rewrite E. destruct (pontos r); [destruct Hq|]. split; reflexivity.
Qed.

(** X16.  The rows exported to GeoJSON, those of the final table with
    both coordinates, are exactly its rows with a score other than -1
    (for a positive threshold and distances that are not negative). *)
Theorem X16_export_rows `{G : GBIF} `{Gm : Geo} (gdf_area : GeoDataFrame)
    (dmax : Q) (grupo : option string) (especies : list string) (w : Mundo) :
  (0 < dmax)%Q ->
  (forall p, (0 <= distance (unary_union gdf_area) p)%Q) ->
  let df_resultados :=
    fst (Pagina.analisar_ocorrencia_especies (Some especies) gdf_area dmax
           grupo w) in
  let df_final := Tabela.merge_left especies df_resultados in
  Tabela.dropna_coordenadas df_final = List.filter tem_escore df_final.
Proof.
  intros Hm Hd rs df_final.
  pose proof (pagina_linhas_casos gdf_area dmax Hm Hd grupo especies w) as Hall.
  fold rs in Hall.
  unfold Tabela.dropna_coordenadas. apply List.filter_ext_in.
  intros l Hl. unfold df_final, Tabela.merge_left in Hl.
  apply in_flat_map in Hl. destruct Hl as (n & _ & Hl).
  destruct (List.filter (fun r => String.eqb (especie r) n) rs)
    as [|r0 iguais] eqn:Hf.
  - destruct Hl as [<-|[]]. reflexivity.
  - apply in_map_iff in Hl. destruct Hl as (r & <- & Hr).
    assert (Hin : In r rs).
    { rewrite <- Hf in Hr. apply List.filter_In in Hr. tauto. }
    rewrite Forall_forall in Hall.
    destruct (sem_ou_com_pontos r (Hall r (proj2 (list_elem_of_In _ _) Hin)))
      as [_ H].
    unfold tem_escore. simpl. exact H.
Qed.

Lemma X16_export_rows_witness :
  let G := gbif_roteiro [Retorna (resposta_com [registro_em (1 # 2) (1 # 2)])] in
  map Tabela.lf_scientificName
    (Tabela.dropna_coordenadas
       (Tabela.merge_left ["Zea mays"; "Inga edulis"]
          (fst (@Pagina.analisar_ocorrencia_especies G Retangulos.geo
                  (Some ["Zea mays"; "Inga edulis"]) Retangulos.area_quadrado
                  100 None []))))
  = ["Zea mays"].
Proof.
  intros G.
  rewrite (@X16_export_rows G Retangulos.geo Retangulos.area_quadrado 100 None
             ["Zea mays"; "Inga edulis"] []).
  - reflexivity.
  - reflexivity.
  - intros p. apply retangulos_distancia_nonneg.
Defined.

(** ** The species layers of the map *)

Lemma grupos_app_spec (df : list Resultado) : forall c k r,
  List.filter com_pontos df !! k = Some r ->
  exists g,
    Mapa.grupos_app df c !! k = Some g
    /\ Mapa.grupo_especie g = especie r
    /\ Mapa.grupo_rotulo g = ocorrencia_na_regiao r
    /\ map Mapa.location (Mapa.marcadores g)
       = map (fun p => (ponto_y p, ponto_x p)) (pontos r)
    /\ Forall (fun m => Mapa.color m
                        = nth ((c + k) mod 6) Mapa.cores ""%string)
         (Mapa.marcadores g).
Proof.
  induction df as [|linha df IH]; intros c k r Hk; [discriminate|].
  cbn [List.filter Mapa.grupos_app] in *. unfold com_pontos in Hk at 1.
  destruct (pontos linha) as [|p ps] eqn:Hp.
  - apply IH. exact Hk.
  - destruct k as [|k].
    + injection Hk as <-. eexists. split; [reflexivity|].
      cbn [Mapa.grupo_especie Mapa.grupo_rotulo Mapa.marcadores].
      rewrite Hp, map_map, Nat.add_0_r. cbn [Mapa.location].
      repeat split.
      apply Forall_forall. intros m Hm.
      apply list_elem_of_In, in_map_iff in Hm.
      destruct Hm as (x & <- & _). reflexivity.
    + destruct (IH (S c) k r Hk) as (g & Hg & H1 & H2 & H3 & H4).
      exists g. split; [exact Hg|]. repeat (split; [assumption|]).
      replace (c + S k)%nat with (S c + k)%nat by lia. exact H4.
Qed.

Lemma grupos_app_especies (df : list Resultado) : forall c,
  map Mapa.grupo_especie (Mapa.grupos_app df c)
  = map especie (List.filter com_pontos df).
Proof.
  induction df as [|linha df IH]; intros c; [reflexivity|].
  cbn [List.filter Mapa.grupos_app]. unfold com_pontos at 1.
  destruct (pontos linha); [apply IH|].
  cbn [map Mapa.grupo_especie]. rewrite IH. reflexivity.
Qed.

(** X17.  In the map of [app.py] the species that have points get one
    layer each, in the order of the table; the k-th of them (from 0) has
    all its markers in the colour number k mod 6 of the palette, so rows
    without points use up no colour; each marker stands at the latitude
    and longitude of a point of the row, in that order. *)
Theorem X17_map_layers (df_resultados : list Resultado) (k : nat)
    (r : Resultado) :
  List.filter com_pontos df_resultados !! k = Some r ->
  length (Mapa.grupos_app df_resultados 0)
  = length (List.filter com_pontos df_resultados)
  /\ exists g,
       Mapa.grupos_app df_resultados 0 !! k = Some g
       /\ Mapa.grupo_especie g = especie r
       /\ Mapa.grupo_rotulo g = ocorrencia_na_regiao r
       /\ map Mapa.location (Mapa.marcadores g)
          = map (fun p => (ponto_y p, ponto_x p)) (pontos r)
       /\ Forall (fun m => Mapa.color m = nth (k mod 6) Mapa.cores ""%string)
            (Mapa.marcadores g).
Proof.
  intros Hk. split.
  - rewrite <- (length_map Mapa.grupo_especie), grupos_app_especies,
      length_map. reflexivity.
  - exact (grupos_app_spec df_resultados 0 k r Hk).
Qed.

Lemma X17_map_layers_witness :
  let com e := {| especie := e; ocorrencia_na_regiao := Dentro_da_area 1;
                  escore_proximidade := 10; gbif_total_records := 1;
                  longitude_ocorrencia := Some 3%Q;
                  latitude_ocorrencia := Some 4%Q;
                  pontos := [{| ponto_x := 3; ponto_y := 4 |}] |} in
  let sem := App.linha_sem_escore "x" Nao_encontrado_no_GBIF 0 in
  let df := [com "a"; sem; com "b"; com "c"; com "d"; com "e"; com "f";
             sem; com "g"] in
  exists g,
    Mapa.grupos_app df 0 !! 6%nat = Some g
    /\ Mapa.grupo_especie g = "g"%string
    /\ map Mapa.location (Mapa.marcadores g) = [(4%Q, 3%Q)]
    /\ Forall (fun m => Mapa.color m = "#FF5733"%string) (Mapa.marcadores g).
Proof.
  intros com sem df.
  destruct (X17_map_layers df 6 (com "g") eq_refl)
    as (_ & g & Hg & H1 & _ & H3 & H4).
  exists g. split; [exact Hg|]. split; [exact H1|]. split; [exact H3|exact H4].
Defined.

(** X18.  The map of the page and the map of [app.py] show the same
    species layers with the same texts and, marker by marker, the same
    positions and popups, every marker being filled.  The markers differ
    in four arguments: the colour (always "#FF5733" on the page, taken
    from the palette in [app.py]), the radius (4 on the page, 5 in
    [app.py]), the fill colour (not passed on the page, the colour of the
    marker in [app.py]) and the fill opacity (0.6 on the page, 0.7 in
    [app.py]). *)
Theorem X18_maps_agree (df_resultados : list Resultado) (cor_idx : nat) :
  map (fun g => (Mapa.grupo_especie g, Mapa.grupo_rotulo g,
                 map (fun m => (Mapa.location m, Mapa.popup m, Mapa.fill m))
                   (Mapa.marcadores g)))
    (Mapa.grupos_pagina df_resultados)
  = map (fun g => (Mapa.grupo_especie g, Mapa.grupo_rotulo g,
                   map (fun m => (Mapa.location m, Mapa.popup m, Mapa.fill m))
                     (Mapa.marcadores g)))
      (Mapa.grupos_app df_resultados cor_idx)
  /\ Forall (fun g => Forall (fun m => Mapa.color m = "#FF5733"%string
                                       /\ Mapa.radius m = 4
                                       /\ Mapa.fill m = true
                                       /\ Mapa.fill_color m = None
                                       /\ Mapa.fill_opacity m
                                          = F64.lit (6 # 10))
                        (Mapa.marcadores g))
       (Mapa.grupos_pagina df_resultados)
  /\ Forall (fun g => Forall (fun m => Mapa.radius m = 5
                                       /\ Mapa.fill m = true
                                       /\ Mapa.fill_color m
                                          = Some (Mapa.color m)
                                       /\ Mapa.fill_opacity m
                                          = F64.lit (7 # 10))
                        (Mapa.marcadores g))
       (Mapa.grupos_app df_resultados cor_idx)
  /\ F64.lit (6 # 10) <> F64.lit (7 # 10).
Proof.
  assert (Hop : F64.lit (6 # 10) <> F64.lit (7 # 10))
    by (vm_compute; discriminate).
  revert cor_idx.
  induction df_resultados as [|linha df IH]; intros c.
  - repeat split; try constructor. exact Hop.
  - cbn [Mapa.grupos_pagina Mapa.grupos_app].
    destruct (pontos linha) as [|p ps] eqn:Hp; [apply IH|].
    destruct (IH (S c)) as (H1 & H2 & H3 & _).
    split; [|split; [|split; [|exact Hop]]].
    + cbn [map Mapa.grupo_especie Mapa.grupo_rotulo Mapa.marcadores].
      rewrite H1, !map_map. reflexivity.
    + constructor; [|exact H2]. cbn [Mapa.marcadores].
      apply Forall_forall. intros m Hm.
      apply list_elem_of_In, in_map_iff in Hm.
      destruct Hm as (x & <- & _). repeat split.
    + constructor; [|exact H3]. cbn [Mapa.marcadores].
      apply Forall_forall. intros m Hm.
      apply list_elem_of_In, in_map_iff in Hm.
      destruct Hm as (x & <- & _). repeat split.
Qed.

Lemma grupos_pagina_especies (df : list Resultado) :
  map Mapa.grupo_especie (Mapa.grupos_pagina df)
  = map especie (List.filter com_pontos df).
Proof.
  induction df as [|linha df IH]; [reflexivity|].
  cbn [List.filter Mapa.grupos_pagina]. unfold com_pontos at 1.
  destruct (pontos linha); [apply IH|].
  cbn [map Mapa.grupo_especie]. rewrite IH. reflexivity.
Qed.

(** X19.  The species drawn on the map of the page are exactly the
    species of the analysis whose row has a score other than -1, in the
    order of the input (for a positive threshold and distances that are
    not negative). *)
Theorem X19_map_shows_scored_species `{G : GBIF} `{Gm : Geo}
    (gdf_area : GeoDataFrame) (dmax : Q) (grupo : option string)
    (especies : list string) (w : Mundo) :
  (0 < dmax)%Q ->
  (forall p, (0 <= distance (unary_union gdf_area) p)%Q) ->
  let df_resultados :=
    fst (Pagina.analisar_ocorrencia_especies (Some especies) gdf_area dmax
           grupo w) in
  map Mapa.grupo_especie (Mapa.grupos_pagina df_resultados)
  = map especie
      (List.filter (fun r => negb (escore_proximidade r =? -1)) df_resultados).
Proof.
  intros Hm Hd rs.
  pose proof (pagina_linhas_casos gdf_area dmax Hm Hd grupo especies w) as Hall.
  fold rs in Hall. rewrite grupos_pagina_especies. f_equal.
  apply List.filter_ext_in. intros r Hr.
  rewrite Forall_forall in Hall.
  apply (sem_ou_com_pontos r (Hall r (proj2 (list_elem_of_In _ _) Hr))).
Qed.

Lemma X19_map_shows_scored_species_witness :
  let G := gbif_roteiro [Levanta "400 Bad Request";
                         Retorna (resposta_com [registro_em 3 (1 # 2)])] in
  map Mapa.grupo_especie
    (Mapa.grupos_pagina
       (fst (@Pagina.analisar_ocorrencia_especies G Retangulos.geo
               (Some ["Zea mays"; "Inga edulis"]) Retangulos.area_quadrado
               100 None [])))
  = ["Inga edulis"].
Proof.
  intros G.
  rewrite (@X19_map_shows_scored_species G Retangulos.geo
             Retangulos.area_quadrado 100 None ["Zea mays"; "Inga edulis"] []).
  - reflexivity.
  - reflexivity.
  - intros p. apply retangulos_distancia_nonneg.
Defined.

(** ** Choice of the .shp file *)

Lemma endswith_spec (suf : string) : forall s,
  PyMais.endswith s suf = true <-> exists pre, s = (pre ++ suf)%string.
Proof.
  intros s. split.
  - induction s as [|c s IH]; cbn [PyMais.endswith]; intros H;
      apply orb_true_iff in H; destruct H as [H|H].
    + apply String.eqb_eq in H. exists ""%string. exact H.
    + discriminate.
    + apply String.eqb_eq in H. exists ""%string. exact H.
    + destruct (IH H) as [pre ->]. exists (String c pre). reflexivity.
  - intros [pre ->]. induction pre as [|c pre IH].
    + change (""%string ++ suf)%string with suf.
      destruct suf; cbn [PyMais.endswith]; rewrite String.eqb_refl;
        reflexivity.
    + change (String c pre ++ suf)%string with (String c (pre ++ suf)%string).
      cbn [PyMais.endswith]. rewrite IH. apply orb_true_r.
Qed.

Lemma shp_nao_xml (s : string) :
  PyMais.endswith s ".shp" = true -> PyMais.endswith s ".xml" = false.
Proof.
  induction s as [|c s IH]; cbn [PyMais.endswith]; intros H;
    apply orb_true_iff in H; destruct H as [H|H]; try discriminate.
  - apply String.eqb_eq in H. injection H as -> ->. reflexivity.
  - rewrite (IH H), orb_false_r. apply String.eqb_neq. intros E.
    injection E as _ Es. rewrite Es in H. discriminate.
Qed.

(** X20.  The two versions of [processar_shapefile_zip] pick the same
    file of the archive: the first entry of the listing whose name ends
    in ".shp" (the extra test of [app.py] against ".xml" never decides),
    joined to the directory; none is picked exactly when no name ends in
    ".shp". *)
Theorem X20_shapefile_choice (tempdir : string) (arquivos : list string) :
  Shapefile.shp_path_app tempdir arquivos
  = Shapefile.shp_path_helpers tempdir arquivos
  /\ (Shapefile.shp_path_helpers tempdir arquivos = None
      <-> Forall (fun f => ~ exists pre, f = (pre ++ ".shp")%string) arquivos)
  /\ (forall p, Shapefile.shp_path_helpers tempdir arquivos = Some p ->
        exists antes f pre depois,
          arquivos = antes ++ f :: depois
          /\ f = (pre ++ ".shp")%string
          /\ Forall (fun g => ~ exists pre', g = (pre' ++ ".shp")%string) antes
          /\ p = (tempdir ++ "/" ++ f)%string).
Proof.
  unfold Shapefile.shp_path_helpers.
  induction arquivos as [|f l (IH1 & IH2 & IH3)].
  - split; [reflexivity|]. split; [split; [constructor|reflexivity]|].
    intros p H. discriminate.
  - cbn [Shapefile.shp_path_app List.filter].
    destruct (PyMais.endswith f ".shp") eqn:E.
    + rewrite (shp_nao_xml f E). cbn [negb andb map hd_error].
      split; [reflexivity|]. split.
      * split; [discriminate|]. intros H. apply Forall_cons in H.
        destruct H as [H _]. exfalso. apply H. apply endswith_spec. exact E.
      * intros p Hp. injection Hp as <-.
        apply endswith_spec in E. destruct E as [pre E].
        exists [], f, pre, l. repeat split; [exact E|constructor].
    + cbn [andb]. split; [exact IH1|].
      assert (Hf : ~ exists pre, f = (pre ++ ".shp")%string).
      { intros H. apply endswith_spec in H. congruence. }
      split.
      * rewrite IH2. split.
        -- intros H. constructor; assumption.
        -- intros H. apply Forall_cons in H. tauto.
      * intros p Hp. destruct (IH3 p Hp) as (antes & g & pre & depois & Hl
                                            & Hg & Ha & Hpath).
        exists (f :: antes), g, pre, depois. rewrite Hl.
        repeat split; [exact Hg| |exact Hpath].
        constructor; assumption.
Qed.

(** ** The life-form column of the search page *)

Lemma unique_desde_In {A} `{EqDecision A} (l : list A) : forall vistos x,
  In x (PyMais.unique_desde vistos l) <-> In x l /\ x ∉ vistos.
Proof.
  induction l as [|a l IH]; intros vistos x; cbn [PyMais.unique_desde].
  - simpl. tauto.
  - destruct (decide (a ∈ vistos)) as [Ha|Ha].
    + rewrite IH. simpl. split; [tauto|].
      intros [[->|H1] H2]; [contradiction|tauto].
    + simpl. rewrite IH, not_elem_of_cons. split.
      * intros [->|(H1 & H2 & H3)]; [tauto|tauto].
      * intros [[->|H1] H2]; [tauto|].
        destruct (decide (x = a)) as [->|Hne]; [tauto|]. right. tauto.
Qed.

Lemma unique_desde_length {A} `{EqDecision A} (l : list A) : forall vistos,
  (length (PyMais.unique_desde vistos l) <= length l)%nat.
Proof.
  induction l as [|a l IH]; intros vistos; cbn [PyMais.unique_desde];
    [reflexivity|].
  destruct (decide (a ∈ vistos)); cbn [length].
  - specialize (IH vistos). lia.
  - specialize (IH (a :: vistos)). lia.
Qed.

Lemma nomes_presentes_In (l : list (option string)) (n : string) :
  In n (Busca.nomes_presentes l) <-> In (Some n) l.
Proof.
  induction l as [|[a|] l IH]; cbn [Busca.nomes_presentes]; simpl.
  - tauto.
  - rewrite IH. split; [intros [->|H]; tauto|].
    intros [E|H]; [injection E as ->; tauto|tauto].
  - rewrite IH. split; [tauto|]. intros [E|H]; [discriminate|tauto].
Qed.

Lemma nomes_presentes_length (l : list (option string)) :
  (length (Busca.nomes_presentes l) <= length l)%nat.
Proof.
  induction l as [|[a|] l IH]; cbn [Busca.nomes_presentes length]; lia.
Qed.

Lemma nomes_da_tabela (df : list Busca.LinhaGbif) (n : string) :
  In n (Busca.nomes_presentes (PyMais.unique (map Busca.Nome_Cientifico df)))
  <-> exists row, In row df /\ Busca.Nome_Cientifico row = Some n.
Proof.
  rewrite nomes_presentes_In. unfold PyMais.unique.
  rewrite unique_desde_In, in_map_iff. split.
  - intros [(row & H1 & H2) _]. eauto.
  - intros (row & H1 & H2). split; [eauto|]. apply not_elem_of_nil.
Qed.

(** X21.  The column [Forma_de_Vida] of the search page: a row with a
    non-empty name gets the value the session cache holds for that name
    after the call, which exists; a row with no name or an empty one gets
    "Não categorizado".  The names looked up are the distinct non-empty
    uncached names of the table, each once, so at most one per row. *)
Theorem X21_life_form_column `{F : Helpers.FloraAPI}
    (df : list Busca.LinhaGbif) (s : Helpers.Sessao) :
  let r := Busca.forma_de_vida df s in
  fst r
  = map (fun row =>
           match Busca.Nome_Cientifico row with
           | Some n =>
               if Py.str_truthy n
               then default Helpers.nao_categorizado
                      (Helpers.cache_of (snd r) !! n)
               else Helpers.nao_categorizado
           | None => Helpers.nao_categorizado
           end) df
  /\ (forall row n, In row df -> Busca.Nome_Cientifico row = Some n ->
        n <> ""%string -> is_Some (Helpers.cache_of (snd r) !! n))
  /\ exists novos,
       Helpers.consultas (snd r) = Helpers.consultas s ++ novos
       /\ List.NoDup novos
       /\ (forall n, In n novos
                     <-> (exists row, In row df
                                      /\ Busca.Nome_Cientifico row = Some n)
                         /\ n <> ""%string
                         /\ Helpers.cache_of s !! n = None)
       /\ (length novos <= length df)%nat.
Proof.
  intros r. subst r. unfold Busca.forma_de_vida.
  set (names := Busca.nomes_presentes
                  (PyMais.unique (map Busca.Nome_Cientifico df))).
  destruct (get_plant_traits_spec names s) as (Hq & _ & _ & Ht & _).
  destruct (names_to_fetch_spec names s) as [Hnd Hl].
  cbv zeta in Hq, Ht.
  destruct (Helpers.get_plant_traits names s) as [plant_traits s'] eqn:E.
  cbn [fst snd] in *.
  assert (Hs' : s' = snd (Helpers.get_plant_traits names s))
    by (rewrite E; reflexivity).
  split; [|split].
  - apply map_ext_in. intros row Hrow.
    destruct (Busca.Nome_Cientifico row) as [n|] eqn:En; [|reflexivity].
    rewrite Ht. destruct (Py.str_truthy n) eqn:Et.
    + rewrite decide_True; [reflexivity|]. split.
      * apply list_elem_of_In. apply nomes_da_tabela. eauto.
      * apply str_truthy_iff. exact Et.
    + rewrite decide_False; [reflexivity|].
      intros [_ Hne]. apply str_truthy_iff in Hne. congruence.
  - intros row n Hrow En Hne. rewrite Hs'.
    apply get_plant_traits_caches; [|exact Hne].
    apply nomes_da_tabela. eauto.
  - exists (Helpers.names_to_fetch names s).
    split; [exact Hq|]. split; [exact Hnd|]. split.
    + intros n. rewrite Hl. unfold names. rewrite nomes_da_tabela.
      reflexivity.
    + apply Nat.le_trans with (length names).
      * apply List.NoDup_incl_length; [exact Hnd|].
        intros n Hn. apply Hl in Hn. tauto.
      * unfold names.
        eapply Nat.le_trans; [apply nomes_presentes_length|].
        unfold PyMais.unique.
        eapply Nat.le_trans; [apply unique_desde_length|].
        rewrite length_map. reflexivity.
Qed.
